(** * Verification of the azure-cli feedback utility and the IoT repository
      upsert model

    Shallow embedding of

    - [azure/cli/command_modules/feedback/custom.py]
      ([CommandLogFile], [ErrorMinifier], [_build_issue_info_tup],
       [_get_minified_issue_url], [_get_command_log_files]) and
    - [.../iot/digitaltwinrepositoryprovisioningservice/models/
       repository_upsert_request_properties.py]

    Conventions of the embedding.

    - A Python [str] is a [string]; a character is read as the code point
      with the same number (0..255).  The Python built-ins used by the
      source ([splitlines], [split], [strip], [replace], [lower], [int],
      ...) are written out in [Module Py] with CPython 3 semantics on those
      code points.
    - [os.path] is [posixpath] ([Module PosixPath]).
    - A finite [float] is kept as the rational number it denotes; the one
      operation on floats, the division of two integers, rounds as
      binary64 does ([Py.truediv]).
    - A Python call either returns or raises; a [while] loop whose
      termination is not evident runs on fuel.  [outcome] has the three
      cases, and [M] threads the object store through them.
    - Python lists that are shared and updated in place (the [errors]
      list of a command, aliased by [ErrorMinifier._errors_list]) and the
      [ErrorMinifier] objects themselves live in a [store], addressed by
      location. *)

From Stdlib Require Import ZArith QArith Ascii String Lia Bool.
From stdpp Require Import base option list gmap strings pretty.

Local Open Scope Z_scope.

(* ================================================================== *)
(** * Python built-ins on strings *)
(* ================================================================== *)

Module Py.

Definition chr (n : N) : ascii := ascii_of_N n.
Definition ord (c : ascii) : N := N_of_ascii c.

Definition LF : ascii := chr 10.
Definition DQUOTE : ascii := chr 34.
Definition CR : ascii := chr 13.

(** The one-character string of a line feed. *)
Definition NL : string := String LF EmptyString.

(** [len(s)] as a Python integer. *)
Definition len (s : string) : Z := Z.of_nat (String.length s).

(** Line boundaries of [str.splitlines] below U+0100:
    \n \x0b \x0c \r \x1c \x1d \x1e \x85. *)
Definition is_linebreak (c : ascii) : bool :=
  let n := ord c in
  ((10 <=? n) && (n <=? 13) || (28 <=? n) && (n <=? 30) || (n =? 133))%N.

(** Whitespace of [str.strip] / [str.isspace] below U+0100:
    \t \n \x0b \x0c \r \x1c \x1d \x1e \x1f space \x85 \xa0. *)
Definition is_space (c : ascii) : bool :=
  let n := ord c in
  ((9 <=? n) && (n <=? 13) || (28 <=? n) && (n <=? 32)
   || (n =? 133) || (n =? 160))%N.

Definition is_digit (c : ascii) : bool :=
  let n := ord c in ((48 <=? n) && (n <=? 57))%N.

Definition digit_val (c : ascii) : Z := Z.of_N (ord c) - 48.

(** [s.startswith(p)] *)
Fixpoint startswith (s p : string) {struct p} : bool :=
  match p with
  | EmptyString => true
  | String a p' =>
      match s with
      | EmptyString => false
      | String b s' => Ascii.eqb a b && startswith s' p'
      end
  end.

(** [sub in s] *)
Fixpoint contains (sub s : string) : bool :=
  startswith s sub ||
  match s with
  | EmptyString => false
  | String _ s' => contains sub s'
  end.

(** [s[n:]] for [0 <= n] *)
Fixpoint drop (n : nat) (s : string) : string :=
  match n, s with
  | O, _ => s
  | S n', String _ s' => drop n' s'
  | S _, EmptyString => EmptyString
  end.

(** [s[:n]] for [0 <= n] *)
Fixpoint take (n : nat) (s : string) : string :=
  match n, s with
  | S n', String c s' => String c (take n' s')
  | _, _ => EmptyString
  end.

(** [s.endswith(p)] *)
Definition endswith (s p : string) : bool :=
  (String.length p <=? String.length s)%nat &&
  String.eqb (drop (String.length s - String.length p) s) p.

(** [s * n] *)
Fixpoint mul (s : string) (n : nat) : string :=
  match n with
  | O => EmptyString
  | S n' => s +:+ mul s n'
  end.

(** [sep.join(l)] *)
Fixpoint join (sep : string) (l : list string) : string :=
  match l with
  | [] => EmptyString
  | [x] => x
  | x :: xs => x +:+ sep +:+ join sep xs
  end.

(** Put [c] in front of the first piece of a split under construction. *)
Definition cons_first (c : ascii) (l : list string) : list string :=
  match l with
  | [] => [String c EmptyString]
  | x :: xs => String c x :: xs
  end.

(** [s.split(sep)] for a one-character separator. *)
Fixpoint split (sep : ascii) (s : string) : list string :=
  match s with
  | EmptyString => [EmptyString]
  | String c s' =>
      if Ascii.eqb c sep then EmptyString :: split sep s'
      else cons_first c (split sep s')
  end.

(** [s.split(sep, maxsplit)] for a one-character separator. *)
Fixpoint split_max (sep : ascii) (maxsplit : nat) (s : string) {struct s}
  : list string :=
  match maxsplit with
  | O => [s]
  | S m =>
      match s with
      | EmptyString => [EmptyString]
      | String c s' =>
          if Ascii.eqb c sep then EmptyString :: split_max sep m s'
          else cons_first c (split_max sep maxsplit s')
      end
  end.

(** [s.splitlines()]: a line ends at a line boundary, a carriage return
    with the line feed after it is one boundary, and nothing follows the
    last boundary of the text. *)
Fixpoint splitlines (s : string) : list string :=
  match s with
  | EmptyString => []
  | String c s' =>
      if is_linebreak c then
        match s' with
        | String c2 s'' =>
            if Ascii.eqb c CR && Ascii.eqb c2 LF
            then EmptyString :: splitlines s''
            else EmptyString :: splitlines s'
        | EmptyString => [EmptyString]
        end
      else cons_first c (splitlines s')
  end.

(** [s.replace(old, new)] for a non-empty [old]: occurrences are found
    left to right and do not overlap.  [skip] counts the characters of the
    occurrence being replaced that are still to be passed over. *)
Fixpoint replace_from (old new : string) (skip : nat) (s : string) : string :=
  match s with
  | EmptyString => EmptyString
  | String c s' =>
      match skip with
      | S k => replace_from old new k s'
      | O =>
          if startswith s old
          then new +:+ replace_from old new (String.length old - 1) s'
          else String c (replace_from old new O s')
      end
  end.

Definition replace (s old new : string) : string :=
  replace_from old new O s.

Fixpoint lstrip (s : string) : string :=
  match s with
  | EmptyString => EmptyString
  | String c s' => if is_space c then lstrip s' else s
  end.

Fixpoint rstrip (s : string) : string :=
  match s with
  | EmptyString => EmptyString
  | String c s' =>
      match rstrip s' with
      | EmptyString => if is_space c then EmptyString else String c EmptyString
      | r => String c r
      end
  end.

(** [s.strip()] *)
Definition strip (s : string) : string := rstrip (lstrip s).

(** [s.rstrip(c)] for a one-character set. *)
Fixpoint rstrip_char (ch : ascii) (s : string) : string :=
  match s with
  | EmptyString => EmptyString
  | String c s' =>
      match rstrip_char ch s' with
      | EmptyString =>
          if Ascii.eqb c ch then EmptyString else String c EmptyString
      | r => String c r
      end
  end.

Fixpoint lstrip_char (ch : ascii) (s : string) : string :=
  match s with
  | EmptyString => EmptyString
  | String c s' => if Ascii.eqb c ch then lstrip_char ch s' else s
  end.

(** [s.strip(c)] for a one-character set. *)
Definition strip_char (ch : ascii) (s : string) : string :=
  rstrip_char ch (lstrip_char ch s).

(** [c.lower()] below U+0100: A-Z, and the letters U+00C0..U+00DE other
    than the multiplication sign U+00D7. *)
Definition lower_char (c : ascii) : ascii :=
  let n := ord c in
  if ((65 <=? n) && (n <=? 90)
      || (192 <=? n) && (n <=? 222) && negb (n =? 215))%N
  then chr (n + 32) else c.

Fixpoint lower (s : string) : string :=
  match s with
  | EmptyString => EmptyString
  | String c s' => String (lower_char c) (lower s')
  end.

(** Position of the last occurrence of [c], counted as the number of
    characters up to and including it; [0] when there is none
    ([s.rfind(c) + 1]). *)
Fixpoint rfind_succ (c : ascii) (s : string) : nat :=
  match s with
  | EmptyString => O
  | String a s' =>
      match rfind_succ c s' with
      | O => if Ascii.eqb a c then 1%nat else O
      | S k => S (S k)
      end
  end.

(** [s.index(c)]; [None] stands for [ValueError]. *)
Fixpoint index (c : ascii) (s : string) : option nat :=
  match s with
  | EmptyString => None
  | String a s' => if Ascii.eqb a c then Some O else option_map S (index c s')
  end.

(** All characters of [s] are [c]  ([s == c * len(s)]). *)
Fixpoint all_char (c : ascii) (s : string) : bool :=
  match s with
  | EmptyString => true
  | String a s' => Ascii.eqb a c && all_char c s'
  end.

(** The digits of a decimal literal after its sign: digits, with single
    underscores allowed between two digits.  [None] is a syntax error. *)
Fixpoint int_digits (acc : Z) (after_digit : bool) (s : string) : option Z :=
  match s with
  | EmptyString => if after_digit then Some acc else None
  | String c s' =>
      if is_digit c then int_digits (10 * acc + digit_val c) true s'
      else if Ascii.eqb c "_"%char && after_digit then
        match s' with
        | String d _ => if is_digit d then int_digits acc false s' else None
        | EmptyString => None
        end
      else None
  end.

(** Whitespace that [int] skips around a literal below U+0100:
    \t \n \x0b \x0c \r space \x85 \xa0.  Unlike [str.strip], [int] does
    not skip \x1c \x1d \x1e \x1f. *)
Definition is_int_space (c : ascii) : bool :=
  let n := ord c in
  ((9 <=? n) && (n <=? 13) || (n =? 32) || (n =? 133) || (n =? 160))%N.

Fixpoint int_lstrip (s : string) : string :=
  match s with
  | EmptyString => EmptyString
  | String c s' => if is_int_space c then int_lstrip s' else s
  end.

Fixpoint int_rstrip (s : string) : string :=
  match s with
  | EmptyString => EmptyString
  | String c s' =>
      match int_rstrip s' with
      | EmptyString =>
          if is_int_space c then EmptyString else String c EmptyString
      | r => String c r
      end
  end.

(** [int(s)] in base 10: surrounding whitespace, an optional sign, then
    the digits.  [None] stands for [ValueError]. *)
Definition int (s : string) : option Z :=
  match int_rstrip (int_lstrip s) with
  | String "+" r => int_digits 0 false r
  | String "-" r => option_map Z.opp (int_digits 0 false r)
  | r => int_digits 0 false r
  end.

(** A finite [float] is kept as the rational number it denotes, in lowest
    terms.  The nearest integer to [num / den], a tie going to the even
    one, for [0 <= num] and [0 < den]. *)
Definition round_half_even (num den : Z) : Z :=
  let q := num / den in
  match 2 * (num mod den) ?= den with
  | Lt => q
  | Gt => q + 1
  | Eq => if Z.even q then q else q + 1
  end.

(** The [e] with [2 ^ e <= n / d < 2 ^ (e + 1)], for [0 < n] and [0 < d]. *)
Definition binary_exponent (n d : Z) : Z :=
  let e := Z.log2 n - Z.log2 d in
  if (if 0 <=? e then n <? d * 2 ^ e else n * 2 ^ (- e) <? d)
  then e - 1 else e.

(** [a / b] for two [int]s with [0 < b]: the exact quotient rounded once to
    the nearest number with 53 significant bits, a tie going to the even
    one.  (Quotients outside the normal range of binary64, which no
    difference of two [datetime]s divided by [10**6] reaches, are not
    modelled.) *)
Definition truediv (a b : Z) : Q :=
  if a =? 0 then 0%Q
  else
    let n := Z.abs a in
    let e := binary_exponent n b - 52 in
    if 0 <=? e
    then Qred (inject_Z (Z.sgn a * round_half_even n (b * 2 ^ e) * 2 ^ e))
    else Qred (Qmake (Z.sgn a * round_half_even (n * 2 ^ (- e)) b)
                     (Z.to_pos (2 ^ (- e)))).

(** [urllib.parse.quote_plus]: the text is encoded in UTF-8; letters,
    digits and [_.-~] stand for themselves, a space becomes [+], and any
    other byte becomes [%XX] in upper-case hexadecimal. *)
Definition hex_digit (n : N) : ascii :=
  if (n <? 10)%N then chr (48 + n) else chr (55 + n).

Definition percent_byte (n : N) : string :=
  String "%" (String (hex_digit (n / 16)) (String (hex_digit (n mod 16))
                                             EmptyString)).

Definition is_unreserved (c : ascii) : bool :=
  let n := ord c in
  ((48 <=? n) && (n <=? 57) || (65 <=? n) && (n <=? 90)
   || (97 <=? n) && (n <=? 122)
   || (n =? 95) || (n =? 46) || (n =? 45) || (n =? 126))%N.

Definition quote_plus_char (c : ascii) : string :=
  let n := ord c in
  if is_unreserved c then String c EmptyString
  else if (n =? 32)%N then "+"
  else if (n <? 128)%N then percent_byte n
  else percent_byte (192 + n / 64) +:+ percent_byte (128 + n mod 64).

Fixpoint quote_plus (s : string) : string :=
  match s with
  | EmptyString => EmptyString
  | String c s' => quote_plus_char c +:+ quote_plus s'
  end.

(** [urlencode] of a dictionary of strings, in insertion order. *)
Definition urlencode (query : list (string * string)) : string :=
  join "&" (map (fun kv => quote_plus (fst kv) +:+ "=" +:+ quote_plus (snd kv))
              query).

(** Lexicographic order on code points, the order [sorted] uses. *)
Fixpoint str_ltb (a b : string) : bool :=
  match a, b with
  | _, EmptyString => false
  | EmptyString, String _ _ => true
  | String x a', String y b' =>
      (ord x <? ord y)%N || ((ord x =? ord y)%N && str_ltb a' b')
  end.

Fixpoint insert_sorted (x : string) (l : list string) : list string :=
  match l with
  | [] => [x]
  | y :: ys => if str_ltb y x then y :: insert_sorted x ys else x :: l
  end.

(** [sorted(l)] (stable; on strings equal elements are indistinguishable). *)
Definition sorted (l : list string) : list string :=
  foldr insert_sorted [] l.

(** [s.split()]: the words between runs of whitespace. *)
Fixpoint split_ws (s : string) : list string :=
  match s with
  | EmptyString => []
  | String c s' =>
      if is_space c then split_ws s'
      else
        match s' with
        | String c' _ =>
            if is_space c' then String c EmptyString :: split_ws s'
            else cons_first c (split_ws s')
        | EmptyString => [String c EmptyString]
        end
  end.

End Py.


(* ================================================================== *)
(** * [posixpath] *)
(* ================================================================== *)

Module PosixPath.

Definition sep : ascii := "/"%char.

(** [i = p.rfind('/') + 1] *)
Definition cut (p : string) : nat := Py.rfind_succ sep p.

(** [head = p[:i]], stripped of trailing slashes unless it is all slashes. *)
Definition head_of (p : string) : string :=
  let head := Py.take (cut p) p in
  if negb (String.eqb head EmptyString) && negb (Py.all_char sep head)
  then Py.rstrip_char sep head else head.

Definition basename (p : string) : string := Py.drop (cut p) p.

Definition dirname (p : string) : string := head_of p.

(** [os.path.split(p)] *)
Definition split (p : string) : string * string := (head_of p, basename p).

(** [os.path.join(a, b)] *)
Definition join (a b : string) : string :=
  if Py.startswith b "/" then b
  else if String.eqb a EmptyString || Py.endswith a "/" then a +:+ b
  else a +:+ "/" +:+ b.

End PosixPath.

(* ================================================================== *)
(** * Outcomes of a call *)
(* ================================================================== *)

(** The exceptions the modelled code can raise. *)
Inductive exn := IndexError | ValueError | AttributeError | CLIError.

#[global] Instance exn_eq_dec : EqDecision exn.
Proof. solve_decision. Defined.

(** A call returns, raises, or (for a loop run on fuel) is cut short. *)
Inductive outcome (A : Type) :=
  | Return (a : A)
  | Raise (e : exn)
  | OutOfFuel.
Arguments Return {A} a.
Arguments Raise {A} e.
Arguments OutOfFuel {A}.

(** Sequencing of calls that do not touch the store. *)
Definition obind {A B} (o : outcome A) (k : A -> outcome B) : outcome B :=
  match o with
  | Return a => k a
  | Raise e => Raise e
  | OutOfFuel => OutOfFuel
  end.

(** An [option] whose [None] is the exception [e]. *)
Definition or_raise {A} (e : exn) (o : option A) : outcome A :=
  match o with
  | Some a => Return a
  | None => Raise e
  end.

Declare Scope O_scope.
Delimit Scope O_scope with O.
Notation "x <- m ;; k" := (obind m (fun x => k))
  (at level 100, m at next level, right associativity) : O_scope.

(* ================================================================== *)
(** * [datetime] as far as the feedback module uses it *)
(* ================================================================== *)

Module Datetime.

Record datetime := mk {
  year : Z; month : Z; day : Z;
  hour : Z; minute : Z; second : Z; microsecond : Z
}.

Definition between (lo hi : ascii) (c : ascii) : bool :=
  ((Py.ord lo <=? Py.ord c) && (Py.ord c <=? Py.ord hi))%N.

(** The directives of ["%Y-%m-%d-%H-%M-%S"] as [_strptime] compiles them:
    [%Y] is [\d\d\d\d], [%m] is [1[0-2]|0[1-9]|[1-9]],
    [%d] is [3[01]|[12]\d|0[1-9]|[1-9]| [1-9]], [%H] is [2[0-3]|[0-1]\d|\d],
    [%M] is [[0-5]\d|\d] and [%S] is [6[0-1]|[0-5]\d|\d]. *)
Definition match_Y (s : string) : bool :=
  match s with
  | String a (String b (String c (String d EmptyString))) =>
      Py.is_digit a && Py.is_digit b && Py.is_digit c && Py.is_digit d
  | _ => false
  end.

Definition match_m (s : string) : bool :=
  match s with
  | String a (String b EmptyString) =>
      Ascii.eqb a "1" && between "0" "2" b || Ascii.eqb a "0" && between "1" "9" b
  | String a EmptyString => between "1" "9" a
  | _ => false
  end.

Definition match_d (s : string) : bool :=
  match s with
  | String a (String b EmptyString) =>
      Ascii.eqb a "3" && between "0" "1" b
      || between "1" "2" a && Py.is_digit b
      || Ascii.eqb a "0" && between "1" "9" b
      || Ascii.eqb a " " && between "1" "9" b
  | String a EmptyString => between "1" "9" a
  | _ => false
  end.

Definition match_H (s : string) : bool :=
  match s with
  | String a (String b EmptyString) =>
      Ascii.eqb a "2" && between "0" "3" b || between "0" "1" a && Py.is_digit b
  | String a EmptyString => Py.is_digit a
  | _ => false
  end.

Definition match_M (s : string) : bool :=
  match s with
  | String a (String b EmptyString) => between "0" "5" a && Py.is_digit b
  | String a EmptyString => Py.is_digit a
  | _ => false
  end.

Definition match_S (s : string) : bool :=
  match s with
  | String a (String b EmptyString) =>
      Ascii.eqb a "6" && between "0" "1" b || between "0" "5" a && Py.is_digit b
  | String a EmptyString => Py.is_digit a
  | _ => false
  end.

Definition is_leap (y : Z) : bool :=
  (y mod 4 =? 0) && (negb (y mod 100 =? 0) || (y mod 400 =? 0)).

Definition days_in_month (y m : Z) : Z :=
  if m =? 2 then (if is_leap y then 29 else 28)
  else if (m =? 4) || (m =? 6) || (m =? 9) || (m =? 11) then 30 else 31.

Definition days_before_year (y : Z) : Z :=
  let y := y - 1 in y * 365 + y / 4 - y / 100 + y / 400.

Fixpoint days_before_month_from (y : Z) (k : nat) : Z :=
  match k with
  | O => 0
  | S k' => days_before_month_from y k' + days_in_month y (Z.of_nat k)
  end.

Definition days_before_month (y m : Z) : Z :=
  days_before_month_from y (Z.to_nat (m - 1)).

Definition toordinal (d : datetime) : Z :=
  days_before_year (year d) + days_before_month (year d) (month d) + day d.

(** The checks of the [datetime] constructor. *)
Definition valid (d : datetime) : bool :=
  (1 <=? year d) && (year d <=? 9999) &&
  (1 <=? month d) && (month d <=? 12) &&
  (1 <=? day d) && (day d <=? days_in_month (year d) (month d)) &&
  (0 <=? hour d) && (hour d <=? 23) &&
  (0 <=? minute d) && (minute d <=? 59) &&
  (0 <=? second d) && (second d <=? 59).

(** [datetime.strptime(s, "%Y-%m-%d-%H-%M-%S")].  No directive matches a
    dash, so the dashes of the format cut [s] into its six fields; each
    must match its directive in full, and the constructor then checks the
    calendar.  Every failure is a [ValueError]. *)
Definition strptime (s : string) : outcome datetime :=
  match Py.split "-" s with
  | [sY; sm; sd; sH; sM; sS] =>
      if match_Y sY && match_m sm && match_d sd
         && match_H sH && match_M sM && match_S sS
      then
        match Py.int sY, Py.int sm, Py.int sd, Py.int sH, Py.int sM, Py.int sS with
        | Some y, Some m, Some d, Some H, Some Mi, Some Se =>
            let dt := mk y m d H Mi Se 0 in
            if valid dt then Return dt else Raise ValueError
        | _, _, _, _, _, _ => Raise ValueError
        end
      else Raise ValueError
  | _ => Raise ValueError
  end.

(** [(a - b)] in microseconds. *)
Definition sub_us (a b : datetime) : Z :=
  (((toordinal a - toordinal b) * 86400
    + (hour a - hour b) * 3600 + (minute a - minute b) * 60
    + (second a - second b)) * 1000000
   + (microsecond a - microsecond b)).

(** [(a - b).total_seconds()]: the microseconds divided by [10**6], a
    [float]. *)
Definition total_seconds (a b : datetime) : Q := Py.truediv (sub_us a b) 1000000.

End Datetime.

(* ================================================================== *)
(** * Records of the feedback module *)
(* ================================================================== *)

(** [_LogMetadataType]: what the name of a command log file says;
    [seconds_ago] is a [float]. *)
Module LogMetadata.
Record t := mk {
  cmd : string;
  seconds_ago : Q;
  file_path : string;
  p_id : Z
}.
End LogMetadata.

(** [CommandLogFile._LogRecordType]: one record of a command log. *)
Module LogRecord.
Record t := mk {
  p_id : Z;
  date_time : string;
  level : string;
  logger : string;
  log_msg : string
}.
End LogRecord.

Definition loc := nat.

(** The dictionary [_get_command_data_from_metadata] builds; a key that is
    absent is [None], and [errors] holds a reference to a list. *)
Module CommandData.
Record t := mk {
  success : option bool;
  errors : option loc;
  extension_name : option string;
  extension_version : option string;
  command_args : option string
}.
Definition empty : t := mk None None None None None.
(** Truth value of the dictionary: it has a key. *)
Definition truthy (d : t) : bool :=
  bool_decide (is_Some (success d)) || bool_decide (is_Some (errors d))
  || bool_decide (is_Some (extension_name d))
  || bool_decide (is_Some (extension_version d))
  || bool_decide (is_Some (command_args d)).
End CommandData.

(** The attributes of an [ErrorMinifier] object: [_errors_list] is a
    reference to the list the constructor was given. *)
Module ErrorMinifierObj.
Record t := mk {
  _errors_list : loc;
  _capacity : option Z;
  _minified_error : string
}.
End ErrorMinifierObj.

(** The attributes of a [CommandLogFile] object. *)
Module CommandLogFileObj.
Record t := mk {
  _command_name : option string;
  _log_file_path : string;
  _time_now : Datetime.datetime;
  _metadata : option LogMetadata.t;
  _data : option CommandData.t
}.
End CommandLogFileObj.

(* ================================================================== *)
(** * The object store and the monad [M] *)
(* ================================================================== *)

(** [knack] log levels used by the module's [logger]. *)
Inductive log_level := DEBUG | INFO | WARNING.


(** Python objects that are shared and mutated, and what the logger has
    been given so far (oldest first). *)
Record store := mkStore {
  lists : gmap loc (list string);
  minifiers : gmap loc ErrorMinifierObj.t;
  logfiles : gmap loc CommandLogFileObj.t;
  log : list (log_level * string)
}.

Definition M (A : Type) : Type := store -> outcome A * store.

Definition ret {A} (a : A) : M A := fun st => (Return a, st).

Definition bind {A B} (m : M A) (k : A -> M B) : M B :=
  fun st =>
    match m st with
    | (Return a, st') => k a st'
    | (Raise e, st') => (Raise e, st')
    | (OutOfFuel, st') => (OutOfFuel, st')
    end.

Definition raise {A} (e : exn) : M A := fun st => (Raise e, st).

Definition out_of_fuel {A} : M A := fun st => (OutOfFuel, st).

(** Lift a computation that does not touch the store. *)
Definition lift {A} (o : outcome A) : M A := fun st => (o, st).

(** [try: body except (e1, e2, ...): handler]  *)
Definition try_except {A} (body : M A) (es : list exn) (handler : M A) : M A :=
  fun st =>
    match body st with
    | (Raise e, st') =>
        if bool_decide (e ∈ es) then handler st' else (Raise e, st')
    | r => r
    end.

Declare Scope M_scope.
Delimit Scope M_scope with M.
Notation "x <- m ;; k" := (bind m (fun x => k))
  (at level 100, m at next level, right associativity) : M_scope.
Notation "m ;;; k" := (bind m (fun _ => k))
  (at level 100, right associativity) : M_scope.
Local Open Scope M_scope.

Definition exn_str (e : exn) : string :=
  match e with
  | IndexError => "IndexError"
  | ValueError => "ValueError"
  | AttributeError => "AttributeError"
  | CLIError => "CLIError"
  end.

(** [logger.<level>(msg)] *)
Definition logger (lvl : log_level) (msg : string) : M unit :=
  fun st => (Return tt,
             mkStore (lists st) (minifiers st) (logfiles st) (log st ++ [(lvl, msg)])).

(** Allocation of a fresh list, as a list display [[...]] evaluates to. *)
Definition new_list (l : list string) : M loc :=
  fun st =>
    let r := fresh (dom (lists st)) in
    (Return r, mkStore (<[r := l]> (lists st)) (minifiers st) (logfiles st) (log st)).

(** Reading the whole list behind a reference.  A name that is bound
    always refers to an object, so the [None] cases of the accessors below
    do not arise in a run. *)
Definition read_list (r : loc) : M (list string) :=
  fun st =>
    match lists st !! r with
    | Some l => (Return l, st)
    | None => (Raise AttributeError, st)
    end.

(** [l[i]] *)
Definition list_get (r : loc) (i : nat) : M string :=
  l <- read_list r ;;
  match l !! i with
  | Some x => ret x
  | None => raise IndexError
  end.

(** [l[i] = v], in place. *)
Definition list_set (r : loc) (i : nat) (v : string) : M unit :=
  fun st =>
    match lists st !! r with
    | Some l =>
        if decide (i < length l)%nat
        then (Return tt,
              mkStore (<[r := <[i := v]> l]> (lists st)) (minifiers st) (logfiles st) (log st))
        else (Raise IndexError, st)
    | None => (Raise AttributeError, st)
    end.

(** [l.append(v)], in place. *)
Definition list_append (r : loc) (v : string) : M unit :=
  fun st =>
    match lists st !! r with
    | Some l =>
        (Return tt, mkStore (<[r := l ++ [v]]> (lists st)) (minifiers st) (logfiles st) (log st))
    | None => (Raise AttributeError, st)
    end.

Definition new_minifier (m : ErrorMinifierObj.t) : M loc :=
  fun st =>
    let r := fresh (dom (minifiers st)) in
    (Return r, mkStore (lists st) (<[r := m]> (minifiers st)) (logfiles st) (log st)).

Definition read_minifier (r : loc) : M ErrorMinifierObj.t :=
  fun st =>
    match minifiers st !! r with
    | Some m => (Return m, st)
    | None => (Raise AttributeError, st)
    end.

Definition write_minifier (r : loc) (m : ErrorMinifierObj.t) : M unit :=
  fun st =>
    (Return tt, mkStore (lists st) (<[r := m]> (minifiers st)) (logfiles st) (log st)).

Definition new_logfile (o : CommandLogFileObj.t) : M loc :=
  fun st =>
    let r := fresh (dom (logfiles st)) in
    (Return r, mkStore (lists st) (minifiers st) (<[r := o]> (logfiles st)) (log st)).

(** Attribute access on an object reference; a name that is bound always
    refers to an object, so the second case does not arise in a run. *)
Definition read_logfile (r : loc) : M CommandLogFileObj.t :=
  fun st =>
    match logfiles st !! r with
    | Some o => (Return o, st)
    | None => (Raise AttributeError, st)
    end.

Definition write_logfile (r : loc) (o : CommandLogFileObj.t) : M unit :=
  fun st =>
    (Return tt, mkStore (lists st) (minifiers st) (<[r := o]> (logfiles st)) (log st)).

Definition empty_store : store := mkStore ∅ ∅ ∅ [].

(* ================================================================== *)
(** * repository_upsert_request_properties.py *)
(* ================================================================== *)

Module RepositoryUpsertRequestProperties.

(** The attributes of an instance; a Python value that is [None] or a
    [str] is an [option string]. *)
Record t := mk {
  id : option string;
  name : option string
}.

(** [_attribute_map]: attribute, wire key, wire type. *)
Definition _attribute_map : list (string * (string * string)) :=
  [("id", ("id", "str")); ("name", ("name", "str"))].

(** [__init__(self, id=None, name=None)]: an argument that the call leaves
    out ([None] here) takes its default, which is Python's [None]. *)
Definition __init__ (id_arg name_arg : option (option string)) : t :=
  let id := default None id_arg in
  let name := default None name_arg in
  {| id := id; name := name |}.

End RepositoryUpsertRequestProperties.


(* ================================================================== *)
(** * custom.py: [CommandLogFile] *)
(* ================================================================== *)

(** Constants imported from [azure.cli.core.azlogging]. *)
Class Azlogging := {
  _UNKNOWN_COMMAND : string;
  _CMD_LOG_LINE_PREFIX : string
}.

(** What the module asks of the operating system: [os.path.isfile],
    [os.listdir], the lines of a text file ([None] is [IOError]) and the
    clock. *)
Class OS := {
  isfile : string -> bool;
  listdir : string -> list string;
  open_lines : string -> option (list string);
  now : Datetime.datetime
}.

Module CommandLogFile.
Import CommandLogFileObj.

Section WithEnvironment.
Context `{Azlogging} `{OS}.

Definition UNKNOWN_CMD : string := "Unknown".

(** [_get_info_from_log_line(line, p_id)].  The loop over [enumerate(parts)]
    strips the five parts in order; at [i == 0] it converts the first to an
    integer and compares it with [p_id]. *)
Definition _get_info_from_log_line (line : string) (p_id : Z)
  : outcome (option LogRecord.t) :=
  if negb (Py.startswith line _CMD_LOG_LINE_PREFIX) then Return None
  else
    let line := Py.drop (String.length _CMD_LOG_LINE_PREFIX) line in
    let parts := Py.split_max "|" 4 line in
    if negb (length parts =? 5)%nat then Return None
    else
      match parts with
      | [part0; part1; part2; part3; part4] =>
          match Py.int (Py.strip part0) with
          | None => Raise ValueError
          | Some parts0 =>
              if negb (parts0 =? p_id)%Z then Return None
              else
                let parts1 := Py.strip part1 in
                let parts2 := Py.strip part2 in
                let parts3 := Py.strip part3 in
                let parts4 := Py.strip part4 in
                let parts4 :=
                  if negb (Py.endswith parts4 Py.NL)
                  then parts4 +:+ Py.NL else parts4 in
                Return (Some (LogRecord.mk parts0 parts1 parts2 parts3 parts4))
          end
      | _ => Return None
      end.

(** The body of [for line in log_fp] in [_get_log_record_list], with the
    two variables of the loop. *)
Fixpoint _get_log_record_list_loop (log_fp : list string) (p_id : Z)
    (prev_record : option LogRecord.t) (log_record_list : list LogRecord.t)
  : outcome (option LogRecord.t * list LogRecord.t) :=
  match log_fp with
  | [] => Return (prev_record, log_record_list)
  | line :: log_fp' =>
      (log_record <- _get_info_from_log_line line p_id ;;
       match log_record with
       | Some new_record =>
           let log_record_list :=
             match prev_record with
             | Some prev => log_record_list ++ [prev]
             | None => log_record_list
             end in
           _get_log_record_list_loop log_fp' p_id (Some new_record)
             log_record_list
       | None =>
           match prev_record with
           | Some prev =>
               let new_log_msg := LogRecord.log_msg prev +:+ line in
               let prev :=
                 LogRecord.mk (LogRecord.p_id prev) (LogRecord.date_time prev)
                   (LogRecord.level prev) (LogRecord.logger prev) new_log_msg in
               _get_log_record_list_loop log_fp' p_id (Some prev)
                 log_record_list
           | None =>
               _get_log_record_list_loop log_fp' p_id None log_record_list
           end
       end)%O
  end.

(** [_get_log_record_list(log_fp, p_id)] *)
Definition _get_log_record_list (log_fp : list string) (p_id : Z)
  : outcome (list LogRecord.t) :=
  (final <- _get_log_record_list_loop log_fp p_id None [] ;;
   let '(prev_record, log_record_list) := final in
   match prev_record with
   | Some prev => Return (log_record_list ++ [prev])
   | None => Return log_record_list
   end)%O.

(** [_get_command_metadata_from_file(self)], on the two attributes of
    [self] it reads. *)
Definition _get_command_metadata_from_file
    (log_file_path : string) (time_now : Datetime.datetime)
  : M (option LogMetadata.t) :=
  if String.eqb log_file_path EmptyString then ret None
  else
    parsed <-
      try_except
        (let '(_, file_name) := PosixPath.split log_file_path in
         match Py.split "." file_name with
         | [poss_date; poss_time; poss_command; poss_pid; _] =>
             date_time_stamp <-
               lift (Datetime.strptime (poss_date +:+ "-" +:+ poss_time)) ;;
             let command :=
               if negb (String.eqb poss_command _UNKNOWN_COMMAND)
               then "az " +:+ Py.replace poss_command "_" " "
               else UNKNOWN_CMD in
             ret (Some (date_time_stamp, command, poss_pid))
         | _ => raise ValueError
         end)
        [ValueError]
        (logger DEBUG
           ("Could not load metadata from file name " +:+ log_file_path +:+ ".") ;;;
         logger DEBUG (exn_str ValueError) ;;;
         ret None) ;;
    match parsed with
    | None => ret None
    | Some (date_time_stamp, command, poss_pid) =>
        let total_seconds := Datetime.total_seconds time_now date_time_stamp in
        p_id <- lift (or_raise ValueError (Py.int poss_pid)) ;;
        ret (Some (LogMetadata.mk command total_seconds log_file_path p_id))
    end.

(** [CommandLogFile(log_file_path, time_now)]; the result is the reference
    to the new object. *)
Definition __init__ (log_file_path : string)
    (time_now : option Datetime.datetime) : M loc :=
  if negb (isfile log_file_path) then raise ValueError
  else
    let time_now := default now time_now in
    metadata <- _get_command_metadata_from_file log_file_path time_now ;;
    new_logfile (mk None log_file_path time_now metadata None).

(** The property [metadata_tup]. *)
Definition metadata_tup (self : loc) : M (option LogMetadata.t) :=
  o <- read_logfile self ;; ret (_metadata o).

Definition _EXT_NAME_PREFIX : string := "extension name:".
Definition _EXT_VERS_PREFIX : string := "extension version:".

(** Step 1 of [_get_command_data_from_metadata]: the last record should
    be the exit code. *)
Definition data_exit_code (file_name : string)
    (log_record_list : list LogRecord.t) (log_data : CommandData.t)
  : M CommandData.t :=
  try_except
    (last_record <- lift (or_raise IndexError (last log_record_list)) ;;
     let status_msg := Py.strip (LogRecord.log_msg last_record) in
     if Py.startswith status_msg "exit code" then
       idx <- lift (or_raise ValueError (Py.index ":" status_msg)) ;;
       exit_code <-
         lift (or_raise ValueError
                 (Py.int (Py.strip (Py.drop (idx + 1)
                                      (LogRecord.log_msg last_record))))) ;;
       ret (CommandData.mk (Some (exit_code =? 0)%Z)
              (CommandData.errors log_data)
              (CommandData.extension_name log_data)
              (CommandData.extension_version log_data)
              (CommandData.command_args log_data))
     else ret log_data)
    [IndexError; ValueError]
    (logger DEBUG
       ("Couldn't extract exit code from command log " +:+ file_name +:+ ".") ;;;
     ret log_data).

(** Steps 2 and 3: the loop over the records. *)
Fixpoint data_records (log_record_list : list LogRecord.t)
    (log_data : CommandData.t) : M CommandData.t :=
  match log_record_list with
  | [] => ret log_data
  | record :: rest =>
      (* errors = log_data.setdefault("errors", []) *)
      errors <-
        match CommandData.errors log_data with
        | Some r => ret r
        | None => new_list []
        end ;;
      let log_data :=
        CommandData.mk (CommandData.success log_data) (Some errors)
          (CommandData.extension_name log_data)
          (CommandData.extension_version log_data)
          (CommandData.command_args log_data) in
      log_data <-
        (if String.eqb (Py.lower (LogRecord.level record)) "error" then
           list_append errors (LogRecord.log_msg record) ;;;
           ret (CommandData.mk (Some false) (Some errors)
                  (CommandData.extension_name log_data)
                  (CommandData.extension_version log_data)
                  (CommandData.command_args log_data))
         else ret log_data) ;;
      let poss_ext_msg := Py.strip (LogRecord.log_msg record) in
      let log_data :=
        if String.eqb (Py.lower (LogRecord.level record)) "info" then
          if Py.startswith poss_ext_msg _EXT_NAME_PREFIX then
            CommandData.mk (CommandData.success log_data)
              (CommandData.errors log_data)
              (Some (Py.strip (Py.drop (String.length _EXT_NAME_PREFIX)
                                 poss_ext_msg)))
              (CommandData.extension_version log_data)
              (CommandData.command_args log_data)
          else if Py.startswith poss_ext_msg _EXT_VERS_PREFIX then
            CommandData.mk (CommandData.success log_data)
              (CommandData.errors log_data)
              (CommandData.extension_name log_data)
              (Some (Py.strip (Py.drop (String.length _EXT_VERS_PREFIX)
                                 poss_ext_msg)))
              (CommandData.command_args log_data)
          else log_data
        else log_data in
      data_records rest log_data
  end.

(** Step 4: the command arguments, from the first record. *)
Definition data_command_args (file_name : string)
    (log_record_list : list LogRecord.t) (log_data : CommandData.t)
  : M CommandData.t :=
  try_except
    (first_record <- lift (or_raise IndexError (head log_record_list)) ;;
     let command_args_msg := Py.strip (LogRecord.log_msg first_record) in
     if Py.startswith (Py.lower command_args_msg) "command args:" then
       idx <- lift (or_raise ValueError (Py.index ":" command_args_msg)) ;;
       ret (CommandData.mk (CommandData.success log_data)
              (CommandData.errors log_data)
              (CommandData.extension_name log_data)
              (CommandData.extension_version log_data)
              (Some (Py.strip (Py.drop (idx + 1) command_args_msg))))
     else raise ValueError)
    [IndexError; ValueError]
    (logger DEBUG
       ("Couldn't get command args from command log " +:+ file_name +:+ ".") ;;;
     ret log_data).

(** [_get_command_data_from_metadata(self)] *)
Definition _get_command_data_from_metadata (self : loc) : M CommandData.t :=
  metadata <- metadata_tup self ;;
  match metadata with
  | None => ret CommandData.empty
  | Some md =>
      let file_name := LogMetadata.file_path md in
      let p_id := LogMetadata.p_id md in
      match open_lines file_name with
      | None =>
          logger DEBUG ("Failed to open command log file " +:+ file_name) ;;;
          ret CommandData.empty
      | Some log_fp =>
          log_record_list <- lift (_get_log_record_list log_fp p_id) ;;
          match log_record_list with
          | [] =>
              logger DEBUG
                ("No command log messages found in file " +:+ file_name) ;;;
              ret CommandData.empty
          | _ =>
              log_data <- data_exit_code file_name log_record_list
                            CommandData.empty ;;
              log_data <- data_records log_record_list log_data ;;
              data_command_args file_name log_record_list log_data
          end
      end
  end.

(** The property [command_data_dict], which caches a non-empty result. *)
Definition command_data_dict (self : loc) : M CommandData.t :=
  o <- read_logfile self ;;
  match _data o with
  | Some d =>
      if CommandData.truthy d then ret d
      else
        d <- _get_command_data_from_metadata self ;;
        write_logfile self
          (mk (_command_name o) (_log_file_path o) (_time_now o) (_metadata o)
             (Some d)) ;;;
        ret d
  | None =>
      d <- _get_command_data_from_metadata self ;;
      write_logfile self
        (mk (_command_name o) (_log_file_path o) (_time_now o) (_metadata o)
           (Some d)) ;;;
      ret d
  end.

(** [failed(self)] *)
Definition failed (self : loc) : M bool :=
  d <- command_data_dict self ;;
  if negb (CommandData.truthy d) then ret false
  else
    d <- command_data_dict self ;;
    ret (negb (default true (CommandData.success d))).

(** [get_command_status(self)] *)
Definition get_command_status (self : loc) : M string :=
  d <- command_data_dict self ;;
  if negb (CommandData.truthy d) then ret EmptyString
  else
    d <- command_data_dict self ;;
    match CommandData.success d with
    | None => ret "RUNNING"
    | Some was_successful =>
        ret (if was_successful then "SUCCESS" else "FAILURE")
    end.

(** The assignment [self._command_name = name]. *)
Definition set_command_name (self : loc) (name : string) : M unit :=
  o <- read_logfile self ;;
  write_logfile self
    (mk (Some name) (_log_file_path o) (_time_now o) (_metadata o) (_data o)).

(** [get_command_name_str(self)] *)
Definition get_command_name_str (self : loc) : M string :=
  o <- read_logfile self ;;
  match _command_name o with
  | Some name => ret name
  | None =>
      metadata <- metadata_tup self ;;
      match metadata with
      | None => ret EmptyString
      | Some md =>
          d <- command_data_dict self ;;
          let args := default EmptyString (CommandData.command_args d) in
          if negb (String.eqb (LogMetadata.cmd md) UNKNOWN_CMD) then
            let name := LogMetadata.cmd md in
            set_command_name self name ;;;
            if Py.contains "-h" args || Py.contains "--help" args then
              let name := name +:+ " --help" in
              set_command_name self name ;;; ret name
            else ret name
          else
            let name := UNKNOWN_CMD in
            set_command_name self name ;;;
            if negb (String.eqb args EmptyString) then
              let command_args :=
                if (Py.len args <? 16)%Z then args
                else Py.take 11 args +:+ " ..." in
              let command_args :=
                Py.replace
                  (Py.replace (Py.replace command_args "=" EmptyString)
                     "{" EmptyString)
                  "}" EmptyString in
              let name := name +:+ " (" +:+ command_args +:+ ") " in
              set_command_name self name ;;; ret name
            else ret name
      end
  end.

End WithEnvironment.
End CommandLogFile.

(* ================================================================== *)
(** * custom.py: [_get_command_log_files] *)
(* ================================================================== *)

(** The part of [cli_ctx] the module reads:
    [cli_ctx.logging.get_command_log_dir()]. *)
Record cli_ctx := mk_cli_ctx { get_command_log_dir : string }.

Section CommandLogFiles.
Context `{Azlogging} `{OS}.

(** The loop [for file_name in files] with its accumulator. *)
Fixpoint _get_command_log_files_loop (command_logs_dir : string)
    (time_now : option Datetime.datetime) (files : list string)
    (command_log_files : list loc) : M (list loc) :=
  match files with
  | [] => ret command_log_files
  | file_name :: files' =>
      let file_path := PosixPath.join command_logs_dir file_name in
      cmd_log_file <- CommandLogFile.__init__ file_path time_now ;;
      metadata <- CommandLogFile.metadata_tup cmd_log_file ;;
      command_log_files <-
        match metadata with
        | Some _ => ret (command_log_files ++ [cmd_log_file])
        | None =>
            logger DEBUG (file_path +:+ " is an invalid command log file.") ;;;
            ret command_log_files
        end ;;
      _get_command_log_files_loop command_logs_dir time_now files'
        command_log_files
  end.

(** [_get_command_log_files(cli_ctx, time_now)] *)
Definition _get_command_log_files (ctx : cli_ctx)
    (time_now : option Datetime.datetime) : M (list loc) :=
  let command_logs_dir := get_command_log_dir ctx in
  let files := listdir command_logs_dir in
  let files := List.filter (fun file_name => Py.endswith file_name ".log") files in
  let files := Py.sorted files in
  _get_command_log_files_loop command_logs_dir time_now files [].

End CommandLogFiles.

(* ================================================================== *)
(** * custom.py: [ErrorMinifier] *)
(* ================================================================== *)

Module ErrorMinifier.
Import ErrorMinifierObj.

(** The text [File ] followed by a double quote. *)
Definition FILE_QUOTE : string := "File " +:+ String Py.DQUOTE EmptyString.

(** [_FILE_RE.search(s)], giving group 1.  The pattern is [FILE_QUOTE],
    then a greedy group of any characters but the line feed, then a double
    quote: at the leftmost occurrence
    of [FILE_QUOTE] whose line has a later double quote, the group runs to
    the last double quote of that line. *)
Fixpoint _FILE_RE_search (s : string) : option string :=
  match s with
  | EmptyString => None
  | String _ s' =>
      if Py.startswith s FILE_QUOTE then
        let rest := Py.drop 6 s in
        let this_line := hd EmptyString (Py.split Py.LF rest) in
        match Py.rfind_succ Py.DQUOTE this_line with
        | S k => Some (Py.take k this_line)
        | O => _FILE_RE_search s'
        end
      else _FILE_RE_search s'
  end.

Definition _CONTINUATION_STR : string := "..." +:+ Py.NL.

(** The loop [for _ in range(levels - 1)] of [_shorten_file_name]. *)
Fixpoint _shorten_file_name_loop (n : nat) (new_name file_name : string)
  : string :=
  match n with
  | O => new_name
  | S n' =>
      _shorten_file_name_loop n'
        (PosixPath.join (PosixPath.basename file_name) new_name)
        (PosixPath.dirname file_name)
  end.

(** [_shorten_file_name(file_name, levels)] *)
Definition _shorten_file_name (file_name : string) (levels : Z) : string :=
  if (0 <? levels)%Z then
    _shorten_file_name_loop (Z.to_nat (levels - 1))
      (PosixPath.basename file_name) (PosixPath.dirname file_name)
  else file_name.

(** One turn of the loop of [_minify_by_shortening_file_names]: the line
    to append, or [None] for [continue].  In the first branch the line
    contains [", line"], so [parts] has the two elements the code
    indexes. *)
Definition shorten_line (levels : Z) (line : string) : option string :=
  if Py.startswith (Py.strip line) "File" && Py.contains ", line" line then
    let parts := Py.split "," line in
    let parts :=
      match parts with
      | parts0 :: parts1 :: rest =>
          match _FILE_RE_search parts0 with
          | Some group1 =>
              _shorten_file_name group1 levels
                :: Py.replace parts1 "line" "ln" :: rest
          | None => parts
          end
      | _ => parts
      end in
    Some (Py.join "," parts)
  else if Py.contains ".py" line && Py.contains ", ln" line then
    let parts := Py.split "," line in
    let parts :=
      match parts with
      | parts0 :: rest => _shorten_file_name parts0 levels :: rest
      | [] => parts
      end in
    Some (Py.join "," parts)
  else if Py.contains "here is the traceback" (Py.lower line) then None
  else Some line.

(** [_minify_by_shortening_file_names(error_string, levels)] *)
Definition _minify_by_shortening_file_names (error_string : string)
    (levels : Z) : string :=
  let new_lines := omap (shorten_line levels) (Py.splitlines error_string) in
  Py.join Py.NL new_lines.

(** Index of the first line that contains [marker]. *)
Fixpoint first_line_with (marker : string) (lines : list string)
  : option nat :=
  match lines with
  | [] => None
  | line :: rest =>
      if Py.contains marker line then Some O
      else option_map S (first_line_with marker rest)
  end.

(** [_minify_by_removing_nested_exceptions(error_string)] *)
Definition _minify_by_removing_nested_exceptions (error_string : string)
  : string :=
  let lines := Py.splitlines error_string in
  let idx : Z :=
    match first_line_with "During handling of the above exception" lines with
    | Some i => Z.of_nat i
    | None => Z.of_nat (length lines) - 1
    end in
  if (idx =? Z.of_nat (length lines) - 1)%Z then error_string
  else
    let lines :=
      take (Z.to_nat idx) lines ++ [_CONTINUATION_STR]
      ++ drop (length lines - 3) lines in
    Py.join Py.NL lines.

(** The loop [for i, line in enumerate(lines)] of
    [_minify_by_removing_lines]. *)
Fixpoint remove_lines_loop (mid i : nat) (lines new_lines : list string)
  : list string :=
  match lines with
  | [] => new_lines
  | line :: rest =>
      let new_lines :=
        if (i =? mid)%nat then new_lines ++ [Py.strip _CONTINUATION_STR]
        else new_lines in
      if (mid <=? i)%nat && (i <? mid + 4)%nat
      then remove_lines_loop mid (S i) rest new_lines
      else remove_lines_loop mid (S i) rest (new_lines ++ [line])
  end.

(** [_minify_by_removing_lines(error_string)]; [lines[mid]] raises
    [IndexError] when [mid] is not an index of [lines]. *)
Definition _minify_by_removing_lines (error_string : string)
  : outcome string :=
  let error_string := Py.replace error_string _CONTINUATION_STR EmptyString in
  let lines := Py.splitlines error_string in
  let mid := (length lines / 2 + 1)%nat in
  (lines_mid <- or_raise IndexError (lines !! mid) ;;
   let mid :=
     if negb (Py.contains ".py" lines_mid && Py.contains ", ln" lines_mid)
     then (mid - 1)%nat else mid in
   Return (Py.join Py.NL (remove_lines_loop mid O lines [])))%O.

(** [for i, error in enumerate(errors_list): errors_list[i] = f(error)],
    on the list behind the reference; [n] is the number of elements still
    to visit. *)
Fixpoint for_enumerate (errors_list : loc) (f : string -> string)
    (n i : nat) : M unit :=
  match n with
  | O => ret tt
  | S n' =>
      error <- list_get errors_list i ;;
      list_set errors_list i (f error) ;;;
      for_enumerate errors_list f n' (S i)
  end.

(** [while len(errors_string) > self._capacity:
       errors_string = self._minify_by_removing_lines(errors_string)] *)
Fixpoint remove_lines_while (fuel : nat) (capacity : Z)
    (errors_string : string) : outcome string :=
  if (Py.len errors_string <=? capacity)%Z then Return errors_string
  else
    match fuel with
    | O => OutOfFuel
    | S fuel' =>
        (errors_string <- _minify_by_removing_lines errors_string ;;
         remove_lines_while fuel' capacity errors_string)%O
    end.

(** One of the three blocks "rewrite every error, join, compare". *)
Definition rewrite_and_join (errors_list : loc) (f : string -> string)
  : M string :=
  l <- read_list errors_list ;;
  for_enumerate errors_list f (length l) O ;;;
  l <- read_list errors_list ;;
  ret (Py.join Py.NL l).

(** [_get_minified_errors(self)] *)
Definition _get_minified_errors (fuel : nat) (self : loc) : M string :=
  o <- read_minifier self ;;
  let errors_list := _errors_list o in
  l <- read_list errors_list ;;
  let errors_string := Py.join Py.NL l in
  match _capacity o with
  | None => ret errors_string
  | Some capacity =>
      if bool_decide (l = []) then ret EmptyString
      else if (Py.len errors_string <=? capacity)%Z then ret errors_string
      else
        errors_string <-
          rewrite_and_join errors_list
            (fun error => _minify_by_shortening_file_names error 5) ;;
        if (Py.len errors_string <=? capacity)%Z then ret errors_string
        else
          errors_string <-
            rewrite_and_join errors_list
              (fun error => _minify_by_shortening_file_names error 4) ;;
          if (Py.len errors_string <=? capacity)%Z then ret errors_string
          else
            errors_string <-
              rewrite_and_join errors_list
                _minify_by_removing_nested_exceptions ;;
            if (Py.len errors_string <=? capacity)%Z then ret errors_string
            else lift (remove_lines_while fuel capacity errors_string)
  end.

(** [ErrorMinifier(errors_list)]; the result is the reference to the new
    object, which keeps the reference [errors_list] it was given. *)
Definition __init__ (errors_list : loc) : M loc :=
  l <- read_list errors_list ;;
  new_minifier (mk errors_list None (Py.join Py.NL l)).

(** [set_capacity(self, capacity)] *)
Definition set_capacity (fuel : nat) (self : loc) (capacity : Z) : M unit :=
  logger DEBUG ("Capacity for error string: " +:+ pretty capacity) ;;;
  o <- read_minifier self ;;
  write_minifier self (mk (_errors_list o) (Some capacity) (_minified_error o)) ;;;
  minified <- _get_minified_errors fuel self ;;
  o <- read_minifier self ;;
  write_minifier self (mk (_errors_list o) (_capacity o) minified).

(** [__str__(self)] *)
Definition __str__ (self : loc) : M string :=
  o <- read_minifier self ;;
  if negb (String.eqb (_minified_error o) EmptyString)
  then ret ("```" +:+ Py.NL +:+ Py.strip (_minified_error o) +:+ Py.NL +:+ "```")
  else ret EmptyString.

End ErrorMinifier.

(* ================================================================== *)
(** * custom.py: building the issue and its URL *)
(* ================================================================== *)

Definition _MAX_URL_LENGTH : Z := 2035.

Definition _CLI_ISSUES_URL : string := "aka.ms/azcli/issues".
Definition _RAW_CLI_ISSUES_URL : string :=
  "https://github.com/Azure/azure-cli/issues/new".
Definition _EXTENSIONS_ISSUES_URL : string := "aka.ms/azcli/ext/issues".
Definition _RAW_EXTENSIONS_ISSUES_URL : string :=
  "https://github.com/Azure/azure-cli-extensions/issues/new".
Definition _AUTO_GEN_COMMENT : string := "<!--auto-generated-->".

(** What [_build_issue_info_tup] reads from outside the module:
    [platform.platform()], [platform.python_version()], the name
    [_get_parent_proc_name()] finds ([None] when there is no parent), the
    text [_get_az_version_summary()] returns, and
    [resolve_project_url_from_index], which may raise [CLIError]. *)
Class Platform := {
  platform_platform : string;
  platform_python_version : string;
  _get_parent_proc_name : option string;
  _get_az_version_summary : string;
  resolve_project_url_from_index : string -> outcome string
}.

(** The value under ["errors_string"]: a string or an [ErrorMinifier]. *)
Inductive errors_value :=
  | ErrStr (s : string)
  | ErrMinifier (r : loc).

Module FormatDict.
Record t := mk {
  command_name : string;
  errors_string : errors_value;
  executed_command : string;
  cli_version : string;
  python_info : string;
  platform : string;
  shell : string;
  auto_gen_comment : string
}.
End FormatDict.

(** [str(v)] for the value under ["errors_string"]. *)
Definition errors_value_str (v : errors_value) : M string :=
  match v with
  | ErrStr s => ret s
  | ErrMinifier r => ErrorMinifier.__str__ r
  end.

(** [_ISSUES_TEMPLATE.format] on the keys of [format_dict]. *)
Definition format_issues_template (d : FormatDict.t) : M string :=
  errors <- errors_value_str (FormatDict.errors_string d) ;;
  ret ("

### **This is autogenerated. Please review and update as needed.**

## Describe the bug

**Command Name**
`" +:+ FormatDict.command_name d +:+ "`

**Errors:**
" +:+ errors +:+ "

## To Reproduce:
Steps to reproduce the behavior. Note that argument values have been redacted, as they may contain sensitive information.

- _Put any pre-requisite steps here..._
- `" +:+ FormatDict.executed_command d +:+ "`

## Expected Behavior

## Environment Summary
```
" +:+ FormatDict.platform d +:+ "
" +:+ FormatDict.python_info d +:+ "
" +:+ FormatDict.shell d +:+ "

" +:+ FormatDict.cli_version d +:+ "
```
## Additional Context

<!--Please don't remove this:-->
" +:+ FormatDict.auto_gen_comment d +:+ "

").

(** [_ISSUES_TEMPLATE_PREFIX.format(url)] *)
Definition format_issues_template_prefix (url : string) : string :=
  "

BEGIN TEMPLATE
===============
**A browser has been opened to " +:+ url +:+ " to create an issue.**
**You can also run `az feedback --verbose` to emit the full output to stderr.**
".

Section IssueUrl.
Context `{Azlogging} `{OS} `{Platform}.

(** [_get_extension_repo_url(ext_name, raw)] *)
Definition _get_extension_repo_url (ext_name : string) (raw : bool)
  : M string :=
  let _GITHUB_URL_STR := "https://github.com" in
  let _NEW_ISSUES_STR := "/issues/new" in
  found <-
    try_except
      (project_url <- lift (resolve_project_url_from_index ext_name) ;;
       if Py.contains _GITHUB_URL_STR project_url
       then ret (Some (Py.strip_char "/" project_url +:+ _NEW_ISSUES_STR))
       else ret None)
      [CLIError]
      (logger DEBUG (exn_str CLIError) ;;; ret None) ;;
  match found with
  | Some url => ret url
  | None => ret (if raw then _RAW_EXTENSIONS_ISSUES_URL
                 else _EXTENSIONS_ISSUES_URL)
  end.

(** [_get_minified_issue_url(command_log_file, format_dict, is_ext,
    ext_name, capacity)]; [format_dict] is the caller's shallow copy. *)
Definition _get_minified_issue_url (fuel : nat)
    (command_log_file : option loc) (format_dict : FormatDict.t)
    (is_ext : bool) (ext_name : string) (capacity : Z)
  : M (string * string) :=
  let minified_errors := FormatDict.errors_string format_dict in
  let without_errors :=
    FormatDict.mk (FormatDict.command_name format_dict) (ErrStr EmptyString)
      (FormatDict.executed_command format_dict)
      (FormatDict.cli_version format_dict) (FormatDict.python_info format_dict)
      (FormatDict.platform format_dict) (FormatDict.shell format_dict)
      (FormatDict.auto_gen_comment format_dict) in
  no_errors_issue_body <- format_issues_template without_errors ;;
  match minified_errors with
  | ErrMinifier r =>
      logger DEBUG ("Length of issue body before errors added: "
                    +:+ pretty (Py.len no_errors_issue_body)) ;;;
      ErrorMinifier.set_capacity fuel r
        (capacity - Py.len no_errors_issue_body)
  | ErrStr _ => ret tt
  end ;;;
  minified_issue_body <- format_issues_template format_dict ;;
  formatted_issues_url <-
    (if is_ext then _get_extension_repo_url ext_name true
     else ret _RAW_CLI_ISSUES_URL) ;;
  let formatted_issues_url :=
    if negb (Py.startswith formatted_issues_url "http")
    then "https://" +:+ formatted_issues_url else formatted_issues_url in
  let query_dict := [("body", minified_issue_body)] in
  has_failed <-
    match command_log_file with
    | Some clf => CommandLogFile.failed clf
    | None => ret false
    end ;;
  let query_dict :=
    if has_failed then query_dict ++ [("template", "Bug_report.md")]
    else query_dict in
  let new_placeholder := Py.urlencode query_dict in
  let formatted_issues_url :=
    formatted_issues_url +:+ "?" +:+ new_placeholder in
  ret (formatted_issues_url, minified_issue_body).

(** The state of the retry loop of [_build_issue_info_tup]. *)
Record retry_state := mk_retry {
  formatted_issues_url : string;
  minified_issue_body : string;
  capacity : Z;
  tries : Z
}.

(** [while len(formatted_issues_url) > _MAX_URL_LENGTH and tries < 25: ...]
    around an arbitrary re-minification [step]. *)
Fixpoint retry_while (fuel : nat) (step : Z -> M (string * string))
    (s : retry_state) : M retry_state :=
  if (_MAX_URL_LENGTH <? Py.len (formatted_issues_url s))%Z
     && (tries s <? 25)%Z
  then
    match fuel with
    | O => out_of_fuel
    | S fuel' =>
        res <- step (capacity s) ;;
        let '(url, body) := res in
        retry_while fuel' step
          (mk_retry url body
             (capacity s - (Py.len url - _MAX_URL_LENGTH)) (tries s + 1))
    end
  else ret s.

(** The last resort: cut the URL and warn. *)
Definition truncate_and_warn (url : string) : M string :=
  if (_MAX_URL_LENGTH <? Py.len url)%Z then
    logger WARNING
      ("Failed to properly minify issue url. "
       +:+ "Please use 'az feedback --verbose' to get the full issue output.") ;;;
    ret (Py.take (Z.to_nat _MAX_URL_LENGTH) url)
  else ret url.

(** The part of [_build_issue_info_tup] under [if command_log_file:]. *)
Definition command_information (clf : loc) (format_dict : FormatDict.t)
  : M (FormatDict.t * bool * string) :=
  metadata <- CommandLogFile.metadata_tup clf ;;
  md <- lift (or_raise AttributeError metadata) ;;
  let command_name := LogMetadata.cmd md in
  let with_name (name : string) (errors : errors_value) (executed : string) :=
    FormatDict.mk name errors executed
      (FormatDict.cli_version format_dict) (FormatDict.python_info format_dict)
      (FormatDict.platform format_dict) (FormatDict.shell format_dict)
      (FormatDict.auto_gen_comment format_dict) in
  d <- CommandLogFile.command_data_dict clf ;;
  if CommandData.truthy d then
    d <- CommandLogFile.command_data_dict clf ;;
    errors_list <-
      match CommandData.errors d with
      | Some r => ret r
      | None => new_list []
      end ;;
    d <- CommandLogFile.command_data_dict clf ;;
    let executed_command := default EmptyString (CommandData.command_args d) in
    d <- CommandLogFile.command_data_dict clf ;;
    let extension_name := default EmptyString (CommandData.extension_name d) in
    d <- CommandLogFile.command_data_dict clf ;;
    let extension_version :=
      default EmptyString (CommandData.extension_version d) in
    let has_ext := negb (String.eqb extension_name EmptyString) in
    let extension_info :=
      if has_ext
      then Py.NL +:+ "Extension Name: " +:+ extension_name +:+ ". Version: "
           +:+ extension_version +:+ "."
      else EmptyString in
    minifier <- ErrorMinifier.__init__ errors_list ;;
    let executed :=
      if negb (String.eqb executed_command EmptyString)
      then "az " +:+ executed_command else executed_command in
    ret (with_name (command_name +:+ extension_info) (ErrMinifier minifier)
           executed,
         has_ext, extension_name)
  else
    ret (with_name command_name (FormatDict.errors_string format_dict)
           (FormatDict.executed_command format_dict),
         false, EmptyString).

(** [_build_issue_info_tup(command_log_file)] *)
Definition _build_issue_info_tup (fuel : nat) (command_log_file : option loc)
  : M (string * string * string * bool) :=
  let format_dict :=
    FormatDict.mk EmptyString (ErrStr EmptyString) EmptyString
      EmptyString EmptyString EmptyString EmptyString EmptyString in
  info <-
    match command_log_file with
    | Some clf => command_information clf format_dict
    | None => ret (format_dict, false, EmptyString)
    end ;;
  let '(format_dict, is_ext, ext_name) := info in
  let format_dict :=
    FormatDict.mk (FormatDict.command_name format_dict)
      (FormatDict.errors_string format_dict)
      (FormatDict.executed_command format_dict)
      _get_az_version_summary
      ("Python " +:+ platform_python_version)
      platform_platform
      ("Shell: " +:+ default "None" _get_parent_proc_name)
      _AUTO_GEN_COMMENT in
  pretty_url_name <-
    (if is_ext then _get_extension_repo_url ext_name false
     else ret _CLI_ISSUES_URL) ;;
  original_issue_body <- format_issues_template format_dict ;;
  let step :=
    _get_minified_issue_url fuel command_log_file format_dict is_ext ext_name in
  let capacity := _MAX_URL_LENGTH in
  res <- step capacity ;;
  let '(url, body) := res in
  let capacity := (capacity - (Py.len url - _MAX_URL_LENGTH))%Z in
  final <- retry_while fuel step (mk_retry url body capacity 0) ;;
  url <- truncate_and_warn (formatted_issues_url final) ;;
  logger DEBUG ("Total minified issue length is "
                +:+ pretty (Py.len (minified_issue_body final))) ;;;
  logger DEBUG ("Total formatted url length is " +:+ pretty (Py.len url)) ;;;
  ret (format_issues_template_prefix pretty_url_name, url,
       original_issue_body, is_ext).

End IssueUrl.

(* ================================================================== *)
(** * custom.py: [_get_az_version_summary] *)
(* ================================================================== *)

(** [l[i]] for a Python integer [i]: a negative index counts from the
    end, and an index outside the list is an [IndexError]. *)
Definition getitem {A} (l : list A) (i : Z) : outcome A :=
  let i := if (i <? 0)%Z then (i + Z.of_nat (length l))%Z else i in
  if (i <? 0)%Z then Raise IndexError
  else or_raise IndexError (l !! Z.to_nat i).

Module AzVersion.

(** The first loop of [_get_az_version_summary], over
    [enumerate(lines)] from index [i] on, with its three variables; the
    [break] ends it. *)
Fixpoint scan (lines : list string) (i : Z) (new_lines : list string)
    (ext_line legal_line : Z) : list string * Z * Z :=
  match lines with
  | [] => (new_lines, ext_line, legal_line)
  | line :: rest =>
      let '(line, new_lines) :=
        if Py.startswith line "azure-cli" then
          let line := Py.join " " (Py.split_ws line) in
          (line, new_lines ++ [line])
        else (line, new_lines) in
      if Py.startswith (Py.lower line) "extensions:" then
        scan rest (i + 1) new_lines i legal_line
      else
        let l_lower := Py.lower line in
        if Py.contains "legal" l_lower && Py.contains "docs" l_lower
           && Py.contains "info" l_lower
        then (new_lines, ext_line, i)
        else scan rest (i + 1) new_lines ext_line legal_line
  end.

(** The second loop, over the indices [range(ext_line, legal_line)] that
    are left. *)
Fixpoint extension_lines (lines : list string) (indices : list Z)
    (new_lines : list string) : outcome (list string) :=
  match indices with
  | [] => Return new_lines
  | i :: indices' =>
      (lines_i <- getitem lines i ;;
       let l_lower := Py.lower lines_i in
       if Py.contains "python location" l_lower
          || Py.contains "extensions directory" l_lower
       then Return new_lines
       else
         lines_i <- getitem lines i ;;
         let line := Py.join " " (Py.split_ws lines_i) in
         extension_lines lines indices' (new_lines ++ [line]))%O
  end.

(** [_get_az_version_summary()] on the text [get_az_version_string()[0]]. *)
Definition _get_az_version_summary (az_vers_string : string)
  : outcome string :=
  let lines := Py.splitlines az_vers_string in
  let '(new_lines, ext_line, legal_line) := scan lines 0 [] (-1) (-1) in
  let new_lines := new_lines ++ [EmptyString] in
  (new_lines <-
     (if (0 <? ext_line)%Z && (ext_line <? legal_line)%Z
      then extension_lines lines (seqZ ext_line (legal_line - ext_line))
             new_lines
      else Return new_lines) ;;
   Return (Py.join Py.NL new_lines))%O.

End AzVersion.

(* ================================================================== *)
(** * custom.py: [_prompt_issue] *)
(* ================================================================== *)

(** What the command gives to [print] and to [open_page_in_browser], in
    that order. *)
Inductive shown := Printed (text : string) | Opened (url : string).

(** The values the variable [ans] of [_prompt_issue] holds after its
    loops: an integer or a string. *)
Inductive answer := AnsInt (n : Z) | AnsStr (s : string).

(** [ans in l] for a list of strings, and [ans == 0]. *)
Definition answer_in (ans : answer) (l : list string) : bool :=
  match ans with
  | AnsStr s => bool_decide (s ∈ l)
  | AnsInt _ => false
  end.

Definition answer_is_zero (ans : answer) : bool :=
  match ans with
  | AnsInt n => (n =? 0)%Z
  | AnsStr _ => false
  end.

Section PromptIssue.
Context `{Azlogging} `{OS} `{Platform}.

(** The loop [while ans < 0 or ans > max_idx], entered with [ans = -1].
    [answers] holds what the successive calls of [prompt] return; a call
    with none left does not return. *)
Fixpoint prompt_for_command (max_idx : Z) (help_string : string)
    (answers : list string) : M answer :=
  match answers with
  | [] => out_of_fuel
  | ans :: answers' =>
      if bool_decide (Py.lower ans ∈ ["q"; "quit"])
      then ret (AnsStr (Py.lower ans))
      else
        match Py.int ans with
        | Some ans =>
            if (ans <? 0)%Z || (max_idx <? ans)%Z
            then prompt_for_command max_idx help_string answers'
            else ret (AnsInt ans)
        | None =>
            (* except ValueError: the warning, and ans = -1 *)
            logger WARNING help_string ;;;
            prompt_for_command max_idx help_string answers'
        end
  end.

(** The loop [while not ans], entered with [ans = None]. *)
Fixpoint prompt_yes_no (answers : list string) : M answer :=
  match answers with
  | [] => out_of_fuel
  | ans :: answers' =>
      if negb (bool_decide (Py.lower ans ∈ ["y"; "n"; "yes"; "no"; "q"]))
      then prompt_yes_no answers'
      else
        (* strip to short form *)
        let ans :=
          if negb (String.eqb ans EmptyString)
          then Some (Py.lower (Py.take 1 ans)) else None in
        match ans with
        | Some ans =>
            if negb (String.eqb ans EmptyString) then ret (AnsStr ans)
            else prompt_yes_no answers'
        | None => prompt_yes_no answers'
        end
  end.

(** The end of [_prompt_issue], once the issue is built. *)
Definition report_issue (issue : string * string * string * bool)
  : M (bool * list shown) :=
  let '(prefix, url, original_issue, is_ext) := issue in
  logger INFO original_issue ;;;
  logger INFO
    ("You can also file the issue in the Azure CLI "
     +:+ (if is_ext then "Extensions" else EmptyString)
     +:+ " repository by opening "
     +:+ (if is_ext then _EXTENSIONS_ISSUES_URL else _CLI_ISSUES_URL)
     +:+ " in the browser.") ;;;
  ret (true, [Printed prefix; Opened url]).

(** [_prompt_issue(recent_command_list)]; the result comes with what was
    printed and opened.  An index that is not an integer is a [TypeError]
    in Python; [AttributeError] stands for it here. *)
Definition _prompt_issue (fuel : nat) (recent_command_list : list (option loc))
    (answers : list string) : M (bool * list shown) :=
  ans <-
    (if negb (bool_decide (recent_command_list = [])) then
       let max_idx := (Z.of_nat (length recent_command_list) - 1)%Z in
       let help_string :=
         "Please choose between 0 and " +:+ pretty max_idx
         +:+ ", or enter q to quit: " in
       prompt_for_command max_idx help_string answers
     else prompt_yes_no answers) ;;
  if answer_in ans ["y"; "n"] then
    if answer_in ans ["y"] then
      issue <- _build_issue_info_tup fuel None ;;
      report_issue issue
    else ret (false, [])
  else if answer_in ans ["q"; "quit"] then ret (false, [])
  else if answer_is_zero ans then
    issue <- _build_issue_info_tup fuel None ;;
    report_issue issue
  else
    match ans with
    | AnsInt ans =>
        command_log_file <- lift (getitem recent_command_list ans) ;;
        issue <- _build_issue_info_tup fuel command_log_file ;;
        report_issue issue
    | AnsStr _ => raise AttributeError
    end.

End PromptIssue.

(* ================================================================== *)
(** * custom.py: [_pad_string] of [_display_recent_commands] *)
(* ================================================================== *)

(** [_pad_string(my_str, pad_len)]: the loop
    [while len(my_str) < pad_len: my_str += " "]. *)
Fixpoint _pad_string (fuel : nat) (my_str : string) (pad_len : Z)
  : outcome string :=
  if (Py.len my_str <? pad_len)%Z then
    match fuel with
    | O => OutOfFuel
    | S fuel' => _pad_string fuel' (my_str +:+ " ") pad_len
    end
  else Return my_str.

(* ================================================================== *)
(** * Scenarios used by the examples *)
(* ================================================================== *)

Module Scenario.

(** The values [azlogging] gives its two constants. *)
Definition azlogging : Azlogging :=
  {| _UNKNOWN_COMMAND := "unknown_command";
     _CMD_LOG_LINE_PREFIX := "CMD-LOG-LINE-BEGIN" |}.

Definition midnight : Datetime.datetime := Datetime.mk 2019 1 2 0 0 0 0.

(** A log directory with one well-named log and one whose process-id
    field is not a number. *)
Definition os_bad_pid : OS :=
  {| isfile := fun _ => true;
     listdir := fun _ =>
       ["2019-01-01.12-00-00.vm_create.abc.log";
        "2019-01-01.11-00-00.vm_list.77.log"];
     open_lines := fun _ => None;
     now := midnight |}.

(** A log directory with names that do not have the five dot-separated
    fields, or whose date is not one. *)
Definition os_bad_names : OS :=
  {| isfile := fun _ => true;
     listdir := fun _ =>
       ["az.log"; "2019-13-01.12-00-00.vm_create.5.log"; "notes.txt";
        "2019-01-01.11-00-00.vm_list.77.log"];
     open_lines := fun _ => None;
     now := midnight |}.

Definition nested_error : string :=
  "a" +:+ Py.NL +:+ "During handling of the above exception" +:+ Py.NL +:+ "b".

(** An error with a traceback line. *)
Definition traceback_error : string :=
  "Traceback (most recent call last):" +:+ Py.NL
  +:+ "  File " +:+ String Py.DQUOTE "/usr/lib/python3/site-packages/azure/cli/core/commands/__init__.py"
  +:+ String Py.DQUOTE ", line 206, in execute" +:+ Py.NL
  +:+ "    raise CLIError(ex)" +:+ Py.NL.

(** A caller that puts [errors] in a new list, builds an [ErrorMinifier]
    on it and sets the capacity; the result is the pair of references. *)
Definition minify_fresh (fuel : nat) (errors : list string) (capacity : Z)
  : M (loc * loc) :=
  (errors_list <- new_list errors ;;
   minifier <- ErrorMinifier.__init__ errors_list ;;
   ErrorMinifier.set_capacity fuel minifier capacity ;;;
   ret (errors_list, minifier))%M.

(** The store after that caller has built the minifier: the list and the
    minifier are both at location 0. *)
Definition with_minifier (errors : list string) : store :=
  snd ((errors_list <- new_list errors ;;
        ErrorMinifier.__init__ errors_list)%M empty_store).

(** A log of process 12 with one record and two lines around it that are
    not records. *)
Definition small_log : list string :=
  ["stray line" +:+ Py.NL;
   "CMD-LOG-LINE-BEGIN 12 | 2019-01-01 | ERROR | az | first" +:+ Py.NL;
   "  second" +:+ Py.NL;
   "CMD-LOG-LINE-BEGIN 13 | 2019-01-01 | INFO | az | other process" +:+ Py.NL;
   "CMD-LOG-LINE-BEGIN 12 | 2019-01-01 | INFO | az | exit code: 1" +:+ Py.NL].

(** The two records of [small_log] for process 12: the first has taken
    the two lines after it. *)
Definition small_log_records : list LogRecord.t :=
  [LogRecord.mk 12 "2019-01-01" "ERROR" "az"
     ("first" +:+ Py.NL +:+ "  second" +:+ Py.NL
      +:+ "CMD-LOG-LINE-BEGIN 13 | 2019-01-01 | INFO | az | other process"
      +:+ Py.NL);
   LogRecord.mk 12 "2019-01-01" "INFO" "az" ("exit code: 1" +:+ Py.NL)].

(** The log of a command that failed with one very long line. *)
Definition long_error_log : list string :=
  ["CMD-LOG-LINE-BEGIN 12 | 2019-01-01 | INFO | az | command args: vm create"
     +:+ Py.NL;
   "CMD-LOG-LINE-BEGIN 12 | 2019-01-01 | ERROR | az | " +:+ Py.mul "x" 2000
     +:+ Py.NL;
   "CMD-LOG-LINE-BEGIN 12 | 2019-01-01 | INFO | az | exit code: 1" +:+ Py.NL].

Definition os_long_error : OS :=
  {| isfile := fun _ => true;
     listdir := fun _ => ["2019-01-01.12-00-00.vm_create.12.log"];
     open_lines := fun _ => Some long_error_log;
     now := midnight |}.

Definition platform : Platform :=
  {| platform_platform := "Linux-5.4";
     platform_python_version := "3.8.0";
     _get_parent_proc_name := Some "bash";
     _get_az_version_summary := "azure-cli 2.0.80";
     resolve_project_url_from_index := fun _ => Raise CLIError |}.

(** A platform whose version summary alone is longer than a URL may be. *)
Definition platform_long_version : Platform :=
  {| platform_platform := "Linux-5.4";
     platform_python_version := "3.8.0";
     _get_parent_proc_name := None;
     _get_az_version_summary := Py.mul "v" 2100;
     resolve_project_url_from_index := fun _ => Raise CLIError |}.

(** The feedback command up to the issue, for the first log file of the
    directory. *)
Definition issue_for_first_log `{Azlogging} `{OS} `{Platform} (fuel : nat)
  : M (string * string * string * bool) :=
  (files <- _get_command_log_files (mk_cli_ctx "/logs") None ;;
   _build_issue_info_tup fuel (head files))%M.

(** A log directory whose one log is [small_log]. *)
Definition os_small_log : OS :=
  {| isfile := fun _ => true;
     listdir := fun _ => ["2019-01-01.12-00-00.vm_create.12.log"];
     open_lines := fun _ => Some small_log;
     now := midnight |}.

Definition small_log_path : string :=
  "/logs/2019-01-01.12-00-00.vm_create.12.log".

(** The store with one [CommandLogFile] object, at location 0. *)
Definition with_logfile `{Azlogging} `{OS} (log_file_path : string) : store :=
  snd (CommandLogFile.__init__ log_file_path None empty_store).
(** The log of a command that [azlogging] could not name. *)
Definition unknown_log : list string :=
  ["CMD-LOG-LINE-BEGIN 12 | 2019-01-01 | INFO | az | command args: vm --n={a} --debug"
     +:+ Py.NL;
   "CMD-LOG-LINE-BEGIN 12 | 2019-01-01 | INFO | az | exit code: 2" +:+ Py.NL].

Definition os_unknown_log : OS :=
  {| isfile := fun _ => true;
     listdir := fun _ => ["2019-01-01.12-00-00.unknown_command.12.log"];
     open_lines := fun _ => Some unknown_log;
     now := midnight |}.

Definition unknown_log_path : string :=
  "/logs/2019-01-01.12-00-00.unknown_command.12.log".

End Scenario.

(* ================================================================== *)
(** * Vocabulary of the statements *)
(* ================================================================== *)

Section LogVocabulary.
Context `{Azlogging}.
Import CommandLogFile.

(** What the handler of the [try] block leaves in the log. *)
Definition metadata_debug_notes (log_file_path : string)
  : list (log_level * string) :=
  [(DEBUG, "Could not load metadata from file name " +:+ log_file_path +:+ ".");
   (DEBUG, exn_str ValueError)].

(** The text of continuation lines, in order. *)
Definition continuation_text (cs : list string) : string :=
  foldr String.append EmptyString cs.

(** The record [r] once the lines [cs] have been appended to its message. *)
Definition append_to_message (r : LogRecord.t) (cs : list string)
  : LogRecord.t :=
  LogRecord.mk (LogRecord.p_id r) (LogRecord.date_time r) (LogRecord.level r)
    (LogRecord.logger r) (LogRecord.log_msg r +:+ continuation_text cs).

(** A line that is not a new record. *)
Definition not_a_record (p_id : Z) (line : string) : Prop :=
  _get_info_from_log_line line p_id = Return None.

(** A new-record line with the lines that follow it up to the next one,
    and the record they make. *)
Definition group_makes (p_id : Z) (g : string * list string)
    (r : LogRecord.t) : Prop :=
  exists r0,
    _get_info_from_log_line (fst g) p_id = Return (Some r0)
    /\ Forall (not_a_record p_id) (snd g)
    /\ r = append_to_message r0 (snd g).

(** The lines of a list of groups, in file order. *)
Definition group_lines (groups : list (string * list string)) : list string :=
  concat (map (fun g => fst g :: snd g) groups).

End LogVocabulary.

Section MinifierVocabulary.
Import ErrorMinifier ErrorMinifierObj.

(** The store with the list behind [r] replaced. *)
Definition set_list (r : loc) (l : list string) (st : store) : store :=
  mkStore (<[r := l]> (lists st)) (minifiers st) (logfiles st) (log st).

(** The error list after strategies 2, 3 and 4; each works on what the
    one before left. *)
Definition strategy2 (errors : list string) : list string :=
  map (fun error => _minify_by_shortening_file_names error 5) errors.
Definition strategy3 (errors : list string) : list string :=
  map (fun error => _minify_by_shortening_file_names error 4)
    (strategy2 errors).
Definition strategy4 (errors : list string) : list string :=
  map _minify_by_removing_nested_exceptions (strategy3 errors).

Definition fits (capacity : Z) (s : string) : bool :=
  (Py.len s <=? capacity)%Z.

(** The minifier in the words of its description: the text returned and
    the error list left behind.  An empty list gives the empty text; else
    the first of the joins of strategies 1 to 4 that fits is the answer,
    and when none fits lines are removed from the middle of the fourth
    until the text fits. *)
Definition minified_by_strategies (fuel : nat) (capacity : Z)
    (errors : list string) : outcome string * list string :=
  if bool_decide (errors = []) then (Return EmptyString, errors)
  else if fits capacity (Py.join Py.NL errors)
  then (Return (Py.join Py.NL errors), errors)
  else if fits capacity (Py.join Py.NL (strategy2 errors))
  then (Return (Py.join Py.NL (strategy2 errors)), strategy2 errors)
  else if fits capacity (Py.join Py.NL (strategy3 errors))
  then (Return (Py.join Py.NL (strategy3 errors)), strategy3 errors)
  else if fits capacity (Py.join Py.NL (strategy4 errors))
  then (Return (Py.join Py.NL (strategy4 errors)), strategy4 errors)
  else (remove_lines_while fuel capacity (Py.join Py.NL (strategy4 errors)),
        strategy4 errors).

(** [n] turns of the last resort, without the test of the loop. *)
Fixpoint remove_lines_times (n : nat) (s : string) : outcome string :=
  match n with
  | O => Return s
  | S n' =>
      (s' <- _minify_by_removing_lines s ;; remove_lines_times n' s')%O
  end.

(** The outcome of a call whose result is not used. *)
Definition discard {A} (o : outcome A) : outcome unit :=
  match o with
  | Return _ => Return tt
  | Raise e => Raise e
  | OutOfFuel => OutOfFuel
  end.

(** The store [set_capacity] leaves: the list behind the minifier's
    reference holds what the strategies left, the minifier has its
    capacity and, when the call returned, the new text; the log has the
    debug note of the call. *)
Definition store_after_set_capacity (st : store) (self : loc) (o : t)
    (capacity : Z) (res : outcome string * list string) : store :=
  mkStore (<[_errors_list o := snd res]> (lists st))
    (<[self := mk (_errors_list o) (Some capacity)
                 (match fst res with
                  | Return s => s
                  | _ => _minified_error o
                  end)]> (minifiers st))
    (logfiles st)
    (log st ++ [(DEBUG, "Capacity for error string: " +:+ pretty capacity)]).

(** Some strategy can bring the text within the capacity: one of the
    four joins fits, or [n] removals of lines from the fourth give a text
    that fits. *)
Definition achievable (capacity : Z) (errors : list string) (n : nat) : Prop :=
  fits capacity (Py.join Py.NL errors) = true
  \/ fits capacity (Py.join Py.NL (strategy2 errors)) = true
  \/ fits capacity (Py.join Py.NL (strategy3 errors)) = true
  \/ exists s,
      remove_lines_times n (Py.join Py.NL (strategy4 errors)) = Return s
      /\ fits capacity s = true.


(** Number of path separators in a name; a name of [k] segments has
    [k - 1] of them. *)
Fixpoint separators (name : string) : nat :=
  match name with
  | EmptyString => O
  | String c name' =>
      ((if Ascii.eqb c PosixPath.sep then 1 else 0) + separators name')%nat
  end.

(** Characters of a text of lines: every line and one separator each. *)
Fixpoint weight (lines : list string) : nat :=
  match lines with
  | [] => O
  | line :: rest => (String.length line + 1 + weight rest)%nat
  end.

(** One more character when the name is not made of separators only. *)
Definition named (p : string) : nat :=
  if Py.all_char PosixPath.sep p then 0%nat else 1%nat.

End MinifierVocabulary.

Section CommandDataVocabulary.
Import CommandLogFile.

(** The store with entries added to the log. *)
Definition add_log (st : store) (entries : list (log_level * string)) : store :=
  mkStore (lists st) (minifiers st) (logfiles st) (log st ++ entries).

(** A record logged at level [error], in any letter case. *)
Definition is_error_record (r : LogRecord.t) : bool :=
  String.eqb (Py.lower (LogRecord.level r)) "error".

(** What the last record says about the exit code: [Some true] for exit
    code 0, [Some false] for another one, [None] when the record is not an
    exit code or its code is not a number. *)
Definition exit_code_success (rs : list LogRecord.t) : option bool :=
  match last rs with
  | None => None
  | Some last_record =>
      let status_msg := Py.strip (LogRecord.log_msg last_record) in
      if Py.startswith status_msg "exit code" then
        match Py.index ":" status_msg with
        | None => None
        | Some idx =>
            match Py.int (Py.strip (Py.drop (idx + 1)
                                      (LogRecord.log_msg last_record))) with
            | None => None
            | Some exit_code => Some (exit_code =? 0)%Z
            end
        end
      else None
  end.

(** The messages of the error records, in file order. *)
Definition error_messages (rs : list LogRecord.t) : list string :=
  map LogRecord.log_msg (List.filter is_error_record rs).

(** The value under [success]: an error record makes it [False] whatever
    the exit code says. *)
Definition success_of (rs : list LogRecord.t) : option bool :=
  if existsb is_error_record rs then Some false else exit_code_success rs.

(** The extension name and version the info records give; a later record
    replaces what an earlier one gave. *)
Definition extension_step (acc : option string * option string)
    (r : LogRecord.t) : option string * option string :=
  let poss_ext_msg := Py.strip (LogRecord.log_msg r) in
  if String.eqb (Py.lower (LogRecord.level r)) "info" then
    if Py.startswith poss_ext_msg _EXT_NAME_PREFIX then
      (Some (Py.strip (Py.drop (String.length _EXT_NAME_PREFIX) poss_ext_msg)),
       snd acc)
    else if Py.startswith poss_ext_msg _EXT_VERS_PREFIX then
      (fst acc,
       Some (Py.strip (Py.drop (String.length _EXT_VERS_PREFIX) poss_ext_msg)))
    else acc
  else acc.

Definition extension_of (rs : list LogRecord.t)
  : option string * option string :=
  fold_left extension_step rs (None, None).

(** The command arguments the first record gives. *)
Definition command_args_of (rs : list LogRecord.t) : option string :=
  match head rs with
  | None => None
  | Some first_record =>
      let command_args_msg := Py.strip (LogRecord.log_msg first_record) in
      if Py.startswith (Py.lower command_args_msg) "command args:" then
        match Py.index ":" command_args_msg with
        | None => None
        | Some idx => Some (Py.strip (Py.drop (idx + 1) command_args_msg))
        end
      else None
  end.

(** One turn of the loop over the records, on the dictionary, once the
    list under [errors] exists. *)
Definition record_step (errors : loc) (d : CommandData.t) (record : LogRecord.t)
  : CommandData.t :=
  let log_data :=
    CommandData.mk (CommandData.success d) (Some errors)
      (CommandData.extension_name d) (CommandData.extension_version d)
      (CommandData.command_args d) in
  let log_data :=
    if is_error_record record then
      CommandData.mk (Some false) (Some errors)
        (CommandData.extension_name log_data)
        (CommandData.extension_version log_data)
        (CommandData.command_args log_data)
    else log_data in
  let poss_ext_msg := Py.strip (LogRecord.log_msg record) in
  if String.eqb (Py.lower (LogRecord.level record)) "info" then
    if Py.startswith poss_ext_msg _EXT_NAME_PREFIX then
      CommandData.mk (CommandData.success log_data)
        (CommandData.errors log_data)
        (Some (Py.strip (Py.drop (String.length _EXT_NAME_PREFIX)
                           poss_ext_msg)))
        (CommandData.extension_version log_data)
        (CommandData.command_args log_data)
    else if Py.startswith poss_ext_msg _EXT_VERS_PREFIX then
      CommandData.mk (CommandData.success log_data)
        (CommandData.errors log_data)
        (CommandData.extension_name log_data)
        (Some (Py.strip (Py.drop (String.length _EXT_VERS_PREFIX)
                           poss_ext_msg)))
        (CommandData.command_args log_data)
    else log_data
  else log_data.

End CommandDataVocabulary.

(** The character [c] occurs in [s]. *)
Fixpoint has_char (c : ascii) (s : string) : bool :=
  match s with
  | EmptyString => false
  | String a s' => Ascii.eqb a c || has_char c s'
  end.

Section CommandLogFilesVocabulary.
Context `{Azlogging} `{OS}.
Import CommandLogFile.

(** What the name of a log file gives, without the debug notes: the
    metadata, nothing for a name that lacks the five fields or whose date
    is not one, and [ValueError] for a process id that is not a number. *)
Definition metadata_of_path (log_file_path : string)
    (time_now : Datetime.datetime) : outcome (option LogMetadata.t) :=
  if String.eqb log_file_path EmptyString then Return None
  else
    match Py.split "." (snd (PosixPath.split log_file_path)) with
    | [poss_date; poss_time; poss_command; poss_pid; _] =>
        match Datetime.strptime (poss_date +:+ "-" +:+ poss_time) with
        | Return date_time_stamp =>
            match Py.int poss_pid with
            | Some p_id =>
                Return (Some (LogMetadata.mk
                                (if negb (String.eqb poss_command _UNKNOWN_COMMAND)
                                 then "az " +:+ Py.replace poss_command "_" " "
                                 else UNKNOWN_CMD)
                                (Datetime.total_seconds time_now date_time_stamp)
                                log_file_path p_id))
            | None => Raise ValueError
            end
        | _ => Return None
        end
    | _ => Return None
    end.

(** The names [_get_command_log_files] goes through, in its order. *)
Definition log_names (ctx : cli_ctx) : list string :=
  Py.sorted (List.filter (fun file_name => Py.endswith file_name ".log")
               (listdir (get_command_log_dir ctx))).

(** A name the loop cannot get past: it is not a file, or its process id
    is not a number. *)
Definition stops_at (ctx : cli_ctx) (time_now : option Datetime.datetime)
    (file_name : string) : bool :=
  let file_path := PosixPath.join (get_command_log_dir ctx) file_name in
  negb (isfile file_path)
  || match metadata_of_path file_path (default now time_now) with
     | Raise _ => true
     | _ => false
     end.

(** A name that gives metadata. *)
Definition has_metadata (ctx : cli_ctx) (time_now : option Datetime.datetime)
    (file_name : string) : bool :=
  match metadata_of_path (PosixPath.join (get_command_log_dir ctx) file_name)
          (default now time_now) with
  | Return (Some _) => true
  | _ => false
  end.

(** The object at [r] is the log file of [file_name], as the constructor
    leaves it. *)
Definition is_log_file_of (ctx : cli_ctx) (time_now : option Datetime.datetime)
    (st : store) (r : loc) (file_name : string) : Prop :=
  let file_path := PosixPath.join (get_command_log_dir ctx) file_name in
  exists md,
    metadata_of_path file_path (default now time_now) = Return (Some md)
    /\ logfiles st !! r
       = Some (CommandLogFileObj.mk None file_path (default now time_now)
                 (Some md) None).

End CommandLogFilesVocabulary.

Section IssueVocabulary.
Context `{Platform}.

(** The dictionary [_build_issue_info_tup] formats for a generic issue:
    no command, no errors, and the information on the system. *)
Definition generic_format_dict : FormatDict.t :=
  FormatDict.mk EmptyString (ErrStr EmptyString) EmptyString
    _get_az_version_summary
    ("Python " +:+ platform_python_version)
    platform_platform
    ("Shell: " +:+ default "None" _get_parent_proc_name)
    _AUTO_GEN_COMMENT.

End IssueVocabulary.

Section CommandIssueVocabulary.
Context `{Platform}.

(** The dictionary [_build_issue_info_tup] formats for a command: its
    name, the errors, the command line, and the information on the
    system. *)
Definition issue_format_dict (command_name : string) (errors : errors_value)
    (executed_command : string) : FormatDict.t :=
  FormatDict.mk command_name errors executed_command
    _get_az_version_summary
    ("Python " +:+ platform_python_version)
    platform_platform
    ("Shell: " +:+ default "None" _get_parent_proc_name)
    _AUTO_GEN_COMMENT.

(** The command line shown in the issue. *)
Definition executed_command_of (d : CommandData.t) : string :=
  let executed_command := default EmptyString (CommandData.command_args d) in
  if negb (String.eqb executed_command EmptyString)
  then "az " +:+ executed_command else executed_command.

End CommandIssueVocabulary.

(** A word: it is not empty and has no whitespace. *)
Fixpoint no_space (s : string) : bool :=
  match s with
  | EmptyString => true
  | String c s' => negb (Py.is_space c) && no_space s'
  end.

Definition is_word (w : string) : bool :=
  negb (String.eqb w EmptyString) && no_space w.

(** A line of words with one space between two of them. *)
Definition is_normalized (line : string) : Prop :=
  exists words,
    Forall (fun w => is_word w = true) words /\ line = Py.join " " words.

Section PromptVocabulary.

(** What the first loop makes of one answer: the value of [ans] that
    ends the loop, or nothing when it asks again. *)
Definition chosen (max_idx : Z) (ans : string) : option answer :=
  if bool_decide (Py.lower ans ∈ ["q"; "quit"]) then Some (AnsStr (Py.lower ans))
  else
    match Py.int ans with
    | Some n => if (0 <=? n)%Z && (n <=? max_idx)%Z then Some (AnsInt n) else None
    | None => None
    end.

(** The warnings of the first loop: one for each answer that is neither
    a way to quit nor an integer. *)
Definition warnings_for (help_string : string) (answers : list string)
  : list (log_level * string) :=
  map (fun _ => (WARNING, help_string))
    (List.filter
       (fun ans => negb (bool_decide (Py.lower ans ∈ ["q"; "quit"]))
                   && negb (bool_decide (is_Some (Py.int ans))))
       answers).

(** The words the second loop takes, in any letter case. *)
Definition is_yes_no (ans : string) : bool :=
  bool_decide (Py.lower ans ∈ ["y"; "n"; "yes"; "no"; "q"]).

End PromptVocabulary.

Section BadLineVocabulary.
Context `{Azlogging}.

(** A line with the prefix and the five fields whose first field is not
    an integer. *)
Definition bad_pid_field (line : string) : bool :=
  Py.startswith line _CMD_LOG_LINE_PREFIX
  && match Py.split_max "|" 4
             (Py.drop (String.length _CMD_LOG_LINE_PREFIX) line) with
     | [part0; _; _; _; _] => negb (bool_decide (is_Some (Py.int (Py.strip part0))))
     | _ => false
     end.

End BadLineVocabulary.

Section RemovalVocabulary.
Import ErrorMinifier.

(** Number of line boundaries in a text. *)
Fixpoint line_breaks (s : string) : nat :=
  match s with
  | EmptyString => O
  | String c s' => ((if Py.is_linebreak c then 1 else 0) + line_breaks s')%nat
  end.

(** The lines [_minify_by_removing_lines] works on. *)
Definition lines_of (error_string : string) : list string :=
  Py.splitlines (Py.replace error_string _CONTINUATION_STR EmptyString).

(** The test on [lines[mid]]. *)
Definition is_file_line (line : string) : bool :=
  Py.contains ".py" line && Py.contains ", ln" line.

(** What decreases at each turn of the last resort: the number of
    lines, counted twice, and one more when the last line is a file
    line. *)
Definition removal_measure (error_string : string) : nat :=
  (2 * length (lines_of error_string)
   + (if default false (is_file_line <$> last (lines_of error_string))
      then 1 else 0))%nat.

End RemovalVocabulary.

(* ================================================================== *)
(** * The strategies of the minifier as they are described *)
(* ================================================================== *)

(** What each strategy makes of a text, said without the code: on the
    names of a path, on the fields of a line and on the lines of a text.
    [set_capacity] is compared with [Described.minified] below. *)
Module Described.
Import ErrorMinifier.

(** A path names directories and, after its last slash, a file.  Shortened
    to [n] segments it is the file name behind the last [n - 1] directory
    names, an empty name (as two slashes in a row leave) not counting as
    a directory. *)
Definition last_segments (n : nat) (path : string) : string :=
  let names := Py.split "/" path in
  let directories :=
    List.filter (fun d => negb (String.eqb d EmptyString)) (removelast names) in
  Py.join "/" (drop (length directories - (n - 1)) directories
               ++ [List.last names EmptyString]).

(** The text after the first occurrence of [marker]. *)
Fixpoint after_first (marker s : string) : option string :=
  match s with
  | EmptyString => None
  | String _ s' =>
      if Py.startswith s marker then Some (Py.drop (String.length marker) s)
      else after_first marker s'
  end.

(** The text before the last occurrence of [c]. *)
Definition before_last (c : ascii) (s : string) : option string :=
  match Py.rfind_succ c s with
  | S k => Some (Py.take k s)
  | O => None
  end.

(** The path a frame of a traceback embeds: what stands between the
    first [FILE_QUOTE] of the field and its last double quote. *)
Definition quoted_path (field : string) : option string :=
  after_first FILE_QUOTE field ≫= before_last Py.DQUOTE.

(** A line with its embedded file path shortened to [n] segments.  A
    frame of a traceback, [File <quoted path>, line <k>, in <f>], becomes
    [<short path>, ln <k>, in <f>]; a frame that was shortened before,
    [<path>, ln <k>, in <f>] with a [.py] in it, has its path shortened
    again; a line that announces the traceback is left out ([None]); any
    other line stays. *)
Definition shorten_path_of_line (n : nat) (line : string) : option string :=
  let fields := Py.split "," line in
  if Py.startswith (Py.strip line) "File" && Py.contains ", line" line then
    match fields with
    | frame :: position :: rest =>
        match quoted_path frame with
        | Some path =>
            Some (Py.join "," (last_segments n path
                               :: Py.replace position "line" "ln" :: rest))
        | None => Some line
        end
    | _ => Some line
    end
  else if Py.contains ".py" line && Py.contains ", ln" line then
    match fields with
    | path :: rest => Some (Py.join "," (last_segments n path :: rest))
    | [] => Some line
    end
  else if Py.contains "here is the traceback" (Py.lower line) then None
  else Some line.

(** Strategies 2 and 3: every line of the text with its path shortened. *)
Definition shorten_paths (n : nat) (text : string) : string :=
  Py.join Py.NL (omap (shorten_path_of_line n) (Py.splitlines text)).

(** Strategy 4: from the first line that says that another exception
    occurred during the handling of the first, everything but the last
    three lines of the text gives way to the ellipsis marker.  A text
    without such a line, or with it as its last line, stays. *)
Definition collapse_nested (text : string) : string :=
  let lines := Py.splitlines text in
  match list_find
          (fun line =>
             Is_true (Py.contains "During handling of the above exception" line))
          lines with
  | Some (first, _) =>
      if bool_decide (first = length lines - 1)%nat then text
      else Py.join Py.NL
             (take first lines ++ [_CONTINUATION_STR]
              ++ drop (length lines - 3) lines)
  | None => text
  end.

(** Strategy 5, one removal: the text without its ellipsis markers has
    four lines from its middle replaced by an ellipsis.  The middle is
    the line after the half, when that line is a shortened frame, else
    the line at the half; a text with fewer than three lines has no such
    line, and the removal raises [IndexError]. *)
Definition remove_middle_lines (text : string) : outcome string :=
  let lines :=
    Py.splitlines (Py.replace text _CONTINUATION_STR EmptyString) in
  let half := (length lines / 2)%nat in
  match lines !! S half with
  | Some line =>
      let middle :=
        if Py.contains ".py" line && Py.contains ", ln" line
        then S half else half in
      Return (Py.join Py.NL
                (take middle lines ++ ["..."] ++ drop (middle + 4) lines))
  | None => Raise IndexError
  end.

(** Strategy 5: removals until the text fits. *)
Fixpoint remove_until_fits (fuel : nat) (capacity : Z) (text : string)
  : outcome string :=
  if (Py.len text <=? capacity)%Z then Return text
  else
    match fuel with
    | O => OutOfFuel
    | S fuel' =>
        match remove_middle_lines text with
        | Return text' => remove_until_fits fuel' capacity text'
        | Raise e => Raise e
        | OutOfFuel => OutOfFuel
        end
    end.

(** [n] removals in a row. *)
Fixpoint removed_times (n : nat) (text : string) : outcome string :=
  match n with
  | O => Return text
  | S n' =>
      match remove_middle_lines text with
      | Return text' => removed_times n' text'
      | Raise e => Raise e
      | OutOfFuel => OutOfFuel
      end
  end.

(** The errors as strategies 1 to 4 leave them, each strategy working on
    what the one before left. *)
Definition attempts (errors : list string) : list (list string) :=
  let second := map (shorten_paths 5) errors in
  let third := map (shorten_paths 4) second in
  let fourth := map collapse_nested third in
  [errors; second; third; fourth].

(** The minified text: nothing for no errors; else the join of the first
    attempt that fits the capacity; else lines are removed from the join
    of the fourth until it fits. *)
Definition minified (fuel : nat) (capacity : Z) (errors : list string)
  : outcome string :=
  if bool_decide (errors = []) then Return EmptyString
  else
    match list_find
            (fun attempt =>
               (Py.len (Py.join Py.NL attempt) <= capacity)%Z)
            (attempts errors) with
    | Some (_, attempt) => Return (Py.join Py.NL attempt)
    | None =>
        remove_until_fits fuel capacity
          (Py.join Py.NL (default [] (last (attempts errors))))
    end.

(** Some strategy can bring the text within the capacity: one of the
    four attempts fits, or [n] removals of lines from the fourth give a
    text that fits. *)
Definition achievable (capacity : Z) (errors : list string) (n : nat) : Prop :=
  (exists attempt,
      attempt ∈ attempts errors
      /\ (Py.len (Py.join Py.NL attempt) <= capacity)%Z)
  \/ exists text,
      removed_times n (Py.join Py.NL (default [] (last (attempts errors))))
      = Return text
      /\ (Py.len text <= capacity)%Z.

End Described.

(* ================================================================== *)
(** * Facts about the string built-ins *)
(* ================================================================== *)

Section StringFacts.

Lemma append_cons (c : ascii) (a b : string) :
  String c a +:+ b = String c (a +:+ b).
Proof. reflexivity. Qed.

Lemma append_empty_l (a : string) : EmptyString +:+ a = a.
Proof. reflexivity. Qed.

Lemma length_append (a b : string) :
  String.length (a +:+ b) = (String.length a + String.length b)%nat.
Proof.
  induction a as [|c a IH]; [reflexivity|].
  rewrite append_cons. simpl. now rewrite IH.
Qed.

Lemma append_empty_r (a : string) : a +:+ EmptyString = a.
Proof.
  induction a as [|c a IH]; [reflexivity|].
  rewrite append_cons. now rewrite IH.
Qed.

Lemma append_assoc (a b c : string) : (a +:+ b) +:+ c = a +:+ (b +:+ c).
Proof.
  induction a as [|x a IH]; [reflexivity|].
  rewrite !append_cons. now rewrite IH.
Qed.

Lemma startswith_append (p s : string) : Py.startswith (p +:+ s) p = true.
Proof.
  induction p as [|c p IH]; [reflexivity|].
  rewrite append_cons. simpl. rewrite Ascii.eqb_refl. exact IH.
Qed.

Lemma drop_append (p s : string) : Py.drop (String.length p) (p +:+ s) = s.
Proof.
  induction p as [|c p IH]; [now destruct s|].
  rewrite append_cons. simpl. exact IH.
Qed.

Lemma endswith_append (s p : string) : Py.endswith (s +:+ p) p = true.
Proof.
  unfold Py.endswith. rewrite length_append.
  replace (String.length s + String.length p - String.length p)%nat
    with (String.length s) by lia.
  rewrite drop_append, String.eqb_refl, andb_true_r.
  apply Nat.leb_le. lia.
Qed.

Lemma length_take (n : nat) (s : string) :
  (String.length (Py.take n s) <= n)%nat.
Proof.
  revert s. induction n as [|n IH]; intros [|c s]; simpl; try lia.
  specialize (IH s). lia.
Qed.

Lemma take_all (n : nat) (s : string) :
  (String.length s <= n)%nat -> Py.take n s = s.
Proof.
  revert s. induction n as [|n IH]; intros [|c s]; simpl; intros Hl;
    try reflexivity; try lia.
  f_equal. apply IH. lia.
Qed.

End StringFacts.

(* ================================================================== *)
(** * The repository upsert model *)
(* ================================================================== *)

Section UpsertModel.
Import RepositoryUpsertRequestProperties.

(** C8.  [RepositoryUpsertRequestProperties(id, name)] stores the two
    optional string fields exactly as they are passed, each defaults to
    [None] when the call leaves it out, and the constructor checks
    nothing: it accepts every pair of values, and every object with these
    two fields is the result of a call. *)
Theorem upsert_init_stores_fields :
  (forall i n : option string,
      id (__init__ (Some i) (Some n)) = i
      /\ name (__init__ (Some i) (Some n)) = n)
  /\ __init__ None None = mk None None
  /\ (forall i : option string, __init__ (Some i) None = mk i None)
  /\ (forall n : option string, __init__ None (Some n) = mk None n)
  /\ (forall o : t, exists i n, __init__ (Some i) (Some n) = o).
Proof.
  repeat split.
  intros [i n]. exists i, n. reflexivity.
Qed.

End UpsertModel.

(* ================================================================== *)
(** * Parsing one log line *)
(* ================================================================== *)

Section LogLine.
Context `{Azlogging}.
Import CommandLogFile.

(** The three ways [_get_info_from_log_line] can end, case by case. *)
Lemma get_info_from_log_line_cases (line : string) (p_id : Z) :
  let rest := Py.drop (String.length _CMD_LOG_LINE_PREFIX) line in
  match _get_info_from_log_line line p_id with
  | Return (Some r) =>
      Py.startswith line _CMD_LOG_LINE_PREFIX = true
      /\ exists f0 f1 f2 f3 f4,
          Py.split_max "|" 4 rest = [f0; f1; f2; f3; f4]
          /\ Py.int (Py.strip f0) = Some p_id
          /\ r = LogRecord.mk p_id (Py.strip f1) (Py.strip f2) (Py.strip f3)
                   (if Py.endswith (Py.strip f4) Py.NL then Py.strip f4
                    else Py.strip f4 +:+ Py.NL)
  | Return None =>
      Py.startswith line _CMD_LOG_LINE_PREFIX = false
      \/ length (Py.split_max "|" 4 rest) <> 5%nat
      \/ exists f0 f1 f2 f3 f4 n,
          Py.split_max "|" 4 rest = [f0; f1; f2; f3; f4]
          /\ Py.int (Py.strip f0) = Some n /\ n <> p_id
  | Raise e =>
      e = ValueError
      /\ Py.startswith line _CMD_LOG_LINE_PREFIX = true
      /\ exists f0 f1 f2 f3 f4,
          Py.split_max "|" 4 rest = [f0; f1; f2; f3; f4]
          /\ Py.int (Py.strip f0) = None
  | OutOfFuel => False
  end.
Proof.
  intros rest. unfold _get_info_from_log_line. fold rest.
  destruct (Py.startswith line _CMD_LOG_LINE_PREFIX) eqn:Hp; simpl; [|now left].
  destruct (Py.split_max "|" 4 rest) as [|f0 [|f1 [|f2 [|f3 [|f4 [|f5 l]]]]]] eqn:Hs;
    simpl; try (right; left; simpl; lia).
  destruct (Py.int (Py.strip f0)) as [n|] eqn:Hi.
  - destruct (Z.eqb_spec n p_id) as [->|Hne]; simpl.
    + split; [reflexivity|]. exists f0, f1, f2, f3, f4.
      repeat split; [assumption|].
      destruct (Py.endswith (Py.strip f4) Py.NL); reflexivity.
    + right; right. exists f0, f1, f2, f3, f4, n. repeat split; assumption.
  - repeat split. exists f0, f1, f2, f3, f4. split; [reflexivity | assumption].
Qed.

(** C9.  Every record [_get_info_from_log_line] returns has a message
    that ends with a newline: the message is the stripped fifth field,
    with a newline appended when it does not end with one. *)
Theorem log_msg_ends_with_newline (line : string) (p_id : Z) (r : LogRecord.t) :
  _get_info_from_log_line line p_id = Return (Some r) ->
  Py.endswith (LogRecord.log_msg r) Py.NL = true
  /\ exists f0 f1 f2 f3 f4,
      Py.split_max "|" 4 (Py.drop (String.length _CMD_LOG_LINE_PREFIX) line)
        = [f0; f1; f2; f3; f4]
      /\ LogRecord.log_msg r
         = (if Py.endswith (Py.strip f4) Py.NL then Py.strip f4
            else Py.strip f4 +:+ Py.NL).
Proof.
  intros Hr. pose proof (get_info_from_log_line_cases line p_id) as Hc.
  cbv zeta in Hc. rewrite Hr in Hc.
  destruct Hc as (_ & f0 & f1 & f2 & f3 & f4 & Hs & _ & ->). simpl.
  split.
  - destruct (Py.endswith (Py.strip f4) Py.NL) eqn:He; [exact He|].
    apply endswith_append.
  - exists f0, f1, f2, f3, f4. split; [exact Hs | reflexivity].
Qed.

(** C3, at the input that breaks it.  Whatever the prefix is, the line
    made of the prefix and [abc|x|y|z|m] has the five fields, and its first
    field is not an integer: the call raises [ValueError] instead of
    returning [None]. *)
Theorem get_info_raises_on_non_integer_pid :
  _get_info_from_log_line (_CMD_LOG_LINE_PREFIX +:+ "abc|x|y|z|m") 1
  = Raise ValueError.
Proof.
  unfold _get_info_from_log_line.
  rewrite startswith_append, drop_append. reflexivity.
Qed.

End LogLine.

(** The record of C9 on a line of the scenario. *)
Lemma log_msg_ends_with_newline_witness :
  Py.endswith "hello | world
" Py.NL = true
  /\ exists f0 f1 f2 f3 f4,
      Py.split_max "|" 4
        (Py.drop (String.length (@_CMD_LOG_LINE_PREFIX Scenario.azlogging))
           "CMD-LOG-LINE-BEGIN 12 | 1.5 | INFO | az.core |  hello | world ")
      = [f0; f1; f2; f3; f4]
      /\ "hello | world
" = (if Py.endswith (Py.strip f4) Py.NL then Py.strip f4
    else Py.strip f4 +:+ Py.NL).
Proof.
  exact (@log_msg_ends_with_newline Scenario.azlogging
           "CMD-LOG-LINE-BEGIN 12 | 1.5 | INFO | az.core |  hello | world " 12
           (LogRecord.mk 12 "1.5" "INFO" "az.core" "hello | world
") eq_refl).
Defined.

(* ================================================================== *)
(** * Metadata from the name of a log file *)
(* ================================================================== *)

Section FileMetadata.
Context `{Azlogging}.
Import CommandLogFile.

(** A name without exactly five dot-separated fields gives [None], and
    two debug notes. *)
Lemma metadata_none_on_wrong_field_count
    (path : string) (time_now : Datetime.datetime) (st : store) :
  path <> EmptyString ->
  length (Py.split "." (snd (PosixPath.split path))) <> 5%nat ->
  _get_command_metadata_from_file path time_now st
  = (Return None,
     mkStore (lists st) (minifiers st) (logfiles st)
       (log st ++ metadata_debug_notes path)).
Proof.
  intros Hne Hlen. unfold _get_command_metadata_from_file.
  destruct (String.eqb_spec path EmptyString) as [->|_]; [congruence|].
  unfold bind, try_except. destruct (PosixPath.split path) as [dir name].
  simpl in Hlen.
  destruct (Py.split "." name) as [|a [|b [|c [|d [|e [|f l]]]]]];
    simpl in Hlen; try lia; simpl;
    unfold logger; simpl; rewrite <- app_assoc; reflexivity.
Qed.

(** A name whose date and time do not parse gives [None] as well. *)
Lemma metadata_none_on_bad_date
    (path : string) (time_now : Datetime.datetime) (st : store)
    (poss_date poss_time poss_command poss_pid ext : string) :
  path <> EmptyString ->
  Py.split "." (snd (PosixPath.split path))
  = [poss_date; poss_time; poss_command; poss_pid; ext] ->
  Datetime.strptime (poss_date +:+ "-" +:+ poss_time) = Raise ValueError ->
  _get_command_metadata_from_file path time_now st
  = (Return None,
     mkStore (lists st) (minifiers st) (logfiles st)
       (log st ++ metadata_debug_notes path)).
Proof.
  intros Hne Hs Hd. unfold _get_command_metadata_from_file.
  destruct (String.eqb_spec path EmptyString) as [->|_]; [congruence|].
  unfold bind, try_except. destruct (PosixPath.split path) as [dir name].
  simpl in Hs. rewrite Hs. unfold lift. rewrite Hd. simpl.
  unfold logger; simpl; rewrite <- app_assoc; reflexivity.
Qed.

(** A name with five fields and a good date, whose process-id field is
    not an integer, is converted outside the [try] block: the call
    raises. *)
Lemma metadata_raises_on_bad_pid
    (path : string) (time_now : Datetime.datetime) (st : store)
    (poss_date poss_time poss_command poss_pid ext : string)
    (stamp : Datetime.datetime) :
  path <> EmptyString ->
  Py.split "." (snd (PosixPath.split path))
  = [poss_date; poss_time; poss_command; poss_pid; ext] ->
  Datetime.strptime (poss_date +:+ "-" +:+ poss_time) = Return stamp ->
  Py.int poss_pid = None ->
  _get_command_metadata_from_file path time_now st = (Raise ValueError, st).
Proof.
  intros Hne Hs Hd Hp. unfold _get_command_metadata_from_file.
  destruct (String.eqb_spec path EmptyString) as [->|_]; [congruence|].
  unfold bind, try_except. destruct (PosixPath.split path) as [dir name].
  simpl in Hs. rewrite Hs. unfold lift. rewrite Hd. simpl.
  rewrite Hp. reflexivity.
Qed.

(** C5, at the input that breaks it.  In a directory that holds a log
    named [2019-01-01.12-00-00.vm_create.abc.log], whose process-id field
    is not an integer, [_get_command_log_files] raises [ValueError]: the
    file is not skipped. *)
Theorem command_log_files_raises_on_bad_pid
    (time_now : option Datetime.datetime) :
  fst (@_get_command_log_files _ Scenario.os_bad_pid (mk_cli_ctx "/logs")
         time_now empty_store)
  = Raise ValueError.
Proof. vm_compute. reflexivity. Qed.

End FileMetadata.

(** Names that lack the five fields, or whose date is not one, are
    skipped with debug notes only. *)
Lemma command_log_files_skips_bad_names :
  let r := @_get_command_log_files Scenario.azlogging Scenario.os_bad_names
             (mk_cli_ctx "/logs") None empty_store in
  fst r = Return [0%nat]
  /\ option_map CommandLogFileObj._log_file_path (logfiles (snd r) !! 0%nat)
     = Some "/logs/2019-01-01.11-00-00.vm_list.77.log"
  /\ Forall (fun entry => fst entry = DEBUG) (log (snd r)).
Proof.
  vm_compute. repeat split. repeat constructor.
Qed.

(* ================================================================== *)
(** * The line-removal step of the minifier *)
(* ================================================================== *)

Section RemoveLines.
Import ErrorMinifier.

(** [lines[mid]] is in range exactly when the text, once the continuation
    marks are taken out, has at least three lines. *)
Lemma remove_lines_index_error (error_string : string) :
  let lines :=
    Py.splitlines (Py.replace error_string _CONTINUATION_STR EmptyString) in
  ((length lines < 3)%nat ->
   _minify_by_removing_lines error_string = Raise IndexError)
  /\ ((3 <= length lines)%nat ->
      exists s, _minify_by_removing_lines error_string = Return s).
Proof.
  intros lines. unfold _minify_by_removing_lines. fold lines.
  assert (Hmid : (length lines / 2 + 1 < length lines)%nat
                 <-> (3 <= length lines)%nat).
  { pose proof (Nat.div_mod_eq (length lines) 2) as Hd.
    pose proof (Nat.mod_upper_bound (length lines) 2). lia. }
  split; intros Hl.
  - rewrite (lookup_ge_None_2 lines); [reflexivity | lia].
  - destruct (lookup_lt_is_Some_2 lines (length lines / 2 + 1)) as [x Hx];
      [lia|].
    rewrite Hx. simpl. eexists. reflexivity.
Qed.

(** C7, at the input that breaks it.  With the single error [ab] and
    capacity 1 no rewriting shortens the text, the last resort indexes
    line 1 of a one-line text, and [set_capacity] raises [IndexError]. *)
Theorem set_capacity_raises_index_error (fuel : nat) :
  fst (Scenario.minify_fresh (S fuel) ["ab"] 1 empty_store) = Raise IndexError.
Proof. vm_compute. reflexivity. Qed.

(** C2, at the input that breaks it.  The error has the nested-exception
    mark on its second line of three; with capacity 10 the first three
    attempts leave its 42 characters as they are, and the fourth rewrites
    it to 49 characters, which is what the caller's list holds after the
    call. *)
Theorem nested_exception_attempt_expands :
  let r := Scenario.minify_fresh 10 [Scenario.nested_error] 10 empty_store in
  fst r = Return (0%nat, 0%nat)
  /\ Py.len (Py.join Py.NL [Scenario.nested_error]) = 42
  /\ Py.len
       (Py.join Py.NL
          (map (fun e => _minify_by_shortening_file_names e 4)
             (map (fun e => _minify_by_shortening_file_names e 5)
                [Scenario.nested_error]))) = 42
  /\ lists (snd r) !! 0%nat
     = Some [_minify_by_removing_nested_exceptions Scenario.nested_error]
  /\ Py.len (_minify_by_removing_nested_exceptions Scenario.nested_error) = 49.
Proof. vm_compute. repeat split. Qed.

End RemoveLines.

(* ================================================================== *)
(** * Regrouping the lines of a log file *)
(* ================================================================== *)

Section LogRecordList.
Context `{Azlogging}.
Import CommandLogFile.

Lemma append_to_message_nil (r : LogRecord.t) : append_to_message r [] = r.
Proof.
  destruct r. unfold append_to_message. simpl. now rewrite append_empty_r.
Qed.

Lemma append_to_message_cons (r : LogRecord.t) (line : string)
    (cs : list string) :
  append_to_message r (line :: cs)
  = append_to_message
      (LogRecord.mk (LogRecord.p_id r) (LogRecord.date_time r)
         (LogRecord.level r) (LogRecord.logger r)
         (LogRecord.log_msg r +:+ line)) cs.
Proof.
  unfold append_to_message. simpl. now rewrite append_assoc.
Qed.

(** Invariant of the loop: the records closed so far, then the open one. *)
Lemma log_record_loop_groups (lines : list string) (p_id : Z) :
  forall prev acc prev' acc',
    _get_log_record_list_loop lines p_id prev acc = Return (prev', acc') ->
    exists cs groups rs,
      lines = cs ++ group_lines groups
      /\ Forall (not_a_record p_id) cs
      /\ Forall2 (group_makes p_id) groups rs
      /\ acc' ++ option_list prev'
         = acc ++ option_list (option_map (fun r => append_to_message r cs) prev)
           ++ rs.
Proof.
  induction lines as [|line rest IH]; intros prev acc prev' acc' Hrun.
  - simpl in Hrun. injection Hrun as <- <-.
    exists [], [], []. repeat split; try constructor.
    destruct prev as [p|]; simpl; [|reflexivity].
    now rewrite append_to_message_nil.
  - simpl in Hrun.
    destruct (_get_info_from_log_line line p_id) as [[r|]|e|] eqn:Hline;
      simpl in Hrun; try discriminate.
    + apply IH in Hrun as (cs & groups & rs & -> & Hcs & Hgr & Heq).
      exists [], ((line, cs) :: groups), (append_to_message r cs :: rs).
      repeat split.
      * constructor.
      * constructor; [|exact Hgr]. exists r. now repeat split.
      * rewrite Heq. simpl.
        destruct prev as [p|]; simpl;
          rewrite ?append_to_message_nil, <- ?app_assoc; reflexivity.
    + destruct prev as [p|].
      * apply IH in Hrun as (cs & groups & rs & -> & Hcs & Hgr & Heq).
        exists (line :: cs), groups, rs. repeat split.
        -- now constructor.
        -- exact Hgr.
        -- rewrite Heq. simpl. now rewrite append_to_message_cons.
      * apply IH in Hrun as (cs & groups & rs & -> & Hcs & Hgr & Heq).
        exists (line :: cs), groups, rs. repeat split.
        -- now constructor.
        -- exact Hgr.
        -- exact Heq.
Qed.

(** C4.  When [_get_log_record_list] returns, the lines of the file are
    some lines that are not records, followed by groups made of a
    new-record line and the lines after it that are not records; the
    result has one record per group, in file order, and each is the
    record of the group's first line with the other lines of the group
    appended, in order and unchanged, to its message and with its other
    fields as parsed. *)
Theorem log_record_list_regroups (lines : list string) (p_id : Z)
    (rs : list LogRecord.t) :
  _get_log_record_list lines p_id = Return rs ->
  exists (skipped : list string) (groups : list (string * list string)),
    lines = skipped ++ group_lines groups
    /\ Forall (not_a_record p_id) skipped
    /\ Forall2 (group_makes p_id) groups rs.
Proof.
  unfold _get_log_record_list. intros Hrun.
  destruct (_get_log_record_list_loop lines p_id None []) as [[prev acc]|e|]
    eqn:Hloop; simpl in Hrun; try discriminate.
  apply log_record_loop_groups in Hloop
    as (cs & groups & rs' & -> & Hcs & Hgr & Heq).
  simpl in Heq. exists cs, groups. repeat split; try assumption.
  destruct prev as [p|]; injection Hrun as <-; simpl in Heq;
    rewrite ?app_nil_r in Heq; now rewrite Heq.
Qed.

(** Continuation lines only extend the open record. *)
Lemma log_record_loop_skips (p_id : Z) (rest : list string) :
  forall (cs : list string) prev acc,
    Forall (not_a_record p_id) cs ->
    _get_log_record_list_loop (cs ++ rest) p_id prev acc
    = _get_log_record_list_loop rest p_id
        (option_map (fun r => append_to_message r cs) prev) acc.
Proof.
  induction cs as [|line cs IH]; intros prev acc Hcs.
  - destruct prev as [p|]; simpl; [|reflexivity].
    now rewrite append_to_message_nil.
  - apply Forall_cons in Hcs as [Hline Hcs]. simpl.
    unfold not_a_record in Hline. rewrite Hline. simpl.
    destruct prev as [p|]; rewrite (IH _ _ Hcs); simpl; [|reflexivity].
    now rewrite append_to_message_cons.
Qed.

Lemma log_record_loop_on_groups (p_id : Z) :
  forall (groups : list (string * list string)) (rs : list LogRecord.t)
         prev acc,
    Forall2 (group_makes p_id) groups rs ->
    exists prev' acc',
      _get_log_record_list_loop (group_lines groups) p_id prev acc
      = Return (prev', acc')
      /\ acc' ++ option_list prev' = acc ++ option_list prev ++ rs.
Proof.
  intros groups rs prev acc Hgr. revert prev acc.
  induction Hgr as [|[line cs] r groups rs (r0 & Hline & Hcs & ->) _ IH];
    intros prev acc.
  - exists prev, acc. split; [reflexivity|]. now rewrite app_nil_r.
  - unfold group_lines. simpl. fold (group_lines groups).
    simpl in Hline, Hcs. rewrite Hline. simpl.
    rewrite (log_record_loop_skips p_id _ cs _ _ Hcs). simpl.
    destruct (IH (Some (append_to_message r0 cs))
                (match prev with Some p => acc ++ [p] | None => acc end))
      as (prev' & acc' & Hrun & Heq).
    exists prev', acc'. split; [exact Hrun|]. rewrite Heq.
    destruct prev as [p|]; simpl; now rewrite <- ?app_assoc.
Qed.

(** The other direction of C4: on lines made of skipped lines and groups
    the function returns, and returns the records of the groups. *)
Lemma log_record_list_of_groups (p_id : Z) (skipped : list string)
    (groups : list (string * list string)) (rs : list LogRecord.t) :
  Forall (not_a_record p_id) skipped ->
  Forall2 (group_makes p_id) groups rs ->
  _get_log_record_list (skipped ++ group_lines groups) p_id = Return rs.
Proof.
  intros Hsk Hgr. unfold _get_log_record_list.
  rewrite (log_record_loop_skips p_id _ skipped None [] Hsk). simpl.
  destruct (log_record_loop_on_groups p_id groups rs None [] Hgr)
    as (prev' & acc' & Hrun & Heq).
  rewrite Hrun. simpl. simpl in Heq.
  destruct prev' as [p|]; simpl in Heq; rewrite ?app_nil_r in Heq;
    now rewrite Heq.
Qed.

End LogRecordList.

(* ================================================================== *)
(** * The strategies of the minifier *)
(* ================================================================== *)

Section Strategies.
Import ErrorMinifier ErrorMinifierObj.

Lemma set_list_same (r : loc) (l : list string) (st : store) :
  lists st !! r = Some l -> set_list r l st = st.
Proof.
  intros Hl. destruct st as [ls ms fs lg]. unfold set_list. simpl in *.
  now rewrite insert_id.
Qed.

Lemma set_list_twice (r : loc) (l1 l2 : list string) (st : store) :
  set_list r l2 (set_list r l1 st) = set_list r l2 st.
Proof. unfold set_list. simpl. now rewrite insert_insert_eq. Qed.

Lemma lists_set_list (r : loc) (l : list string) (st : store) :
  lists (set_list r l st) !! r = Some l.
Proof. unfold set_list. simpl. apply lookup_insert_eq. Qed.

(** The in-place loop, with the elements already rewritten in [done]. *)
Lemma for_enumerate_rewrites (r : loc) (f : string -> string) :
  forall (todo done : list string) (st : store),
    lists st !! r = Some (done ++ todo) ->
    for_enumerate r f (length todo) (length done) st
    = (Return tt, set_list r (done ++ map f todo) st).
Proof.
  induction todo as [|x todo IH]; intros done st Hl.
  - simpl. unfold ret. rewrite set_list_same; [reflexivity | exact Hl].
  - simpl. unfold bind at 1. unfold list_get, bind at 1, read_list.
    rewrite Hl. rewrite list_lookup_middle by reflexivity.
    unfold ret. unfold bind at 1. unfold list_set. rewrite Hl.
    rewrite decide_True by (rewrite length_app; simpl; lia).
    replace (length done) with (length done + 0)%nat at 2 by lia.
    rewrite insert_app_r. simpl.
    assert (Hl' : lists (set_list r (done ++ f x :: todo) st) !! r
                  = Some ((done ++ [f x]) ++ todo))
      by (rewrite lists_set_list, <- app_assoc; reflexivity).
    specialize (IH _ _ Hl'). rewrite set_list_twice in IH.
    rewrite length_app, Nat.add_comm in IH. simpl in IH.
    rewrite <- app_assoc in IH. simpl in IH.
    unfold set_list in IH at 1. exact IH.
Qed.

Lemma rewrite_and_join_maps (r : loc) (f : string -> string)
    (l : list string) (st : store) :
  lists st !! r = Some l ->
  rewrite_and_join r f st
  = (Return (Py.join Py.NL (map f l)), set_list r (map f l) st).
Proof.
  intros Hl. unfold rewrite_and_join, bind, read_list. rewrite Hl.
  pose proof (for_enumerate_rewrites r f l [] st Hl) as Hloop.
  simpl in Hloop. rewrite Hloop. rewrite lists_set_list. reflexivity.
Qed.

Lemma get_minified_errors_by_strategies (fuel : nat) (self : loc)
    (st : store) (o : t) (errors : list string) (capacity : Z) :
  minifiers st !! self = Some o ->
  _capacity o = Some capacity ->
  lists st !! _errors_list o = Some errors ->
  _get_minified_errors fuel self st
  = (fst (minified_by_strategies fuel capacity errors),
     set_list (_errors_list o)
       (snd (minified_by_strategies fuel capacity errors)) st).
Proof.
  intros Hm Hc Hl. unfold _get_minified_errors.
  unfold bind at 1. unfold read_minifier. rewrite Hm.
  unfold bind at 1. unfold read_list at 1. rewrite Hl. rewrite Hc.
  unfold minified_by_strategies, fits.
  destruct (bool_decide (errors = [])).
  { simpl. unfold ret. now rewrite set_list_same. }
  destruct (Py.len (Py.join Py.NL errors) <=? capacity)%Z.
  { simpl. unfold ret. now rewrite set_list_same. }
  unfold bind at 1.
  rewrite (rewrite_and_join_maps _ _ errors st Hl). fold (strategy2 errors).
  destruct (Py.len (Py.join Py.NL (strategy2 errors)) <=? capacity)%Z.
  { reflexivity. }
  unfold bind at 1.
  rewrite (rewrite_and_join_maps _ _ (strategy2 errors) _
             (lists_set_list _ _ _)).
  fold (strategy3 errors). rewrite set_list_twice.
  destruct (Py.len (Py.join Py.NL (strategy3 errors)) <=? capacity)%Z.
  { reflexivity. }
  unfold bind at 1.
  rewrite (rewrite_and_join_maps _ _ (strategy3 errors) _
             (lists_set_list _ _ _)).
  fold (strategy4 errors). rewrite set_list_twice.
  destruct (Py.len (Py.join Py.NL (strategy4 errors)) <=? capacity)%Z.
  { reflexivity. }
  reflexivity.
Qed.

(** [set_capacity] refines the description of the strategies. *)
Lemma set_capacity_by_strategies (fuel : nat) (self : loc) (st : store)
    (o : t) (errors : list string) (capacity : Z) :
  minifiers st !! self = Some o ->
  lists st !! _errors_list o = Some errors ->
  set_capacity fuel self capacity st
  = (discard (fst (minified_by_strategies fuel capacity errors)),
     store_after_set_capacity st self o capacity
       (minified_by_strategies fuel capacity errors)).
Proof.
  intros Hm Hl. unfold set_capacity.
  unfold bind at 1. unfold logger at 1.
  unfold bind at 1. unfold read_minifier at 1. simpl minifiers. rewrite Hm.
  unfold bind at 1. unfold write_minifier at 1. simpl.
  set (o1 := mk (_errors_list o) (Some capacity) (_minified_error o)).
  set (st1 := mkStore _ _ _ _).
  assert (Hm1 : minifiers st1 !! self = Some o1)
    by (subst st1; simpl; apply lookup_insert_eq).
  unfold bind at 1.
  rewrite (get_minified_errors_by_strategies fuel self st1 o1 errors capacity
             Hm1 eq_refl Hl).
  unfold store_after_set_capacity.
  destruct (fst (minified_by_strategies fuel capacity errors)) as [s|e|];
    simpl; try reflexivity.
  unfold bind, read_minifier. simpl. rewrite lookup_insert_eq.
  unfold write_minifier. simpl. now rewrite insert_insert_eq.
Qed.

End Strategies.

(* ================================================================== *)
(** * What [set_capacity] guarantees *)
(* ================================================================== *)

Section SetCapacity.
Import ErrorMinifier ErrorMinifierObj.

(** The loop of the last resort only returns a text that fits. *)
Lemma remove_lines_while_fits (capacity : Z) :
  forall (fuel : nat) (s s' : string),
    remove_lines_while fuel capacity s = Return s' ->
    fits capacity s' = true.
Proof.
  induction fuel as [|fuel IH]; intros s s' Hrun; simpl in Hrun;
    destruct (Py.len s <=? capacity)%Z eqn:Hfit.
  - injection Hrun as <-. exact Hfit.
  - discriminate.
  - injection Hrun as <-. exact Hfit.
  - destruct (_minify_by_removing_lines s) as [s1|e|]; simpl in Hrun;
      try discriminate.
    exact (IH s1 s' Hrun).
Qed.


(** A text the strategies return fits the capacity, unless there were no
    errors at all. *)
Lemma minified_by_strategies_fits (fuel : nat) (capacity : Z)
    (errors : list string) (s : string) :
  fst (minified_by_strategies fuel capacity errors) = Return s ->
  errors <> [] ->
  fits capacity s = true.
Proof.
  unfold minified_by_strategies. intros Hres Hne.
  rewrite bool_decide_eq_false_2 in Hres by exact Hne.
  repeat match type of Hres with
         | context [if fits ?c ?x then _ else _] =>
             destruct (fits c x) eqn:?; simpl in Hres
         end;
    try (injection Hres as <-; assumption).
  exact (remove_lines_while_fits _ _ _ _ Hres).
Qed.

(** The text the strategies return is never longer than the join of the
    errors they were given. *)
Lemma minified_by_strategies_not_longer (fuel : nat) (capacity : Z)
    (errors : list string) (s : string) :
  fst (minified_by_strategies fuel capacity errors) = Return s ->
  (Py.len s <= Py.len (Py.join Py.NL errors))%Z.
Proof.
  intros Hres. destruct (decide (errors = [])) as [->|Hne].
  - simpl in Hres. injection Hres as <-. reflexivity.
  - pose proof (minified_by_strategies_fits _ _ _ _ Hres Hne) as Hfit.
    unfold minified_by_strategies in Hres.
    rewrite bool_decide_eq_false_2 in Hres by exact Hne.
    destruct (fits capacity (Py.join Py.NL errors)) eqn:H1.
    + simpl in Hres. injection Hres as <-. lia.
    + unfold fits in *. lia.
Qed.



(** With a negative capacity no text fits: on a non-empty list
    [set_capacity] does not return. *)
Lemma set_capacity_negative_capacity (fuel : nat) (self : loc) (st : store)
    (o : t) (errors : list string) (capacity : Z) :
  minifiers st !! self = Some o ->
  lists st !! _errors_list o = Some errors ->
  errors <> [] ->
  (capacity < 0)%Z ->
  fst (set_capacity fuel self capacity st) <> Return tt.
Proof.
  intros Hm Hl Hne Hneg.
  rewrite (set_capacity_by_strategies fuel self st o errors capacity Hm Hl).
  simpl.
  destruct (fst (minified_by_strategies fuel capacity errors)) as [s|e|] eqn:Hs;
    simpl; try discriminate.
  pose proof (minified_by_strategies_fits _ _ _ _ Hs Hne) as Hfit.
  unfold fits, Py.len in Hfit. apply Z.leb_le in Hfit. lia.
Qed.

(** The half of C2 that holds: when [set_capacity] returns, the text it
    stores is not longer than the join of the errors it found. *)
Lemma set_capacity_text_not_longer (fuel : nat) (self : loc) (st : store)
    (o : t) (errors : list string) (capacity : Z) :
  minifiers st !! self = Some o ->
  lists st !! _errors_list o = Some errors ->
  fst (set_capacity fuel self capacity st) = Return tt ->
  exists s,
    option_map _minified_error
      (minifiers (snd (set_capacity fuel self capacity st)) !! self) = Some s
    /\ (Py.len s <= Py.len (Py.join Py.NL errors))%Z.
Proof.
  intros Hm Hl.
  rewrite (set_capacity_by_strategies fuel self st o errors capacity Hm Hl).
  unfold store_after_set_capacity. simpl.
  destruct (fst (minified_by_strategies fuel capacity errors)) as [s|e|] eqn:Hs;
    simpl; intros Hret; try discriminate.
  exists s. rewrite lookup_insert_eq. split; [reflexivity|].
  exact (minified_by_strategies_not_longer _ _ _ _ Hs).
Qed.

End SetCapacity.

(* ================================================================== *)
(** * Path segments kept by [_shorten_file_name] *)
(* ================================================================== *)

Section PathSegments.
Import ErrorMinifier.

Lemma separators_append (a b : string) :
  separators (a +:+ b) = (separators a + separators b)%nat.
Proof.
  induction a as [|c a IH]; [reflexivity|].
  rewrite append_cons. simpl. rewrite IH. lia.
Qed.

Lemma separators_after_last (s : string) :
  separators (Py.drop (Py.rfind_succ PosixPath.sep s) s) = O.
Proof.
  induction s as [|c s IH]; [reflexivity|]. simpl.
  destruct (Py.rfind_succ PosixPath.sep s) as [|k] eqn:Hk.
  - simpl in IH. destruct (Ascii.eqb c PosixPath.sep) eqn:Hc; simpl.
    + destruct s; exact IH.
    + rewrite Hc. exact IH.
  - exact IH.
Qed.

Lemma separators_basename (p : string) : separators (PosixPath.basename p) = O.
Proof. apply separators_after_last. Qed.

Lemma separators_join_basename (d name : string) :
  (separators (PosixPath.join (PosixPath.basename d) name)
   <= 1 + separators name)%nat.
Proof.
  unfold PosixPath.join. pose proof (separators_basename d) as Hb.
  destruct (Py.startswith name "/"); [lia|].
  destruct (_ || _); rewrite !separators_append, ?Hb; simpl; lia.
Qed.

Lemma separators_shorten_loop :
  forall (n : nat) (new_name file_name : string),
    (separators (_shorten_file_name_loop n new_name file_name)
     <= n + separators new_name)%nat.
Proof.
  induction n as [|n IH]; intros new_name file_name; simpl; [lia|].
  specialize (IH (PosixPath.join (PosixPath.basename file_name) new_name)
                (PosixPath.dirname file_name)).
  pose proof (separators_join_basename file_name new_name). lia.
Qed.

(** With [levels > 0] the shortened name has at most [levels - 1]
    separators, that is at most [levels] segments: 5, then 4, in
    strategies 2 and 3. *)
Lemma shorten_file_name_segments (file_name : string) (levels : Z) :
  (0 < levels)%Z ->
  (separators (_shorten_file_name file_name levels)
   <= Z.to_nat (levels - 1))%nat.
Proof.
  intros Hl. unfold _shorten_file_name.
  rewrite (proj2 (Z.ltb_lt 0 levels) Hl).
  pose proof (separators_shorten_loop (Z.to_nat (levels - 1))
                (PosixPath.basename file_name) (PosixPath.dirname file_name)).
  rewrite separators_basename in *. lia.
Qed.

End PathSegments.

(* ================================================================== *)
(** * Lengths of the rewritten errors *)
(* ================================================================== *)

Section Lengths.
Import ErrorMinifier.

Lemma length_join_weight (sep : ascii) (lines : list string) :
  String.length (Py.join (String sep EmptyString) lines)
  = (weight lines - 1)%nat.
Proof.
  induction lines as [|x [|y rest] IH]; [reflexivity | simpl; lia |].
  change (Py.join (String sep EmptyString) (x :: y :: rest))
    with (x +:+ String sep EmptyString
            +:+ Py.join (String sep EmptyString) (y :: rest)).
  rewrite !length_append, IH. simpl. lia.
Qed.

Lemma weight_cons_first (c : ascii) (lines : list string) :
  weight (Py.cons_first c lines)
  = (match lines with [] => 2 | _ => weight lines + 1 end)%nat.
Proof. destruct lines; simpl; lia. Qed.

Lemma splitlines_nil (s : string) : Py.splitlines s = [] -> s = EmptyString.
Proof.
  destruct s as [|c s]; [reflexivity|]. simpl.
  destruct (Py.is_linebreak c).
  - destruct s as [|c2 s]; [discriminate|].
    destruct (Ascii.eqb c Py.CR && Ascii.eqb c2 Py.LF); discriminate.
  - destruct (Py.splitlines s); discriminate.
Qed.

Lemma weight_splitlines_bound :
  forall (n : nat) (s : string),
    (String.length s <= n)%nat ->
    (weight (Py.splitlines s) <= String.length s + 1)%nat.
Proof.
  induction n as [|n IH]; intros [|c s] Hn; simpl in *; try lia.
  destruct (Py.is_linebreak c).
  - destruct s as [|c2 s]; [simpl; lia|].
    destruct (Ascii.eqb c Py.CR && Ascii.eqb c2 Py.LF).
    + simpl in *. specialize (IH s). lia.
    + specialize (IH (String c2 s)).
      change (weight (EmptyString :: Py.splitlines (String c2 s)))
        with (1 + weight (Py.splitlines (String c2 s)))%nat.
      simpl in *. lia.
  - rewrite weight_cons_first. specialize (IH s).
    destruct (Py.splitlines s) eqn:Hs.
    + apply splitlines_nil in Hs. subst s. simpl. lia.
    + lia.
Qed.

Lemma weight_omap_shrinks (g : string -> option string) (lines : list string) :
  (forall line x, g line = Some x -> (String.length x <= String.length line)%nat) ->
  (weight (omap g lines) <= weight lines)%nat.
Proof.
  intros Hg. induction lines as [|line rest IH]; [simpl; lia|].
  change (omap g (line :: rest))
    with (match g line with
          | Some y => y :: omap g rest
          | None => omap g rest
          end).
  destruct (g line) as [x|] eqn:Hx.
  - specialize (Hg _ _ Hx). simpl. lia.
  - simpl. lia.
Qed.

Lemma rewritten_lines_not_longer (g : string -> option string) (s : string) :
  (forall line x, g line = Some x -> (String.length x <= String.length line)%nat) ->
  (String.length (Py.join Py.NL (omap g (Py.splitlines s)))
   <= String.length s)%nat.
Proof.
  intros Hg. unfold Py.NL. rewrite length_join_weight.
  pose proof (weight_omap_shrinks g (Py.splitlines s) Hg).
  pose proof (weight_splitlines_bound _ s (Nat.le_refl _)). lia.
Qed.

Lemma split_not_nil (sep : ascii) (s : string) : Py.split sep s <> [].
Proof.
  destruct s as [|c s]; simpl; [discriminate|].
  destruct (Ascii.eqb c sep); [discriminate|].
  destruct (Py.split sep s); discriminate.
Qed.

Lemma join_split (sep : ascii) (s : string) :
  Py.join (String sep EmptyString) (Py.split sep s) = s.
Proof.
  induction s as [|c s IH]; [reflexivity|]. simpl.
  pose proof (split_not_nil sep s) as Hne.
  destruct (Ascii.eqb_spec c sep) as [->|Hc].
  - destruct (Py.split sep s) as [|x xs]; [congruence|].
    change (Py.join (String sep EmptyString) (EmptyString :: x :: xs))
      with (String sep (Py.join (String sep EmptyString) (x :: xs))).
    now rewrite IH.
  - destruct (Py.split sep s) as [|x [|y xs]]; [congruence| |]; simpl in *.
    + now rewrite IH.
    + rewrite append_cons. now rewrite IH.
Qed.

Lemma length_drop_le (n : nat) (s : string) :
  (String.length (Py.drop n s) <= String.length s)%nat.
Proof.
  revert s. induction n as [|n IH]; intros [|c s]; simpl; try lia.
  specialize (IH s). lia.
Qed.

Lemma length_take_le (n : nat) (s : string) :
  (String.length (Py.take n s) <= String.length s)%nat.
Proof.
  revert s. induction n as [|n IH]; intros [|c s]; simpl; try lia.
  specialize (IH s). lia.
Qed.

Lemma length_take_drop (n : nat) (s : string) :
  (String.length (Py.take n s) + String.length (Py.drop n s))%nat
  = String.length s.
Proof.
  revert s. induction n as [|n IH]; intros [|c s]; simpl; try lia.
  specialize (IH s). lia.
Qed.

Lemma length_first_piece (sep : ascii) (s : string) :
  (String.length (hd EmptyString (Py.split sep s)) <= String.length s)%nat.
Proof.
  induction s as [|c s IH]; simpl; [lia|].
  destruct (Ascii.eqb c sep); simpl; [lia|].
  destruct (Py.split sep s); simpl in *; lia.
Qed.

Lemma file_re_group_not_longer (s g : string) :
  _FILE_RE_search s = Some g -> (String.length g <= String.length s)%nat.
Proof.
  induction s as [|c s IH]; [discriminate|].
  intros Hg. cbn [_FILE_RE_search] in Hg.
  assert (Hrec : _FILE_RE_search s = Some g ->
                 (String.length g <= String.length (String c s))%nat)
    by (intros Hs; specialize (IH Hs); simpl; lia).
  destruct (Py.startswith (String c s) FILE_QUOTE); [|exact (Hrec Hg)].
  set (rest := Py.drop 6 (String c s)) in Hg.
  destruct (Py.rfind_succ Py.DQUOTE (hd EmptyString (Py.split Py.LF rest)))
    as [|k]; [exact (Hrec Hg)|].
  injection Hg as <-.
  pose proof (length_take_le k (hd EmptyString (Py.split Py.LF rest))).
  pose proof (length_first_piece Py.LF rest).
  pose proof (length_drop_le 6 (String c s)). subst rest. lia.
Qed.

Lemma startswith_length (s p : string) :
  Py.startswith s p = true -> (String.length p <= String.length s)%nat.
Proof.
  revert s. induction p as [|a p IH]; intros s Hs; simpl; [lia|].
  destruct s as [|b s]; simpl in Hs; [discriminate|].
  apply andb_true_iff in Hs as [_ Hs]. specialize (IH s Hs). simpl. lia.
Qed.

Lemma length_replace_from (old new : string) :
  old <> EmptyString ->
  (String.length new <= String.length old)%nat ->
  forall (s : string) (skip : nat),
    (String.length (Py.replace_from old new skip s)
     + Nat.min skip (String.length s) <= String.length s)%nat.
Proof.
  intros Hold Hnew. induction s as [|c s IH]; intros skip; simpl; [lia|].
  destruct skip as [|k].
  - destruct (Py.startswith (String c s) old) eqn:Hst.
    + apply startswith_length in Hst. simpl in Hst.
      rewrite length_append.
      specialize (IH (String.length old - 1)%nat).
      destruct old as [|o old]; [congruence|]. simpl in *. lia.
    + specialize (IH O). simpl. lia.
  - specialize (IH k). lia.
Qed.

Lemma replace_not_longer (s old new : string) :
  old <> EmptyString ->
  (String.length new <= String.length old)%nat ->
  (String.length (Py.replace s old new) <= String.length s)%nat.
Proof.
  intros Hold Hnew. unfold Py.replace.
  pose proof (length_replace_from old new Hold Hnew s O). lia.
Qed.

Lemma all_char_append (c : ascii) (a b : string) :
  Py.all_char c (a +:+ b) = Py.all_char c a && Py.all_char c b.
Proof.
  induction a as [|x a IH]; [reflexivity|].
  rewrite append_cons. simpl. rewrite IH. now rewrite andb_assoc.
Qed.

Lemma take_drop (n : nat) (s : string) : Py.take n s +:+ Py.drop n s = s.
Proof.
  revert s. induction n as [|n IH]; intros [|c s]; simpl; try reflexivity.
  rewrite append_cons. now rewrite IH.
Qed.

Lemma length_rstrip_char (c : ascii) (s : string) :
  (String.length (Py.rstrip_char c s) <= String.length s)%nat.
Proof.
  induction s as [|a s IH]; simpl; [lia|].
  destruct (Py.rstrip_char c s); [destruct (Ascii.eqb a c)|]; simpl in *; lia.
Qed.

Lemma rstrip_char_last (c : ascii) (s : string) :
  Py.rstrip_char c (s +:+ String c EmptyString) = Py.rstrip_char c s.
Proof.
  induction s as [|a s IH].
  - simpl. now rewrite Ascii.eqb_refl.
  - rewrite append_cons. simpl. now rewrite IH.
Qed.

Lemma rfind_succ_le (c : ascii) (s : string) :
  (Py.rfind_succ c s <= String.length s)%nat.
Proof.
  induction s as [|a s IH]; simpl; [lia|].
  destruct (Py.rfind_succ c s); [destruct (Ascii.eqb a c)|]; lia.
Qed.

(** The head cut at the last separator ends with it. *)
Lemma take_rfind_succ (c : ascii) (s : string) (k : nat) :
  Py.rfind_succ c s = S k ->
  Py.take (S k) s = Py.take k s +:+ String c EmptyString.
Proof.
  revert k. induction s as [|a s IH]; intros k Hk; [discriminate|].
  simpl in Hk. destruct (Py.rfind_succ c s) as [|j] eqn:Hj.
  - destruct (Ascii.eqb_spec a c) as [->|]; [|discriminate].
    injection Hk as <-. simpl. now destruct s.
  - injection Hk as <-. specialize (IH j eq_refl).
    change (Py.take (S (S j)) (String a s)) with (String a (Py.take (S j) s)).
    rewrite IH. reflexivity.
Qed.

Lemma all_char_no_separator (s : string) :
  s <> EmptyString -> separators s = O -> Py.all_char PosixPath.sep s = false.
Proof.
  destruct s as [|a s]; [congruence|]. intros _. simpl.
  destruct (Ascii.eqb a PosixPath.sep); [discriminate | reflexivity].
Qed.

(** Sizes of the two halves [os.path.split] makes. *)
Lemma split_sizes (p : string) :
  let b := PosixPath.basename p in
  let d := PosixPath.dirname p in
  (String.length b + String.length d + named d <= String.length p)%nat
  /\ (String.length d + named d + String.length b
       + (if String.eqb b EmptyString then 0 else 1)
      <= String.length p + named p)%nat.
Proof.
  intros b d. subst b d. unfold PosixPath.dirname, PosixPath.head_of,
    PosixPath.basename, PosixPath.cut.
  pose proof (length_take_drop (Py.rfind_succ PosixPath.sep p) p) as Hlen.
  pose proof (take_drop (Py.rfind_succ PosixPath.sep p) p) as Hp.
  pose proof (separators_after_last p) as Hb.
  set (h := Py.rfind_succ PosixPath.sep p) in *.
  set (b := Py.drop h p) in *. set (head := Py.take h p) in *.
  assert (Hnamed_b : ((if String.eqb b EmptyString then 0 else 1)
                      <= (if Py.all_char PosixPath.sep b then 0 else 1))%nat).
  { destruct (String.eqb_spec b EmptyString) as [->|Hne]; [simpl; lia|].
    rewrite (all_char_no_separator b Hne Hb). lia. }
  assert (Hnamed_p : named p
                     = (if Py.all_char PosixPath.sep head
                           && Py.all_char PosixPath.sep b then 0 else 1)%nat).
  { unfold named. rewrite <- Hp at 1. now rewrite all_char_append. }
  rewrite Hnamed_p. clear Hnamed_p Hp.
  destruct (String.eqb_spec head EmptyString) as [He|He].
  - rewrite He in *. simpl in *. unfold named. simpl.
    destruct (String.eqb b EmptyString), (Py.all_char PosixPath.sep b);
      simpl in *; lia.
  - simpl. destruct (Py.all_char PosixPath.sep head) eqn:Hall; simpl.
    + unfold named. rewrite Hall.
      destruct (String.eqb b EmptyString), (Py.all_char PosixPath.sep b);
        simpl in *; lia.
    + assert (Hstrip : (String.length (Py.rstrip_char PosixPath.sep head) + 1
                        <= String.length head)%nat).
      { subst head. destruct h as [|k] eqn:Hh; [now simpl in He|].
        unfold h in Hh. rewrite (take_rfind_succ _ _ _ Hh).
        rewrite rstrip_char_last, length_append. simpl.
        pose proof (length_rstrip_char PosixPath.sep (Py.take k p)). lia. }
      assert (Hn : forall x, (named x <= 1)%nat)
        by (intros x; unfold named; destruct (Py.all_char _ x); lia).
      pose proof (Hn (Py.rstrip_char PosixPath.sep head)).
      destruct (String.eqb b EmptyString); lia.
Qed.

Lemma length_join_basename (d name : string) :
  (String.length (PosixPath.join (PosixPath.basename d) name)
   <= String.length name + String.length (PosixPath.basename d)
      + (if String.eqb (PosixPath.basename d) EmptyString then 0 else 1))%nat.
Proof.
  unfold PosixPath.join. set (b := PosixPath.basename d).
  destruct (Py.startswith name "/"); [lia|].
  destruct (String.eqb_spec b EmptyString) as [->|Hne]; simpl.
  - rewrite append_empty_l. lia.
  - destruct (Py.endswith b "/"); rewrite !length_append; simpl; lia.
Qed.

Lemma length_shorten_loop :
  forall (n : nat) (new_name file_name : string),
    (String.length (_shorten_file_name_loop n new_name file_name)
     <= String.length new_name + String.length file_name + named file_name)%nat.
Proof.
  induction n as [|n IH]; intros new_name file_name; simpl; [lia|].
  specialize (IH (PosixPath.join (PosixPath.basename file_name) new_name)
                (PosixPath.dirname file_name)).
  pose proof (length_join_basename file_name new_name).
  pose proof (proj2 (split_sizes file_name)). simpl in *. lia.
Qed.

(** [_shorten_file_name] never makes a name longer. *)
Lemma shorten_file_name_not_longer (file_name : string) (levels : Z) :
  (String.length (_shorten_file_name file_name levels)
   <= String.length file_name)%nat.
Proof.
  unfold _shorten_file_name. destruct (0 <? levels)%Z; [|lia].
  pose proof (length_shorten_loop (Z.to_nat (levels - 1))
                (PosixPath.basename file_name) (PosixPath.dirname file_name)).
  pose proof (proj1 (split_sizes file_name)). simpl in *. lia.
Qed.

Lemma line_not_a_field : String "l" (String "i" (String "n" (String "e" EmptyString)))
                         <> EmptyString.
Proof. discriminate. Qed.

(** A line that [shorten_line] keeps is not longer than it was. *)
Lemma shorten_line_not_longer (levels : Z) (line x : string) :
  shorten_line levels line = Some x ->
  (String.length x <= String.length line)%nat.
Proof.
  unfold shorten_line. intros Hx.
  pose proof (join_split "," line) as Hline.
  assert (Hjoin : forall parts,
             (weight parts <= weight (Py.split "," line))%nat ->
             (String.length (Py.join "," parts) <= String.length line)%nat).
  { intros parts Hw. rewrite <- Hline at 1.
    change ","%string with (String ","%char EmptyString).
    rewrite !length_join_weight. lia. }
  destruct (Py.startswith (Py.strip line) "File" && Py.contains ", line" line).
  { injection Hx as <-. apply Hjoin.
    destruct (Py.split "," line) as [|p0 [|p1 rest]]; try lia.
    destruct (_FILE_RE_search p0) as [g|] eqn:Hg; [|lia].
    apply file_re_group_not_longer in Hg.
    pose proof (shorten_file_name_not_longer g levels).
    pose proof (replace_not_longer p1 "line" "ln" line_not_a_field).
    simpl in *. lia. }
  destruct (Py.contains ".py" line && Py.contains ", ln" line).
  { injection Hx as <-. apply Hjoin.
    destruct (Py.split "," line) as [|p0 rest]; [lia|].
    pose proof (shorten_file_name_not_longer p0 levels). simpl. lia. }
  destruct (Py.contains "here is the traceback" (Py.lower line));
    [discriminate|].
  injection Hx as <-. lia.
Qed.

(** [_minify_by_shortening_file_names] never makes an error longer. *)
Lemma shortening_file_names_not_longer (error_string : string) (levels : Z) :
  (String.length (_minify_by_shortening_file_names error_string levels)
   <= String.length error_string)%nat.
Proof.
  unfold _minify_by_shortening_file_names.
  apply rewritten_lines_not_longer. apply shorten_line_not_longer.
Qed.

Lemma weight_map_shrinks (f : string -> string) (errors : list string) :
  (forall e, (String.length (f e) <= String.length e)%nat) ->
  (weight (map f errors) <= weight errors)%nat.
Proof.
  intros Hf. induction errors as [|e rest IH]; simpl; [lia|].
  specialize (Hf e). lia.
Qed.

Lemma join_map_not_longer (f : string -> string) (errors : list string) :
  (forall e, (String.length (f e) <= String.length e)%nat) ->
  (Py.len (Py.join Py.NL (map f errors)) <= Py.len (Py.join Py.NL errors))%Z.
Proof.
  intros Hf. unfold Py.len, Py.NL. rewrite !length_join_weight.
  pose proof (weight_map_shrinks f errors Hf). lia.
Qed.

(** Attempts 2 and 3 are never longer than the attempt before them. *)
Lemma file_name_strategies_not_longer (errors : list string) :
  (Py.len (Py.join Py.NL (strategy2 errors))
   <= Py.len (Py.join Py.NL errors))%Z
  /\ (Py.len (Py.join Py.NL (strategy3 errors))
       <= Py.len (Py.join Py.NL (strategy2 errors)))%Z.
Proof.
  split; apply join_map_not_longer; intros e;
    apply shortening_file_names_not_longer.
Qed.

End Lengths.

(* ================================================================== *)
(** * The length of the issue URL *)
(* ================================================================== *)

Section UrlLength.
Context `{Azlogging} `{OS} `{Platform}.

Lemma bind_return_inv {A B} (m : M A) (k : A -> M B) (st st' : store) (b : B) :
  bind m k st = (Return b, st') ->
  exists a st1, m st = (Return a, st1) /\ k a st1 = (Return b, st').
Proof.
  unfold bind. destruct (m st) as [[a|e|] st1]; intros Hk; try discriminate.
  now exists a, st1.
Qed.

(** The retry loop counts its turns in [tries] and stops at 25; on exit
    the URL fits or the 25 turns are used up. *)
Lemma retry_while_bound (step : Z -> M (string * string)) :
  forall (fuel : nat) (s : retry_state) (st : store)
         (s' : retry_state) (st' : store),
    retry_while fuel step s st = (Return s', st') ->
    (tries s <= 25)%Z ->
    (tries s <= tries s' <= 25)%Z
    /\ ((_MAX_URL_LENGTH < Py.len (formatted_issues_url s'))%Z ->
        tries s' = 25%Z).
Proof.
  induction fuel as [|fuel IH]; intros s st s' st' Hrun Hle; simpl in Hrun;
    destruct (_MAX_URL_LENGTH <? Py.len (formatted_issues_url s))%Z eqn:Hlong;
    destruct (tries s <? 25)%Z eqn:Htries; simpl in Hrun;
    try discriminate;
    try (injection Hrun as <- <-; split; [lia|];
         intros Hlong'; apply Z.ltb_ge in Htries || apply Z.ltb_ge in Hlong;
         lia).
  apply bind_return_inv in Hrun as ([url body] & st1 & _ & Hrest).
  apply IH in Hrest; simpl in *; [|apply Z.ltb_lt in Htries; lia].
  lia.
Qed.

(** The loop does not run out of fuel by itself: with 25 units, fuel can
    only be missing inside a re-minification. *)
Lemma retry_while_fuel (step : Z -> M (string * string)) :
  forall (fuel : nat) (s : retry_state) (st : store),
    (25 - tries s <= Z.of_nat fuel)%Z ->
    fst (retry_while fuel step s st) = OutOfFuel ->
    exists c st1, fst (step c st1) = OutOfFuel.
Proof.
  induction fuel as [|fuel IH]; intros s st Hfuel Hrun; simpl in Hrun;
    destruct (_MAX_URL_LENGTH <? Py.len (formatted_issues_url s))%Z;
    destruct (tries s <? 25)%Z eqn:Htries; simpl in Hrun;
    try discriminate.
  - apply Z.ltb_lt in Htries. lia.
  - unfold bind in Hrun.
    destruct (step (capacity s) st) as [[[url body]|e|] st1] eqn:Hstep;
      simpl in Hrun; try discriminate.
    + apply IH in Hrun; [exact Hrun | simpl; lia].
    + exists (capacity s), st. now rewrite Hstep.
Qed.

(** The last resort never raises; it cuts a long URL to its first 2035
    characters and logs one warning, and leaves a short one alone. *)
Lemma truncate_and_warn_spec (url : string) (st : store) :
  exists url' st',
    truncate_and_warn url st = (Return url', st')
    /\ (Py.len url' <= _MAX_URL_LENGTH)%Z
    /\ ((Py.len url <= _MAX_URL_LENGTH)%Z -> url' = url /\ st' = st)
    /\ ((_MAX_URL_LENGTH < Py.len url)%Z ->
        url' = Py.take (Z.to_nat _MAX_URL_LENGTH) url
        /\ exists msg, log st' = log st ++ [(WARNING, msg)]).
Proof.
  unfold truncate_and_warn.
  destruct (_MAX_URL_LENGTH <? Py.len url)%Z eqn:Hlong.
  - apply Z.ltb_lt in Hlong. eexists _, _. split; [reflexivity|].
    split; [|split].
    + unfold Py.len. pose proof (length_take (Z.to_nat _MAX_URL_LENGTH) url).
      unfold _MAX_URL_LENGTH in *. lia.
    + lia.
    + intros _. split; [reflexivity|]. eexists. reflexivity.
  - apply Z.ltb_ge in Hlong. exists url, st. split; [reflexivity|].
    split; [exact Hlong|]. split; [now split | lia].
Qed.

(** When [_build_issue_info_tup] returns, the URL has at most 2035
    characters: the URL of the last minification, or its first 2035
    characters. *)
Lemma returned_issue_url_fits (fuel : nat)
    (command_log_file : option loc) (st st' : store)
    (prefix url original_issue_body : string) (is_ext : bool) :
  _build_issue_info_tup fuel command_log_file st
  = (Return (prefix, url, original_issue_body, is_ext), st') ->
  (Py.len url <= _MAX_URL_LENGTH)%Z.
Proof.
  unfold _build_issue_info_tup. intros Hrun.
  apply bind_return_inv in Hrun as ([[format_dict is_ext0] ext_name] & st1 & _ & Hrun).
  apply bind_return_inv in Hrun as (pretty_url_name & st2 & _ & Hrun).
  apply bind_return_inv in Hrun as (original & st3 & _ & Hrun).
  apply bind_return_inv in Hrun as ([url0 body0] & st4 & _ & Hrun).
  apply bind_return_inv in Hrun as (final & st5 & _ & Hrun).
  apply bind_return_inv in Hrun as (url1 & st6 & Htrunc & Hrun).
  apply bind_return_inv in Hrun as ([] & st7 & _ & Hrun).
  apply bind_return_inv in Hrun as ([] & st8 & _ & Hrun).
  unfold ret in Hrun. injection Hrun as <- <- <- <- <-.
  destruct (truncate_and_warn_spec (formatted_issues_url final) st5)
    as (u & s6 & Heq & Hlen & _).
  rewrite Heq in Htrunc. now injection Htrunc as -> ->.
Qed.

End UrlLength.

(* ================================================================== *)
(** * The theorems at concrete inputs *)
(* ================================================================== *)

Section Instances.
Import ErrorMinifier ErrorMinifierObj.

(** C4 on [Scenario.small_log]. *)
Lemma log_record_list_regroups_witness :
  exists (skipped : list string) (groups : list (string * list string)),
    Scenario.small_log = skipped ++ group_lines groups
    /\ Forall (@not_a_record Scenario.azlogging 12) skipped
    /\ Forall2 (@group_makes Scenario.azlogging 12) groups
         Scenario.small_log_records.
Proof.
  apply (@log_record_list_regroups Scenario.azlogging Scenario.small_log 12
           Scenario.small_log_records).
  vm_compute. reflexivity.
Defined.


(** After a first call with capacity 120 the caller's list holds the
    shortened traceback, and a second call with room for the original
    returns the shortened text. *)
Lemma second_call_sees_shortened_errors :
  let shortened := _minify_by_shortening_file_names Scenario.traceback_error 5 in
  let run :=
    (refs <- Scenario.minify_fresh 10 [Scenario.traceback_error] 120 ;;
     set_capacity 10 (snd refs) 1000 ;;;
     o <- read_minifier (snd refs) ;;
     l <- read_list (fst refs) ;;
     ret (_minified_error o, l))%M empty_store in
  fst run = Return (shortened, [shortened])
  /\ shortened <> Scenario.traceback_error
  /\ (Py.len Scenario.traceback_error <= 1000)%Z.
Proof.
  vm_compute. split; [reflexivity | split; discriminate].
Qed.

(** On a platform whose version text is too long for any URL the 25
    retries change nothing and the URL is cut: it has exactly 2035
    characters and the log has the warning. *)
Lemma build_issue_truncates_long_url :
  let run := @_build_issue_info_tup Scenario.azlogging Scenario.os_long_error
               Scenario.platform_long_version 25 None empty_store in
  match fst run with
  | Return (_, url, _, _) => Py.len url = 2035%Z
  | _ => False
  end
  /\ length (List.filter
               (fun entry => match fst entry with WARNING => true | _ => false end)
               (log (snd run))) = 1%nat.
Proof. vm_compute. split; reflexivity. Qed.

(** A command that failed with one line of 2000 characters: no strategy
    can shorten a single line, and building the issue raises
    [IndexError] from the last resort of the minifier. *)
Lemma build_issue_raises_index_error (fuel : nat) :
  fst (@Scenario.issue_for_first_log Scenario.azlogging Scenario.os_long_error
         Scenario.platform (S fuel) empty_store)
  = Raise IndexError.
Proof. vm_compute. reflexivity. Qed.

(** C6.  The same command: the errors cannot be made to fit, the last
    resort of the minifier raises [IndexError] inside the first
    minification, and [_build_issue_info_tup] passes it on.  No URL is
    returned, cut or not, and no warning is logged. *)
Theorem build_issue_raises_instead_of_truncating (fuel : nat) :
  let run := @Scenario.issue_for_first_log Scenario.azlogging
               Scenario.os_long_error Scenario.platform (S fuel) empty_store in
  fst run = Raise IndexError
  /\ Forall (fun entry => fst entry <> WARNING) (log (snd run)).
Proof.
  vm_compute. split; [reflexivity|].
  repeat (constructor; [discriminate|]). constructor.
Qed.

(** [set_capacity_text_not_longer] on the traceback and capacity 120. *)
Lemma set_capacity_text_not_longer_witness :
  let st := Scenario.with_minifier [Scenario.traceback_error] in
  exists s,
    option_map _minified_error
      (minifiers (snd (set_capacity 10 0%nat 120 st)) !! 0%nat) = Some s
    /\ (Py.len s <= Py.len (Py.join Py.NL [Scenario.traceback_error]))%Z.
Proof.
  apply (set_capacity_text_not_longer 10 0%nat
           (Scenario.with_minifier [Scenario.traceback_error])
           (mk 0%nat None (Py.join Py.NL [Scenario.traceback_error]))
           [Scenario.traceback_error] 120);
    vm_compute; reflexivity.
Defined.

(** [set_capacity_negative_capacity] on the single error [ab]. *)
Lemma set_capacity_negative_capacity_witness :
  fst (set_capacity 10 0%nat (-1) (Scenario.with_minifier ["ab"])) <> Return tt.
Proof.
  apply (set_capacity_negative_capacity 10 0%nat (Scenario.with_minifier ["ab"])
           (mk 0%nat None (Py.join Py.NL ["ab"])) ["ab"] (-1));
    first [ discriminate | vm_compute; reflexivity ].
Defined.

(** [shorten_file_name_segments] on the path of the traceback. *)
Lemma shorten_file_name_segments_witness :
  (separators
     (_shorten_file_name
        "/usr/lib/python3/site-packages/azure/cli/core/commands/__init__.py" 5)
   <= Z.to_nat (5 - 1))%nat.
Proof.
  apply (shorten_file_name_segments
           "/usr/lib/python3/site-packages/azure/cli/core/commands/__init__.py" 5).
  reflexivity.
Defined.

(** [log_record_list_of_groups] on [Scenario.small_log], cut into its
    skipped line and its two groups. *)
Lemma log_record_list_of_groups_witness :
  @CommandLogFile._get_log_record_list Scenario.azlogging
    (firstn 1 Scenario.small_log
     ++ group_lines
          [(nth 1 Scenario.small_log EmptyString,
            firstn 2 (skipn 2 Scenario.small_log));
           (nth 4 Scenario.small_log EmptyString, [])]) 12
  = Return Scenario.small_log_records.
Proof.
  apply (@log_record_list_of_groups Scenario.azlogging 12).
  - repeat constructor.
  - constructor; [|constructor; [|constructor]].
    + eexists. split; [vm_compute; reflexivity|].
      split; [repeat constructor | vm_compute; reflexivity].
    + eexists. split; [vm_compute; reflexivity|].
      split; [constructor | vm_compute; reflexivity].
Defined.

(** [metadata_raises_on_bad_pid] on the name of [Scenario.os_bad_pid]. *)
Lemma metadata_raises_on_bad_pid_witness :
  @CommandLogFile._get_command_metadata_from_file Scenario.azlogging
    "/logs/2019-01-01.12-00-00.vm_create.abc.log" Scenario.midnight empty_store
  = (Raise ValueError, empty_store).
Proof.
  apply (@metadata_raises_on_bad_pid Scenario.azlogging
           "/logs/2019-01-01.12-00-00.vm_create.abc.log" Scenario.midnight
           empty_store "2019-01-01" "12-00-00" "vm_create" "abc" "log"
           (Datetime.mk 2019 1 1 12 0 0 0));
    first [ discriminate | reflexivity ].
Defined.

End Instances.

Section CommandDataFacts.
Import CommandLogFile CommandLogFileObj.

Lemma add_log_nil (st : store) : add_log st [] = st.
Proof. destruct st. unfold add_log. simpl. now rewrite app_nil_r. Qed.

Lemma add_log_app (st : store) (a b : list (log_level * string)) :
  add_log (add_log st a) b = add_log st (a ++ b).
Proof. unfold add_log. simpl. now rewrite app_assoc. Qed.

(** Step 1 changes [success] only, and the store only by debug notes. *)
Lemma data_exit_code_spec (file_name : string) (rs : list LogRecord.t)
    (d : CommandData.t) (st : store) :
  exists notes,
    data_exit_code file_name rs d st
    = (Return (CommandData.mk
                 (match exit_code_success rs with
                  | Some b => Some b
                  | None => CommandData.success d
                  end)
                 (CommandData.errors d) (CommandData.extension_name d)
                 (CommandData.extension_version d) (CommandData.command_args d)),
       add_log st notes)
    /\ Forall (fun entry => fst entry = DEBUG) notes.
Proof.
  assert (Hd : d = CommandData.mk (CommandData.success d) (CommandData.errors d)
                     (CommandData.extension_name d)
                     (CommandData.extension_version d)
                     (CommandData.command_args d)) by now destruct d.
  assert (Hin1 : bool_decide (IndexError ∈ [IndexError; ValueError]) = true)
    by reflexivity.
  assert (Hin2 : bool_decide (ValueError ∈ [IndexError; ValueError]) = true)
    by reflexivity.
  unfold data_exit_code, exit_code_success, try_except, bind, lift, or_raise.
  destruct (last rs) as [r|]; cbv beta iota zeta.
  - destruct (Py.startswith (Py.strip (LogRecord.log_msg r)) "exit code").
    + destruct (Py.index ":" (Py.strip (LogRecord.log_msg r))) as [idx|];
        cbv beta iota zeta.
      * destruct (Py.int _) as [code|]; cbv beta iota zeta.
        -- exists []. rewrite add_log_nil. split; [reflexivity | constructor].
        -- rewrite Hin2. eexists [_]. rewrite <- Hd. split; [reflexivity|].
           repeat constructor.
      * rewrite Hin2. eexists [_]. rewrite <- Hd. split; [reflexivity|].
        repeat constructor.
    + exists []. rewrite add_log_nil, <- Hd. split; [reflexivity | constructor].
  - rewrite Hin1. eexists [_]. rewrite <- Hd. split; [reflexivity|].
    repeat constructor.
Qed.

(** Step 4 changes [command_args] only, and the store only by a debug
    note. *)
Lemma data_command_args_spec (file_name : string) (rs : list LogRecord.t)
    (d : CommandData.t) (st : store) :
  exists notes,
    data_command_args file_name rs d st
    = (Return (CommandData.mk (CommandData.success d) (CommandData.errors d)
                 (CommandData.extension_name d)
                 (CommandData.extension_version d)
                 (match command_args_of rs with
                  | Some a => Some a
                  | None => CommandData.command_args d
                  end)),
       add_log st notes)
    /\ Forall (fun entry => fst entry = DEBUG) notes.
Proof.
  assert (Hd : d = CommandData.mk (CommandData.success d) (CommandData.errors d)
                     (CommandData.extension_name d)
                     (CommandData.extension_version d)
                     (CommandData.command_args d)) by now destruct d.
  assert (Hin1 : bool_decide (IndexError ∈ [IndexError; ValueError]) = true)
    by reflexivity.
  assert (Hin2 : bool_decide (ValueError ∈ [IndexError; ValueError]) = true)
    by reflexivity.
  unfold data_command_args, command_args_of, try_except, bind, lift, or_raise,
    raise.
  destruct (head rs) as [r|]; cbv beta iota zeta.
  - destruct (Py.startswith (Py.lower (Py.strip (LogRecord.log_msg r)))
                "command args:").
    + destruct (Py.index ":" (Py.strip (LogRecord.log_msg r))) as [idx|];
        cbv beta iota zeta.
      * exists []. rewrite add_log_nil. split; [reflexivity | constructor].
      * rewrite Hin2. eexists [_]. rewrite <- Hd. split; [reflexivity|].
        repeat constructor.
    + rewrite Hin2. eexists [_]. rewrite <- Hd. split; [reflexivity|].
      repeat constructor.
  - rewrite Hin1. eexists [_]. rewrite <- Hd. split; [reflexivity|].
    repeat constructor.
Qed.

Lemma error_messages_cons (r : LogRecord.t) (rs : list LogRecord.t) :
  error_messages (r :: rs)
  = if is_error_record r then LogRecord.log_msg r :: error_messages rs
    else error_messages rs.
Proof. unfold error_messages. simpl. now destruct (is_error_record r). Qed.

(** The loop over the records once the list under [errors] exists. *)
Lemma data_records_known (errors : loc) :
  forall (rs : list LogRecord.t) (d : CommandData.t) (l : list string)
         (st : store),
    CommandData.errors d = Some errors ->
    lists st !! errors = Some l ->
    data_records rs d st
    = (Return (fold_left (record_step errors) rs d),
       set_list errors (l ++ error_messages rs) st).
Proof.
  induction rs as [|record rest IH]; intros d l st Hd Hl.
  - simpl. unfold ret. rewrite app_nil_r.
    now rewrite (set_list_same errors l st Hl).
  - cbn [data_records fold_left]. rewrite Hd. unfold bind at 1. unfold ret at 1.
    rewrite error_messages_cons. unfold bind at 1.
    change (String.eqb (Py.lower (LogRecord.level record)) "error")
      with (is_error_record record).
    destruct (is_error_record record) eqn:Herr.
    + unfold bind at 1. unfold list_append at 1. rewrite Hl. unfold ret at 1.
      erewrite IH; [| | apply lookup_insert_eq].
      * f_equal.
        -- f_equal. f_equal. unfold record_step. rewrite Herr. reflexivity.
        -- change (mkStore (<[errors := l ++ [LogRecord.log_msg record]]> (lists st))
                     (minifiers st) (logfiles st) (log st))
             with (set_list errors (l ++ [LogRecord.log_msg record]) st).
           rewrite set_list_twice, <- app_assoc. reflexivity.
      * destruct (String.eqb (Py.lower (LogRecord.level record)) "info");
          [|reflexivity].
        destruct (Py.startswith _ _EXT_NAME_PREFIX); [reflexivity|].
        destruct (Py.startswith _ _EXT_VERS_PREFIX); reflexivity.
    + unfold ret at 1.
      erewrite IH; [| | exact Hl].
      * f_equal. f_equal. f_equal. unfold record_step. rewrite Herr. reflexivity.
      * destruct (String.eqb (Py.lower (LogRecord.level record)) "info");
          [|reflexivity].
        destruct (Py.startswith _ _EXT_NAME_PREFIX); [reflexivity|].
        destruct (Py.startswith _ _EXT_VERS_PREFIX); reflexivity.
Qed.

Lemma record_step_fields (errors : loc) (d : CommandData.t) (r : LogRecord.t) :
  CommandData.success (record_step errors d r)
  = (if is_error_record r then Some false else CommandData.success d)
  /\ CommandData.errors (record_step errors d r) = Some errors
  /\ (CommandData.extension_name (record_step errors d r),
      CommandData.extension_version (record_step errors d r))
     = extension_step (CommandData.extension_name d,
                       CommandData.extension_version d) r
  /\ CommandData.command_args (record_step errors d r)
     = CommandData.command_args d.
Proof.
  unfold record_step, extension_step.
  destruct (is_error_record r);
    destruct (String.eqb (Py.lower (LogRecord.level r)) "info");
    try (destruct (Py.startswith _ _EXT_NAME_PREFIX));
    try (destruct (Py.startswith _ _EXT_VERS_PREFIX));
    repeat split; reflexivity.
Qed.

Lemma fold_record_step_fields (errors : loc) :
  forall (rs : list LogRecord.t) (d : CommandData.t),
    CommandData.errors d = Some errors ->
    fold_left (record_step errors) rs d
    = CommandData.mk
        (if existsb is_error_record rs then Some false
         else CommandData.success d)
        (Some errors)
        (fst (fold_left extension_step rs
                (CommandData.extension_name d, CommandData.extension_version d)))
        (snd (fold_left extension_step rs
                (CommandData.extension_name d, CommandData.extension_version d)))
        (CommandData.command_args d).
Proof.
  induction rs as [|r rest IH]; intros d Hd.
  - simpl. destruct d; simpl in *. now subst.
  - cbn [fold_left existsb].
    destruct (record_step_fields errors d r) as (Hs & He & Hx & Ha).
    rewrite (IH _ He), Hs, Ha, Hx.
    destruct (is_error_record r); simpl; [|reflexivity].
    now destruct (existsb is_error_record rest).
Qed.

(** The first turn of the loop makes the list: from there on the loop
    runs as if the dictionary had had the key. *)
Lemma data_records_first (record : LogRecord.t) (rest : list LogRecord.t)
    (d : CommandData.t) (st : store) :
  CommandData.errors d = None ->
  data_records (record :: rest) d st
  = data_records (record :: rest)
      (CommandData.mk (CommandData.success d)
         (Some (fresh (dom (lists st))))
         (CommandData.extension_name d) (CommandData.extension_version d)
         (CommandData.command_args d))
      (set_list (fresh (dom (lists st))) [] st).
Proof.
  intros Hd. cbn [data_records]. rewrite Hd. reflexivity.
Qed.

Lemma set_list_add_log (r : loc) (l : list string) (st : store)
    (notes : list (log_level * string)) :
  set_list r l (add_log st notes) = add_log (set_list r l st) notes.
Proof. reflexivity. Qed.

End CommandDataFacts.

Section CommandDataTheorems.
Context `{Azlogging} `{OS}.
Import CommandLogFile CommandLogFileObj.

(** The dictionary of a log file with records. *)
Theorem command_data_from_records (self : loc) (o : CommandLogFileObj.t)
    (md : LogMetadata.t) (log_fp : list string) (rs : list LogRecord.t)
    (st : store) :
  logfiles st !! self = Some o ->
  _metadata o = Some md ->
  open_lines (LogMetadata.file_path md) = Some log_fp ->
  _get_log_record_list log_fp (LogMetadata.p_id md) = Return rs ->
  rs <> [] ->
  exists notes,
    _get_command_data_from_metadata self st
    = (Return (CommandData.mk (success_of rs)
                 (Some (fresh (dom (lists st))))
                 (fst (extension_of rs)) (snd (extension_of rs))
                 (command_args_of rs)),
       add_log (set_list (fresh (dom (lists st))) (error_messages rs) st) notes)
    /\ Forall (fun entry => fst entry = DEBUG) notes.
Proof.
  intros Hself Hmd Hopen Hrs Hne.
  unfold _get_command_data_from_metadata, metadata_tup.
  unfold bind at 1. unfold bind at 1. unfold read_logfile. rewrite Hself.
  unfold ret at 1. rewrite Hmd. cbv zeta. rewrite Hopen.
  unfold bind at 1. unfold lift. rewrite Hrs.
  destruct rs as [|record rest] eqn:Ers; [congruence|]. rewrite <- Ers.
  destruct (data_exit_code_spec (LogMetadata.file_path md) rs CommandData.empty st)
    as (notes1 & H1 & Hn1).
  unfold bind at 1. rewrite H1.
  unfold bind at 1.
  assert (Hrec :
    data_records rs
      (CommandData.mk
         (match exit_code_success rs with
          | Some b => Some b
          | None => CommandData.success CommandData.empty
          end) (CommandData.errors CommandData.empty)
         (CommandData.extension_name CommandData.empty)
         (CommandData.extension_version CommandData.empty)
         (CommandData.command_args CommandData.empty))
      (add_log st notes1)
    = (Return (CommandData.mk (success_of rs) (Some (fresh (dom (lists st))))
                 (fst (extension_of rs)) (snd (extension_of rs)) None),
       add_log (set_list (fresh (dom (lists st))) (error_messages rs) st)
         notes1)).
  { rewrite Ers at 1. rewrite data_records_first by reflexivity. rewrite <- Ers.
    change (lists (add_log st notes1)) with (lists st).
    erewrite data_records_known;
      [ | reflexivity | apply lookup_insert_eq ].
    rewrite fold_record_step_fields by reflexivity.
    f_equal.
    - f_equal. unfold success_of, extension_of. cbn [CommandData.success
        CommandData.extension_name CommandData.extension_version
        CommandData.command_args CommandData.empty].
      destruct (existsb is_error_record rs); [reflexivity|].
      now destruct (exit_code_success rs).
    - rewrite set_list_twice. reflexivity. }
  rewrite Hrec.
  destruct (data_command_args_spec (LogMetadata.file_path md) rs
              (CommandData.mk (success_of rs) (Some (fresh (dom (lists st))))
                 (fst (extension_of rs)) (snd (extension_of rs)) None)
              (add_log (set_list (fresh (dom (lists st))) (error_messages rs) st)
                 notes1))
    as (notes2 & H2 & Hn2).
  rewrite H2. exists (notes1 ++ notes2). split.
  - rewrite add_log_app. f_equal. f_equal.
    cbn [CommandData.success CommandData.errors CommandData.extension_name
         CommandData.extension_version CommandData.command_args].
    now destruct (command_args_of rs).
  - now apply Forall_app.
Qed.

End CommandDataTheorems.

Section CommandDataCache.
Context `{Azlogging} `{OS}.
Import CommandLogFile CommandLogFileObj.

(** The object with [_data] replaced. *)
Lemma command_data_dict_inv (self : loc) (st st' : store) (d : CommandData.t) :
  command_data_dict self st = (Return d, st') ->
  exists o,
    logfiles st !! self = Some o
    /\ ((_data o = Some d /\ CommandData.truthy d = true /\ st' = st)
        \/ (match _data o with
            | Some d0 => CommandData.truthy d0 = false
            | None => True
            end
            /\ exists st1,
                _get_command_data_from_metadata self st = (Return d, st1)
                /\ st' = mkStore (lists st1) (minifiers st1)
                           (<[self := mk (_command_name o) (_log_file_path o)
                                        (_time_now o) (_metadata o) (Some d)]>
                              (logfiles st1))
                           (log st1))).
Proof.
  unfold command_data_dict. intros Hrun.
  apply bind_return_inv in Hrun as (o & st0 & Hread & Hrun).
  unfold read_logfile in Hread.
  destruct (logfiles st !! self) as [o'|] eqn:Hself; [|discriminate].
  injection Hread as Ho Hst. subst o' st0. exists o. split; [reflexivity|].
  assert (Hcompute :
    (d0 <- _get_command_data_from_metadata self ;;
     write_logfile self
       (mk (_command_name o) (_log_file_path o) (_time_now o) (_metadata o)
          (Some d0)) ;;;
     ret d0) st = (Return d, st') ->
    exists st1,
      _get_command_data_from_metadata self st = (Return d, st1)
      /\ st' = mkStore (lists st1) (minifiers st1)
                 (<[self := mk (_command_name o) (_log_file_path o)
                              (_time_now o) (_metadata o) (Some d)]>
                    (logfiles st1))
                 (log st1)).
  { intros Hc. apply bind_return_inv in Hc as (d0 & st1 & Hget & Hc).
    unfold bind, write_logfile, ret in Hc. injection Hc as Hd Hst'.
    subst d0 st'. now exists st1. }
  destruct (_data o) as [d0|] eqn:Hdata.
  - destruct (CommandData.truthy d0) eqn:Htruthy.
    + unfold ret in Hrun. injection Hrun as Hd Hst'. subst d0 st'. left.
      now repeat split.
    + right. split; [reflexivity|]. now apply Hcompute.
  - right. split; [exact I|]. now apply Hcompute.
Qed.

(** After an access, the object holds the dictionary. *)
Lemma command_data_dict_stored (self : loc) (st st' : store)
    (d : CommandData.t) :
  command_data_dict self st = (Return d, st') ->
  exists o', logfiles st' !! self = Some o' /\ _data o' = Some d.
Proof.
  intros Hrun.
  destruct (command_data_dict_inv self st st' d Hrun)
    as (o & Hself & [(Hdata & _ & ->) | (_ & st1 & _ & ->)]).
  - now exists o.
  - eexists. split; [apply lookup_insert_eq | reflexivity].
Qed.

(** A dictionary with a key is computed once. *)
Theorem command_data_dict_cached (self : loc) (st st' : store)
    (d : CommandData.t) :
  command_data_dict self st = (Return d, st') ->
  CommandData.truthy d = true ->
  command_data_dict self st' = (Return d, st').
Proof.
  intros Hrun Htruthy.
  destruct (command_data_dict_stored self st st' d Hrun) as (o' & Hself & Hdata).
  unfold command_data_dict, bind, read_logfile. rewrite Hself, Hdata, Htruthy.
  reflexivity.
Qed.

(** The second access of [failed] and [get_command_status] finds the
    dictionary the first one stored. *)
Lemma second_access_cached {A} (self : loc) (k0 : M A)
    (k : CommandData.t -> M A) (st : store) :
  (d <- command_data_dict self ;;
   if negb (CommandData.truthy d) then k0
   else d <- command_data_dict self ;; k d) st
  = (d <- command_data_dict self ;;
     if negb (CommandData.truthy d) then k0 else k d) st.
Proof.
  unfold bind at 1 3.
  destruct (command_data_dict self st) as [[d| |] st1] eqn:Hrun; try reflexivity.
  destruct (CommandData.truthy d) eqn:Htruthy; [|reflexivity]. simpl.
  destruct (command_data_dict_stored self st st1 d Hrun) as (o' & Hself & Hdata).
  unfold bind, command_data_dict at 1, bind, read_logfile.
  rewrite Hself, Hdata, Htruthy. reflexivity.
Qed.

(** [failed] says what [get_command_status] says. *)
Theorem failed_iff_status_failure (self : loc) (st : store) :
  failed self st
  = (status <- get_command_status self ;;
     ret (String.eqb status "FAILURE")) st.
Proof.
  transitivity
    ((d <- command_data_dict self ;;
      if negb (CommandData.truthy d) then ret false
      else ret (negb (default true (CommandData.success d)))) st).
  { apply (second_access_cached self (ret false)
             (fun d => ret (negb (default true (CommandData.success d))))). }
  unfold bind at 2.
  replace (get_command_status self st)
    with ((d <- command_data_dict self ;;
           if negb (CommandData.truthy d) then ret EmptyString
           else match CommandData.success d with
                | None => ret "RUNNING"
                | Some was_successful =>
                    ret (if was_successful then "SUCCESS" else "FAILURE")
                end) st).
  2:{ symmetry.
      apply (second_access_cached self (ret EmptyString)
               (fun d => match CommandData.success d with
                         | None => ret "RUNNING"
                         | Some was_successful =>
                             ret (if was_successful then "SUCCESS" else "FAILURE")
                         end)). }
  unfold bind.
  destruct (command_data_dict self st) as [[d| |] st1]; try reflexivity.
  destruct (CommandData.truthy d); [|reflexivity]. simpl.
  destruct (CommandData.success d) as [[|]|]; reflexivity.
Qed.

(** The dictionary of a log file with records, on first access. *)
Theorem command_data_dict_of_records (self : loc) (o : CommandLogFileObj.t)
    (md : LogMetadata.t) (log_fp : list string) (rs : list LogRecord.t)
    (st : store) :
  logfiles st !! self = Some o ->
  _metadata o = Some md ->
  _data o = None ->
  open_lines (LogMetadata.file_path md) = Some log_fp ->
  _get_log_record_list log_fp (LogMetadata.p_id md) = Return rs ->
  rs <> [] ->
  let errors := fresh (dom (lists st)) in
  let d := CommandData.mk (success_of rs) (Some errors)
             (fst (extension_of rs)) (snd (extension_of rs))
             (command_args_of rs) in
  exists notes,
    command_data_dict self st
    = (Return d,
       mkStore (<[errors := error_messages rs]> (lists st)) (minifiers st)
         (<[self := mk (_command_name o) (_log_file_path o) (_time_now o)
                      (_metadata o) (Some d)]> (logfiles st))
         (log st ++ notes))
    /\ Forall (fun entry => fst entry = DEBUG) notes.
Proof.
  intros Hself Hmd Hdata Hopen Hrs Hne errors d.
  destruct (command_data_from_records self o md log_fp rs st
              Hself Hmd Hopen Hrs Hne) as (notes & Hget & Hnotes).
  exists notes. split; [|exact Hnotes].
  unfold command_data_dict, bind at 1, read_logfile. rewrite Hself, Hdata.
  unfold bind at 1. rewrite Hget. reflexivity.
Qed.

(** A command failed when its log has an error record or a last
    record with an exit code that is not 0. *)
Theorem failed_of_records (self : loc) (o : CommandLogFileObj.t)
    (md : LogMetadata.t) (log_fp : list string) (rs : list LogRecord.t)
    (st : store) :
  logfiles st !! self = Some o ->
  _metadata o = Some md ->
  _data o = None ->
  open_lines (LogMetadata.file_path md) = Some log_fp ->
  _get_log_record_list log_fp (LogMetadata.p_id md) = Return rs ->
  rs <> [] ->
  fst (failed self st)
  = Return (existsb is_error_record rs
            || bool_decide (exit_code_success rs = Some false)).
Proof.
  intros Hself Hmd Hdata Hopen Hrs Hne.
  destruct (command_data_from_records self o md log_fp rs st
              Hself Hmd Hopen Hrs Hne) as (notes & Hget & _).
  unfold failed.
  rewrite (second_access_cached self (ret false)
             (fun d => ret (negb (default true (CommandData.success d))))).
  unfold bind at 1, command_data_dict, bind at 1, read_logfile.
  rewrite Hself, Hdata. unfold bind at 1. rewrite Hget.
  unfold bind, write_logfile, ret. cbn [fst].
  unfold CommandData.truthy. cbn [CommandData.errors CommandData.success].
  replace (bool_decide (is_Some (Some (fresh (dom (lists st)))))) with true
    by (symmetry; apply bool_decide_eq_true; eauto).
  rewrite orb_true_r. cbn [orb negb fst]. f_equal. unfold success_of.
  destruct (existsb is_error_record rs); [reflexivity|].
  destruct (exit_code_success rs) as [[|]|]; reflexivity.
Qed.

End CommandDataCache.

Lemma command_data_dict_cached_witness :
  exists d st',
    @CommandLogFile.command_data_dict Scenario.azlogging Scenario.os_small_log 0%nat
      (@Scenario.with_logfile Scenario.azlogging Scenario.os_small_log
         Scenario.small_log_path)
    = (Return d, st')
    /\ @CommandLogFile.command_data_dict Scenario.azlogging
         Scenario.os_small_log 0%nat st'
       = (Return d, st').
Proof.
  eexists _, _.
  refine ((fun E => conj E
             (@command_data_dict_cached Scenario.azlogging
                Scenario.os_small_log 0%nat _ _ _ E _)) _).
  2: { vm_compute. reflexivity. }
  reflexivity.
Defined.

Lemma command_data_dict_of_records_witness :
  exists (notes : list (log_level * string)) st',
    @CommandLogFile.command_data_dict Scenario.azlogging Scenario.os_small_log 0%nat
      (@Scenario.with_logfile Scenario.azlogging Scenario.os_small_log
         Scenario.small_log_path)
    = (Return (CommandData.mk (Some false) (Some 0%nat) None None None), st')
    /\ lists st' !! 0%nat
       = Some (map LogRecord.log_msg (firstn 1 Scenario.small_log_records))
    /\ Forall (fun entry => fst entry = DEBUG) notes.
Proof.
  destruct (@command_data_dict_of_records Scenario.azlogging
              Scenario.os_small_log 0%nat
              (CommandLogFileObj.mk None Scenario.small_log_path
                 Scenario.midnight
                 (Some (LogMetadata.mk "az vm create"
                          (Datetime.total_seconds Scenario.midnight
                             (Datetime.mk 2019 1 1 12 0 0 0))
                          Scenario.small_log_path 12))
                 None)
              (LogMetadata.mk "az vm create"
                 (Datetime.total_seconds Scenario.midnight
                    (Datetime.mk 2019 1 1 12 0 0 0))
                 Scenario.small_log_path 12)
              Scenario.small_log Scenario.small_log_records
              (@Scenario.with_logfile Scenario.azlogging Scenario.os_small_log
                 Scenario.small_log_path))
    as (notes & Hrun & Hnotes);
    try first [ discriminate | vm_compute; reflexivity ].
  exists notes. eexists. split; [|split; [|exact Hnotes]].
  - rewrite Hrun. f_equal.
  - vm_compute. reflexivity.
Defined.

Lemma failed_of_records_witness :
  fst (@CommandLogFile.failed Scenario.azlogging Scenario.os_small_log 0%nat
         (@Scenario.with_logfile Scenario.azlogging Scenario.os_small_log
            Scenario.small_log_path))
  = Return true.
Proof.
  apply (@failed_of_records Scenario.azlogging Scenario.os_small_log 0%nat
           (CommandLogFileObj.mk None Scenario.small_log_path
              Scenario.midnight
              (Some (LogMetadata.mk "az vm create"
                       (Datetime.total_seconds Scenario.midnight
                          (Datetime.mk 2019 1 1 12 0 0 0))
                       Scenario.small_log_path 12))
              None)
           (LogMetadata.mk "az vm create"
              (Datetime.total_seconds Scenario.midnight
                 (Datetime.mk 2019 1 1 12 0 0 0))
              Scenario.small_log_path 12)
           Scenario.small_log Scenario.small_log_records);
    first [ discriminate | vm_compute; reflexivity ].
Defined.

Section CommandName.
Context `{Azlogging} `{OS}.
Import CommandLogFile CommandLogFileObj.

Lemma has_char_append (c : ascii) (a b : string) :
  has_char c (a +:+ b) = has_char c a || has_char c b.
Proof.
  induction a as [|x a IH]; [reflexivity|].
  rewrite append_cons. simpl. rewrite IH. now rewrite orb_assoc.
Qed.

(** Replacing a character by nothing removes it and brings no other. *)
Lemma has_char_replace (x c : ascii) (s : string) :
  has_char x (Py.replace s (String c EmptyString) EmptyString)
  = has_char x s && negb (Ascii.eqb c x).
Proof.
  unfold Py.replace. induction s as [|a s IH]; [reflexivity|].
  cbn [Py.replace_from Py.startswith String.length Nat.sub has_char].
  rewrite andb_true_r.
  destruct (Ascii.eqb c a) eqn:Hca.
  - rewrite append_empty_l, IH. apply Ascii.eqb_eq in Hca. subst a.
    destruct (Ascii.eqb c x); [now rewrite !andb_false_r | now rewrite !andb_true_r].
  - cbn [has_char]. rewrite IH.
    destruct (Ascii.eqb a x) eqn:Hax; [|reflexivity].
    apply Ascii.eqb_eq in Hax. subst a. rewrite Hca. reflexivity.
Qed.

Lemma set_command_name_inv (self : loc) (name : string) (st st' : store)
    (u : unit) :
  set_command_name self name st = (Return u, st') ->
  exists o', logfiles st' !! self = Some o' /\ _command_name o' = Some name.
Proof.
  unfold set_command_name. intros Hrun.
  apply bind_return_inv in Hrun as (o & st0 & _ & Hrun).
  unfold write_logfile in Hrun. injection Hrun as _ Hst. subst st'.
  eexists. split; [apply lookup_insert_eq | reflexivity].
Qed.

Lemma set_and_return_inv (self : loc) (name n : string) (st st' : store) :
  (set_command_name self name ;;; ret name) st = (Return n, st') ->
  n = name
  /\ exists o', logfiles st' !! self = Some o' /\ _command_name o' = Some name.
Proof.
  intros Hrun. apply bind_return_inv in Hrun as (u & st1 & Hset & Hret).
  unfold ret in Hret. injection Hret as Hn Hst. subst n st1.
  split; [reflexivity|]. now apply set_command_name_inv in Hset.
Qed.

Lemma cached_name_returned (self : loc) (o : CommandLogFileObj.t)
    (n : string) (st : store) :
  logfiles st !! self = Some o ->
  _command_name o = Some n ->
  get_command_name_str self st = (Return n, st).
Proof.
  intros Hself Hname. unfold get_command_name_str, bind, read_logfile.
  now rewrite Hself, Hname.
Qed.

(** What a call that computes the name returns and leaves behind. *)
Lemma get_command_name_str_inv (self : loc) (st st' : store) (n : string) :
  get_command_name_str self st = (Return n, st') ->
  exists o,
    logfiles st !! self = Some o
    /\ ((_command_name o = Some n /\ st' = st)
        \/ (_command_name o = None /\ _metadata o = None
            /\ n = EmptyString /\ st' = st)
        \/ (exists md d st1 args,
              _command_name o = None /\ _metadata o = Some md
              /\ command_data_dict self st = (Return d, st1)
              /\ args = default EmptyString (CommandData.command_args d)
              /\ (exists o', logfiles st' !! self = Some o'
                             /\ _command_name o' = Some n)
              /\ ((LogMetadata.cmd md <> UNKNOWN_CMD
                   /\ n = LogMetadata.cmd md
                          +:+ (if Py.contains "-h" args
                                  || Py.contains "--help" args
                               then " --help" else EmptyString))
                  \/ (LogMetadata.cmd md = UNKNOWN_CMD
                      /\ n = if negb (String.eqb args EmptyString) then
                               UNKNOWN_CMD +:+ " ("
                               +:+ Py.replace
                                     (Py.replace
                                        (Py.replace
                                           (if (Py.len args <? 16)%Z then args
                                            else Py.take 11 args +:+ " ...")
                                           "=" EmptyString)
                                        "{" EmptyString)
                                     "}" EmptyString
                               +:+ ") "
                             else UNKNOWN_CMD)))).
Proof.
  unfold get_command_name_str. intros Hrun.
  apply bind_return_inv in Hrun as (o & st0 & Hread & Hrun).
  unfold read_logfile in Hread.
  destruct (logfiles st !! self) as [o0|] eqn:Hself; [|discriminate].
  injection Hread as Ho Hst. subst o0 st0. exists o. split; [reflexivity|].
  destruct (_command_name o) as [name|] eqn:Hname.
  { unfold ret in Hrun. injection Hrun as Hn Hst. subst name st'. now left. }
  right.
  apply bind_return_inv in Hrun as (metadata & st0 & Hmeta & Hrun).
  unfold metadata_tup, bind, read_logfile in Hmeta. rewrite Hself in Hmeta.
  unfold ret in Hmeta. injection Hmeta as Hm Hst. subst metadata st0.
  destruct (_metadata o) as [md|] eqn:Hmd.
  2:{ unfold ret in Hrun. injection Hrun as Hn Hst. subst n st'. now left. }
  right.
  apply bind_return_inv in Hrun as (d & st1 & Hdict & Hrun).
  exists md, d, st1, (default EmptyString (CommandData.command_args d)).
  do 4 (split; [reflexivity || exact Hdict|]).
  cbv zeta in Hrun.
  destruct (String.eqb (LogMetadata.cmd md) UNKNOWN_CMD) eqn:Hcmd;
    cbn [negb] in Hrun.
  - apply String.eqb_eq in Hcmd.
    apply bind_return_inv in Hrun as (u & st2 & Hset & Hrun).
    destruct (String.eqb (default EmptyString (CommandData.command_args d))
                EmptyString) eqn:Hargs; cbn [negb] in Hrun |- *.
    + unfold ret in Hrun. injection Hrun as Hn Hst. subst n st2.
      split; [now apply set_command_name_inv in Hset | right; now split].
    + apply set_and_return_inv in Hrun as (Hn & Hstored). subst n.
      split; [exact Hstored | right; now split].
  - apply String.eqb_neq in Hcmd.
    apply bind_return_inv in Hrun as (u & st2 & Hset & Hrun).
    destruct (Py.contains "-h" (default EmptyString (CommandData.command_args d))
              || Py.contains "--help"
                   (default EmptyString (CommandData.command_args d))).
    + apply set_and_return_inv in Hrun as (Hn & Hstored). subst n.
      split; [exact Hstored | left; now split].
    + unfold ret in Hrun. injection Hrun as Hn Hst. subst n st2.
      split; [now apply set_command_name_inv in Hset | left].
      split; [exact Hcmd | now rewrite append_empty_r].
Qed.

(** The name is computed once. *)
Theorem get_command_name_str_cached (self : loc) (st st' : store)
    (n : string) :
  get_command_name_str self st = (Return n, st') ->
  get_command_name_str self st' = (Return n, st').
Proof.
  intros Hrun.
  destruct (get_command_name_str_inv self st st' n Hrun)
    as (o & Hself & [(Hname & ->) | [(Hname & Hmd & -> & ->) | Hcomp]]).
  - now apply (cached_name_returned self o).
  - exact Hrun.
  - destruct Hcomp as (md & d & st1 & args & _ & _ & _ & _ & (o' & Ho' & Hn') & _).
    now apply (cached_name_returned self o').
Qed.

(** The name of a command that is not known has at most 26 characters,
    and none of them is an equals sign or a brace. *)
Theorem unknown_command_name_short (self : loc) (o : CommandLogFileObj.t)
    (md : LogMetadata.t) (st st' : store) (n : string) :
  logfiles st !! self = Some o ->
  _command_name o = None ->
  _metadata o = Some md ->
  LogMetadata.cmd md = UNKNOWN_CMD ->
  get_command_name_str self st = (Return n, st') ->
  (String.length n <= 26)%nat
  /\ has_char "="%char n = false
  /\ has_char "{"%char n = false
  /\ has_char "}"%char n = false.
Proof.
  intros Hself Hname Hmd Hcmd Hrun.
  destruct (get_command_name_str_inv self st st' n Hrun)
    as (o0 & Hself0 & Hcases).
  rewrite Hself in Hself0. injection Hself0 as <-.
  destruct Hcases as [(Hname' & _) | [(_ & Hmd' & _) | Hcomp]]; [congruence..|].
  destruct Hcomp as (md0 & d & st1 & args & _ & Hmd0 & _ & _ & _ & Hshape).
  rewrite Hmd in Hmd0. injection Hmd0 as <-.
  destruct Hshape as [(Hne & _) | (_ & Hn)]; [congruence|].
  destruct (negb (String.eqb args EmptyString)); [|subst n; split; [vm_compute; lia | repeat split; reflexivity]].
  set (shown := if (Py.len args <? 16)%Z then args
                else Py.take 11 args +:+ " ...") in Hn.
  assert (Hshown : (String.length shown <= 15)%nat).
  { unfold shown. destruct (Py.len args <? 16)%Z eqn:Hlen.
    - apply Z.ltb_lt in Hlen. unfold Py.len in Hlen. lia.
    - rewrite length_append. pose proof (length_take 11 args).
      change (String.length " ...") with 4%nat. lia. }
  subst n. split.
  - rewrite !length_append.
    pose proof (replace_not_longer
                  (Py.replace (Py.replace shown "=" EmptyString) "{" EmptyString)
                  "}" EmptyString ltac:(discriminate) ltac:(simpl; lia)).
    pose proof (replace_not_longer (Py.replace shown "=" EmptyString)
                  "{" EmptyString ltac:(discriminate) ltac:(simpl; lia)).
    pose proof (replace_not_longer shown "=" EmptyString
                  ltac:(discriminate) ltac:(simpl; lia)).
    change (String.length UNKNOWN_CMD) with 7%nat.
    change (String.length " (") with 2%nat.
    change (String.length ") ") with 2%nat. lia.
  - rewrite !has_char_append, !has_char_replace.
    change (has_char "=" UNKNOWN_CMD) with false.
    change (has_char "{" UNKNOWN_CMD) with false.
    change (has_char "}" UNKNOWN_CMD) with false.
    cbn [has_char Ascii.eqb Bool.eqb orb andb negb].
    rewrite !andb_false_r. repeat split; reflexivity.
Qed.

End CommandName.

Lemma get_command_name_str_cached_witness :
  exists n st',
    @CommandLogFile.get_command_name_str Scenario.azlogging Scenario.os_small_log 0%nat
      (@Scenario.with_logfile Scenario.azlogging Scenario.os_small_log
         Scenario.small_log_path)
    = (Return n, st')
    /\ @CommandLogFile.get_command_name_str Scenario.azlogging Scenario.os_small_log
         0%nat st'
       = (Return n, st').
Proof.
  eexists _, _.
  refine ((fun E => conj E
             (@get_command_name_str_cached Scenario.azlogging
                Scenario.os_small_log 0%nat _ _ _ E)) _).
  vm_compute. reflexivity.
Defined.

Lemma unknown_command_name_short_witness :
  exists n st',
    @CommandLogFile.get_command_name_str Scenario.azlogging Scenario.os_unknown_log 0%nat
      (@Scenario.with_logfile Scenario.azlogging Scenario.os_unknown_log
         Scenario.unknown_log_path)
    = (Return n, st')
    /\ n = "Unknown (vm --na  ...) "
    /\ (String.length n <= 26)%nat
    /\ has_char "="%char n = false
    /\ has_char "{"%char n = false
    /\ has_char "}"%char n = false.
Proof.
  exists "Unknown (vm --na  ...) ",
    (snd (@CommandLogFile.get_command_name_str Scenario.azlogging
            Scenario.os_unknown_log 0%nat
            (@Scenario.with_logfile Scenario.azlogging Scenario.os_unknown_log
               Scenario.unknown_log_path))).
  assert (E : @CommandLogFile.get_command_name_str Scenario.azlogging
                Scenario.os_unknown_log 0%nat
                (@Scenario.with_logfile Scenario.azlogging
                   Scenario.os_unknown_log Scenario.unknown_log_path)
              = (Return "Unknown (vm --na  ...) ",
                 snd (@CommandLogFile.get_command_name_str Scenario.azlogging
                        Scenario.os_unknown_log 0%nat
                        (@Scenario.with_logfile Scenario.azlogging
                           Scenario.os_unknown_log Scenario.unknown_log_path)))).
  { vm_compute. reflexivity. }
  split; [exact E|]. split; [reflexivity|].
  apply (@unknown_command_name_short Scenario.azlogging
           Scenario.os_unknown_log 0%nat
           (CommandLogFileObj.mk None Scenario.unknown_log_path
              Scenario.midnight
              (Some (LogMetadata.mk "Unknown"
                       (Datetime.total_seconds Scenario.midnight
                          (Datetime.mk 2019 1 1 12 0 0 0))
                       Scenario.unknown_log_path 12))
              None)
           (LogMetadata.mk "Unknown"
              (Datetime.total_seconds Scenario.midnight
                 (Datetime.mk 2019 1 1 12 0 0 0))
              Scenario.unknown_log_path 12)
           (@Scenario.with_logfile Scenario.azlogging Scenario.os_unknown_log
              Scenario.unknown_log_path)
           (snd (@CommandLogFile.get_command_name_str Scenario.azlogging
                   Scenario.os_unknown_log 0%nat
                   (@Scenario.with_logfile Scenario.azlogging
                      Scenario.os_unknown_log Scenario.unknown_log_path)))
           "Unknown (vm --na  ...) ");
    [ vm_compute; reflexivity | reflexivity | reflexivity | reflexivity
    | exact E ].
Defined.

(* ================================================================== *)
(** * The log files of the directory *)
(* ================================================================== *)

Section CommandLogFilesFacts.
Context `{Azlogging} `{OS}.
Import CommandLogFile CommandLogFileObj.

Lemma strptime_outcome (s : string) :
  (exists d, Datetime.strptime s = Return d)
  \/ Datetime.strptime s = Raise ValueError.
Proof.
  unfold Datetime.strptime.
  destruct (Py.split "-" s) as [|a [|b [|c [|d [|e [|f [|g l]]]]]]];
    try (now right).
  destruct (_ && _); [|now right].
  destruct (Py.int a), (Py.int b), (Py.int c), (Py.int d), (Py.int e),
    (Py.int f); try (now right).
  destruct (Datetime.valid _); [left; eauto | now right].
Qed.

(** [_get_command_metadata_from_file] is [metadata_of_path] and debug
    notes. *)
Lemma metadata_from_file_spec (log_file_path : string)
    (time_now : Datetime.datetime) (st : store) :
  exists notes,
    _get_command_metadata_from_file log_file_path time_now st
    = (metadata_of_path log_file_path time_now, add_log st notes)
    /\ Forall (fun entry => fst entry = DEBUG) notes.
Proof.
  unfold _get_command_metadata_from_file, metadata_of_path.
  destruct (String.eqb log_file_path EmptyString).
  { exists []. rewrite add_log_nil. split; [reflexivity | constructor]. }
  assert (Hin : bool_decide (ValueError ∈ [ValueError]) = true) by reflexivity.
  assert (Hnotes : forall (body : M (option (Datetime.datetime * string * string)))
                          (k : option (Datetime.datetime * string * string)
                               -> M (option LogMetadata.t)),
             body st = (Raise ValueError, st) ->
             k None = ret None ->
             exists notes,
               bind (try_except body [ValueError]
                       (logger DEBUG
                          ("Could not load metadata from file name "
                           +:+ log_file_path +:+ ".") ;;;
                        logger DEBUG (exn_str ValueError) ;;;
                        ret None)) k st
               = (Return None, add_log st notes)
               /\ Forall (fun entry => fst entry = DEBUG) notes).
  { intros body k Hbody Hk. eexists [_; _].
    unfold bind at 1, try_except. rewrite Hbody, Hin.
    unfold bind, logger, ret. rewrite Hk. unfold ret, add_log. cbn [log lists
      minifiers logfiles]. rewrite <- app_assoc.
    split; [reflexivity | repeat constructor]. }
  destruct (PosixPath.split log_file_path) as [dir name]. cbn [snd].
  destruct (Py.split "." name) as [|a [|b [|c [|d [|e [|f l]]]]]];
    try (apply Hnotes; reflexivity).
  destruct (strptime_outcome (a +:+ "-" +:+ b)) as [(stamp & Hs) | Hs];
    rewrite Hs.
  - exists []. rewrite add_log_nil. split; [|constructor].
    unfold bind at 1, try_except, bind at 1, lift.
    unfold ret at 1. cbv beta iota.
    unfold bind, lift, or_raise. destruct (Py.int d); reflexivity.
  - apply Hnotes; [|reflexivity].
    unfold bind, lift. reflexivity.
Qed.

Lemma metadata_of_path_outcome (log_file_path : string)
    (time_now : Datetime.datetime) :
  (exists m, metadata_of_path log_file_path time_now = Return m)
  \/ metadata_of_path log_file_path time_now = Raise ValueError.
Proof.
  unfold metadata_of_path.
  destruct (String.eqb log_file_path EmptyString); [left; eauto|].
  destruct (Py.split "." _) as [|a [|b [|c [|d [|e [|f l]]]]]];
    try (left; eauto; fail).
  destruct (Datetime.strptime _); try (left; eauto; fail).
  destruct (Py.int d); [left; eauto | now right].
Qed.

(** The constructor on a file whose name does not raise. *)
Lemma init_returns (file_path : string) (time_now : option Datetime.datetime)
    (m : option LogMetadata.t) (st : store) :
  isfile file_path = true ->
  metadata_of_path file_path (default now time_now) = Return m ->
  exists notes,
    __init__ file_path time_now st
    = (Return (fresh (dom (logfiles st))),
       add_log
         (mkStore (lists st) (minifiers st)
            (<[fresh (dom (logfiles st)) :=
                 mk None file_path (default now time_now) m None]>
               (logfiles st))
            (log st))
         notes)
    /\ Forall (fun entry => fst entry = DEBUG) notes.
Proof.
  intros Hfile Hm. unfold __init__. rewrite Hfile. cbn [negb].
  destruct (metadata_from_file_spec file_path (default now time_now) st)
    as (notes & Hmeta & Hnotes).
  exists notes. split; [|exact Hnotes].
  unfold bind. rewrite Hmeta, Hm. reflexivity.
Qed.

Lemma init_raises (file_path : string) (time_now : option Datetime.datetime)
    (st : store) :
  isfile file_path = false
  \/ metadata_of_path file_path (default now time_now) = Raise ValueError ->
  fst (__init__ file_path time_now st) = Raise ValueError.
Proof.
  intros Hbad. unfold __init__.
  destruct (isfile file_path); [|reflexivity]. cbn [negb].
  destruct Hbad as [Hfile | Hm]; [discriminate|].
  destruct (metadata_from_file_spec file_path (default now time_now) st)
    as (notes & Hmeta & _).
  unfold bind. rewrite Hmeta, Hm. reflexivity.
Qed.

(** The loop on names that do not stop it. *)
Lemma command_log_files_loop_returns (ctx : cli_ctx)
    (time_now : option Datetime.datetime) :
  forall (files : list string) (acc : list loc) (st : store),
    Forall (fun file_name => stops_at ctx time_now file_name = false) files ->
    exists locs st' notes,
      _get_command_log_files_loop (get_command_log_dir ctx) time_now files acc st
      = (Return (acc ++ locs), st')
      /\ Forall2 (is_log_file_of ctx time_now st') locs
           (List.filter (has_metadata ctx time_now) files)
      /\ Forall (fun r => logfiles st !! r = None) locs
      /\ NoDup locs
      /\ logfiles st ⊆ logfiles st'
      /\ lists st' = lists st /\ minifiers st' = minifiers st
      /\ log st' = log st ++ notes
      /\ Forall (fun entry => fst entry = DEBUG) notes.
Proof.
  induction files as [|file_name files IH]; intros acc st Hgood.
  - exists [], st, []. rewrite !app_nil_r. repeat split; try constructor.
    reflexivity.
  - apply Forall_cons in Hgood as (Hhead & Hrest).
    unfold stops_at in Hhead. apply orb_false_elim in Hhead as (Hfile & Hm).
    apply negb_false_iff in Hfile.
    set (file_path := PosixPath.join (get_command_log_dir ctx) file_name) in *.
    destruct (metadata_of_path_outcome file_path (default now time_now))
      as [(m & Hmeta) | Hmeta]; [|rewrite Hmeta in Hm; discriminate].
    destruct (init_returns file_path time_now m st Hfile Hmeta)
      as (notes1 & Hinit & Hnotes1).
    set (r := fresh (dom (logfiles st))) in *.
    assert (Hr : logfiles st !! r = None).
    { apply not_elem_of_dom. apply is_fresh. }
    cbn [_get_command_log_files_loop]. fold file_path.
    unfold bind at 1. rewrite Hinit.
    unfold bind at 1, metadata_tup, bind at 1, read_logfile.
    cbn [logfiles add_log]. rewrite lookup_insert_eq. unfold ret at 1.
    cbn [_metadata].
    set (st1 := add_log _ notes1).
    assert (Hst1 : logfiles st1 !! r
                   = Some (mk None file_path (default now time_now) m None)).
    { apply lookup_insert_eq. }
    assert (Hsub1 : logfiles st ⊆ logfiles st1).
    { apply insert_subseteq. exact Hr. }
    destruct m as [md|].
    + unfold bind at 1, ret at 1.
      destruct (IH (acc ++ [r]) st1 Hrest)
        as (locs & st' & notes & Hloop & Hobjs & Hfresh & Hnodup & Hsub
            & Hlists & Hmin & Hlog & Hnotes).
      exists (r :: locs), st', (notes1 ++ notes).
      rewrite Hloop, <- app_assoc. split; [reflexivity|].
      assert (Hhas : has_metadata ctx time_now file_name = true).
      { unfold has_metadata. fold file_path. now rewrite Hmeta. }
      cbn [List.filter]. rewrite Hhas.
      repeat split.
      * constructor; [|exact Hobjs]. exists md. split; [exact Hmeta|].
        eapply lookup_weaken; [exact Hst1 | exact Hsub].
      * constructor; [exact Hr|].
        eapply Forall_impl; [exact Hfresh|]. intros r' Hr'. cbn beta in Hr'.
        destruct (logfiles st !! r') eqn:Hold; [|reflexivity].
        eapply lookup_weaken in Hold; [|exact Hsub1]. congruence.
      * constructor; [|exact Hnodup]. intros Hin.
        rewrite Forall_forall in Hfresh. specialize (Hfresh r Hin). congruence.
      * etransitivity; [exact Hsub1 | exact Hsub].
      * rewrite Hlists. reflexivity.
      * rewrite Hmin. reflexivity.
      * rewrite Hlog. unfold st1. cbn [log add_log]. now rewrite app_assoc.
      * now apply Forall_app.
    + unfold bind at 1, bind at 1, logger at 1, ret at 1.
      set (st2 := mkStore _ _ _ _).
      destruct (IH acc st2 Hrest)
        as (locs & st' & notes & Hloop & Hobjs & Hfresh & Hnodup & Hsub
            & Hlists & Hmin & Hlog & Hnotes).
      exists locs, st',
        (notes1 ++ [(DEBUG, file_path +:+ " is an invalid command log file.")]
         ++ notes).
      rewrite Hloop. split; [reflexivity|].
      assert (Hhas : has_metadata ctx time_now file_name = false).
      { unfold has_metadata. fold file_path. now rewrite Hmeta. }
      cbn [List.filter]. rewrite Hhas.
      repeat split.
      * exact Hobjs.
      * eapply Forall_impl; [exact Hfresh|]. intros r' Hr'. cbn beta in Hr'.
        destruct (logfiles st !! r') eqn:Hold; [|reflexivity].
        eapply lookup_weaken in Hold; [|exact Hsub1].
        unfold st2 in Hr'. cbn [logfiles] in Hr'. congruence.
      * exact Hnodup.
      * etransitivity; [exact Hsub1 | exact Hsub].
      * rewrite Hlists. reflexivity.
      * rewrite Hmin. reflexivity.
      * rewrite Hlog. unfold st2, st1. cbn [log add_log].
        now rewrite <- !app_assoc.
      * apply Forall_app. split; [exact Hnotes1|].
        constructor; [reflexivity | exact Hnotes].
Qed.

(** The loop stops with [ValueError] at the first name that is not a file
    or whose process id is not a number. *)
Lemma command_log_files_loop_raises (ctx : cli_ctx)
    (time_now : option Datetime.datetime) :
  forall (files : list string) (acc : list loc) (st : store),
    Exists (fun file_name => stops_at ctx time_now file_name = true) files ->
    fst (_get_command_log_files_loop (get_command_log_dir ctx) time_now files
           acc st)
    = Raise ValueError.
Proof.
  induction files as [|file_name files IH]; intros acc st Hbad.
  - inversion Hbad.
  - cbn [_get_command_log_files_loop].
    set (file_path := PosixPath.join (get_command_log_dir ctx) file_name).
    destruct (stops_at ctx time_now file_name) eqn:Hhead.
    + unfold stops_at in Hhead. fold file_path in Hhead.
      assert (Hraise : fst (__init__ file_path time_now st) = Raise ValueError).
      { apply init_raises. apply orb_true_iff in Hhead as [Hfile | Hm].
        - left. now apply negb_true_iff in Hfile.
        - right.
          destruct (metadata_of_path_outcome file_path (default now time_now))
            as [(m & Hmeta) | Hmeta]; [|exact Hmeta].
          rewrite Hmeta in Hm. discriminate. }
      unfold bind at 1.
      destruct (__init__ file_path time_now st) as [[r|e|] st1];
        cbn [fst] in Hraise; try discriminate.
      injection Hraise as He. subst e. reflexivity.
    + apply Exists_cons in Hbad as [Hnow | Hlater]; [congruence|].
      destruct (command_log_files_loop_returns ctx time_now [file_name] acc st)
        as (locs & st1 & notes & Hloop & _).
      { constructor; [exact Hhead | constructor]. }
      cbn [_get_command_log_files_loop] in Hloop. fold file_path in Hloop.
      unfold bind at 1 in Hloop. unfold bind at 1.
      destruct (__init__ file_path time_now st) as [[r|e|] st0];
        try discriminate.
      unfold bind at 1 in Hloop. unfold bind at 1.
      destruct (metadata_tup r st0) as [[m|e|] st2]; try discriminate.
      unfold bind at 1 in Hloop. unfold bind at 1.
      destruct (match m with
                | Some _ => ret (acc ++ [r])
                | None =>
                    logger DEBUG
                      (file_path +:+ " is an invalid command log file.") ;;;
                    ret acc
                end st2) as [[acc'|e|] st3]; try discriminate.
      apply IH. exact Hlater.
Qed.

(** Which log directories make [_get_command_log_files] raise. *)
Theorem command_log_files_raises_iff (ctx : cli_ctx)
    (time_now : option Datetime.datetime) (st : store) :
  (fst (_get_command_log_files ctx time_now st) = Raise ValueError
   <-> Exists (fun file_name => stops_at ctx time_now file_name = true)
         (log_names ctx))
  /\ (~ Exists (fun file_name => stops_at ctx time_now file_name = true)
          (log_names ctx)
      -> exists locs, fst (_get_command_log_files ctx time_now st) = Return locs).
Proof.
  assert (Hret :
    ~ Exists (fun file_name => stops_at ctx time_now file_name = true)
        (log_names ctx)
    -> exists locs, fst (_get_command_log_files ctx time_now st) = Return locs).
  { intros Hnone.
    destruct (command_log_files_loop_returns ctx time_now (log_names ctx) [] st)
      as (locs & st' & notes & Hloop & _).
    { apply Forall_forall. intros name Hin.
      destruct (stops_at ctx time_now name) eqn:Hstop; [|reflexivity].
      exfalso. apply Hnone. apply Exists_exists. eauto. }
    exists locs. unfold _get_command_log_files. fold (log_names ctx).
    now rewrite Hloop. }
  split; [|exact Hret]. split.
  - intros Hraise.
    destruct (decide (Exists (fun file_name =>
                                stops_at ctx time_now file_name = true)
                        (log_names ctx))) as [Hsome | Hnone];
      [exact Hsome|].
    destruct (Hret Hnone) as (locs & Hlocs). congruence.
  - intros Hsome. unfold _get_command_log_files.
    now apply command_log_files_loop_raises.
Qed.

(** The log files returned are those of the names that give metadata,
    in sorted order. *)
Theorem command_log_files_returns (ctx : cli_ctx)
    (time_now : option Datetime.datetime) (st : store) :
  Forall (fun file_name => stops_at ctx time_now file_name = false)
    (log_names ctx) ->
  exists locs st',
    _get_command_log_files ctx time_now st = (Return locs, st')
    /\ Forall2 (is_log_file_of ctx time_now st') locs
         (List.filter (has_metadata ctx time_now) (log_names ctx))
    /\ NoDup locs
    /\ Forall (fun r => logfiles st !! r = None) locs
    /\ logfiles st ⊆ logfiles st'
    /\ lists st' = lists st /\ minifiers st' = minifiers st.
Proof.
  intros Hgood.
  destruct (command_log_files_loop_returns ctx time_now (log_names ctx) [] st
              Hgood)
    as (locs & st' & notes & Hloop & Hobjs & Hfresh & Hnodup & Hsub
        & Hlists & Hmin & _).
  exists locs, st'. unfold _get_command_log_files. fold (log_names ctx).
  now rewrite Hloop.
Qed.

End CommandLogFilesFacts.

Lemma command_log_files_returns_witness :
  exists locs st',
    @_get_command_log_files Scenario.azlogging Scenario.os_bad_names
      (mk_cli_ctx "/logs") None empty_store
    = (Return locs, st')
    /\ Forall2 (@is_log_file_of Scenario.azlogging Scenario.os_bad_names
                  (mk_cli_ctx "/logs") None st')
         locs ["2019-01-01.11-00-00.vm_list.77.log"]
    /\ NoDup locs
    /\ Forall (fun r => logfiles empty_store !! r = None) locs
    /\ logfiles empty_store ⊆ logfiles st'
    /\ lists st' = lists empty_store /\ minifiers st' = minifiers empty_store.
Proof.
  assert (Hnames :
    @log_names Scenario.os_bad_names (mk_cli_ctx "/logs")
    = ["2019-01-01.11-00-00.vm_list.77.log";
       "2019-13-01.12-00-00.vm_create.5.log"; "az.log"])
    by (vm_compute; reflexivity).
  assert (Hvalid :
    List.filter (@has_metadata Scenario.azlogging Scenario.os_bad_names
                   (mk_cli_ctx "/logs") None)
      (@log_names Scenario.os_bad_names (mk_cli_ctx "/logs"))
    = ["2019-01-01.11-00-00.vm_list.77.log"])
    by (vm_compute; reflexivity).
  rewrite <- Hvalid.
  apply (@command_log_files_returns Scenario.azlogging Scenario.os_bad_names
           (mk_cli_ctx "/logs") None empty_store).
  rewrite Hnames. repeat (constructor; [vm_compute; reflexivity|]).
  constructor.
Defined.

(* ================================================================== *)
(** * When the minifier gives up *)
(* ================================================================== *)

Section MinifierGivesUp.
Import ErrorMinifier ErrorMinifierObj.

(** With fewer than three lines, [lines[mid]] is out of range. *)
Lemma removing_lines_few_lines (error_string : string) :
  (length (Py.splitlines
             (Py.replace error_string _CONTINUATION_STR EmptyString)) < 3)%nat ->
  _minify_by_removing_lines error_string = Raise IndexError.
Proof.
  intros Hlines. unfold _minify_by_removing_lines.
  set (lines := Py.splitlines
                  (Py.replace error_string _CONTINUATION_STR EmptyString)) in *.
  rewrite (lookup_ge_None_2 lines); [reflexivity|].
  pose proof (Nat.div_mod_eq (length lines) 2) as Hd.
  pose proof (Nat.mod_upper_bound (length lines) 2). lia.
Qed.

(** [set_capacity] raises [IndexError] when no strategy fits and the
    text has fewer than three lines. *)
Theorem set_capacity_raises_when_nothing_fits (fuel : nat) (self : loc)
    (st : store) (o : t) (errors : list string) (capacity : Z) :
  minifiers st !! self = Some o ->
  lists st !! _errors_list o = Some errors ->
  errors <> [] ->
  fits capacity (Py.join Py.NL errors) = false ->
  fits capacity (Py.join Py.NL (strategy2 errors)) = false ->
  fits capacity (Py.join Py.NL (strategy3 errors)) = false ->
  fits capacity (Py.join Py.NL (strategy4 errors)) = false ->
  (length (Py.splitlines
             (Py.replace (Py.join Py.NL (strategy4 errors))
                _CONTINUATION_STR EmptyString)) < 3)%nat ->
  fst (set_capacity (S fuel) self capacity st) = Raise IndexError
  /\ lists (snd (set_capacity (S fuel) self capacity st)) !! _errors_list o
     = Some (strategy4 errors).
Proof.
  intros Hself Hlist Hne H1 H2 H3 H4 Hlines.
  rewrite (set_capacity_by_strategies (S fuel) self st o errors capacity
             Hself Hlist).
  unfold minified_by_strategies.
  rewrite bool_decide_eq_false_2 by exact Hne.
  rewrite H1, H2, H3, H4. cbn [fst snd].
  split.
  - cbn [remove_lines_while]. unfold fits in H4. rewrite H4.
    rewrite (removing_lines_few_lines _ Hlines). reflexivity.
  - unfold store_after_set_capacity. cbn [lists snd].
    apply lookup_insert_eq.
Qed.

End MinifierGivesUp.

(* ================================================================== *)
(** * The issue of a command and the generic issue *)
(* ================================================================== *)

Section IssueFacts.
Context `{Azlogging} `{OS} `{Platform}.

Lemma startswith_append_l (a b p : string) :
  Py.startswith a p = true -> Py.startswith (a +:+ b) p = true.
Proof.
  revert a. induction p as [|c p IH]; intros a Hp; [reflexivity|].
  destruct a as [|x a]; [discriminate|].
  rewrite append_cons. cbn [Py.startswith] in *.
  apply andb_true_iff in Hp as (Hc & Hp). rewrite Hc. cbn [andb].
  now apply IH.
Qed.

Lemma startswith_take (n : nat) (s p : string) :
  (String.length p <= n)%nat ->
  Py.startswith s p = true -> Py.startswith (Py.take n s) p = true.
Proof.
  revert n s. induction p as [|c p IH]; intros n s Hn Hp; [reflexivity|].
  destruct s as [|x s]; [discriminate|].
  destruct n as [|n]; [simpl in Hn; lia|].
  cbn [Py.take Py.startswith] in *.
  apply andb_true_iff in Hp as (Hc & Hp). rewrite Hc. cbn [andb].
  apply IH; [simpl in Hn; lia | exact Hp].
Qed.

(** What holds of the URL of every re-minification holds of the URL the
    loop ends with. *)
Lemma retry_while_invariant (P : string -> Prop)
    (step : Z -> M (string * string)) :
  (forall c st u b st', step c st = (Return (u, b), st') -> P u) ->
  forall (fuel : nat) (s : retry_state) (st : store)
         (s' : retry_state) (st' : store),
    retry_while fuel step s st = (Return s', st') ->
    P (formatted_issues_url s) ->
    P (formatted_issues_url s').
Proof.
  intros Hstep.
  induction fuel as [|fuel IH]; intros s st s' st' Hrun HP;
    cbn [retry_while] in Hrun;
    destruct ((_MAX_URL_LENGTH <? Py.len (formatted_issues_url s))%Z
              && (tries s <? 25)%Z);
    try discriminate;
    try (unfold ret in Hrun; injection Hrun as Hs Hst; subst s'; exact HP).
  apply bind_return_inv in Hrun as ([url body] & st1 & Hs & Hrest).
  apply IH in Hrest; [exact Hrest|]. cbn [formatted_issues_url].
  eapply Hstep. exact Hs.
Qed.

(** The URL of a minification starts with [http]. *)
Lemma minified_issue_url_http (fuel : nat) (command_log_file : option loc)
    (format_dict : FormatDict.t) (is_ext : bool) (ext_name : string)
    (capacity : Z) (st st' : store) (url body : string) :
  _get_minified_issue_url fuel command_log_file format_dict is_ext ext_name
    capacity st
  = (Return (url, body), st') ->
  Py.startswith url "http" = true.
Proof.
  unfold _get_minified_issue_url. intros Hrun.
  apply bind_return_inv in Hrun as (no_errors & st1 & _ & Hrun).
  apply bind_return_inv in Hrun as (u & st2 & _ & Hrun).
  apply bind_return_inv in Hrun as (minified & st3 & _ & Hrun).
  apply bind_return_inv in Hrun as (base & st4 & _ & Hrun).
  apply bind_return_inv in Hrun as (has_failed & st5 & _ & Hrun).
  cbv zeta in Hrun.
  remember (if negb (Py.startswith base "http")
            then "https://" +:+ base else base) as base' eqn:Hbase'.
  assert (Hhttp : Py.startswith base' "http" = true).
  { subst base'. destruct (Py.startswith base "http") eqn:Hbase; cbn [negb].
    - exact Hbase.
    - reflexivity. }
  clear Hbase'. unfold ret in Hrun. injection Hrun as Hurl _ _. subst url.
  now apply startswith_append_l.
Qed.

(** The URL that is opened starts with [http]. *)
Theorem issue_url_starts_with_http (fuel : nat)
    (command_log_file : option loc) (st st' : store)
    (prefix url original_issue_body : string) (is_ext : bool) :
  _build_issue_info_tup fuel command_log_file st
  = (Return (prefix, url, original_issue_body, is_ext), st') ->
  Py.startswith url "http" = true.
Proof.
  unfold _build_issue_info_tup. intros Hrun.
  apply bind_return_inv in Hrun
    as ([[format_dict is_ext0] ext_name] & st1 & _ & Hrun).
  apply bind_return_inv in Hrun as (pretty_url_name & st2 & _ & Hrun).
  apply bind_return_inv in Hrun as (original & st3 & _ & Hrun).
  apply bind_return_inv in Hrun as ([url0 body0] & st4 & Hfirst & Hrun).
  apply bind_return_inv in Hrun as (final & st5 & Hloop & Hrun).
  apply bind_return_inv in Hrun as (url1 & st6 & Htrunc & Hrun).
  apply bind_return_inv in Hrun as ([] & st7 & _ & Hrun).
  apply bind_return_inv in Hrun as ([] & st8 & _ & Hrun).
  unfold ret in Hrun. injection Hrun as _ Hurl _ _ _. subst url1.
  apply minified_issue_url_http in Hfirst.
  apply (retry_while_invariant (fun u => Py.startswith u "http" = true))
    in Hloop; [| |exact Hfirst].
  2:{ intros c s u b s' Hstep. now apply minified_issue_url_http in Hstep. }
  destruct (truncate_and_warn_spec (formatted_issues_url final) st5)
    as (u & s6 & Heq & _ & Hshort & Hlong).
  rewrite Heq in Htrunc. injection Htrunc as Hu Hs. subst u s6.
  destruct (Z.le_gt_cases (Py.len (formatted_issues_url final)) _MAX_URL_LENGTH)
    as [Hle | Hgt].
  - destruct (Hshort Hle) as (Hurl & _). rewrite Hurl. exact Hloop.
  - destruct (Hlong ltac:(lia)) as (Hurl & _). rewrite Hurl.
    apply startswith_take; [vm_compute; lia | exact Hloop].
Qed.

(** The template on a dictionary whose errors are a string changes
    nothing. *)
Lemma format_issues_template_str (d : FormatDict.t) (s : string) :
  FormatDict.errors_string d = ErrStr s ->
  exists body, forall st, format_issues_template d st = (Return body, st).
Proof.
  intros Hs. unfold format_issues_template, bind, errors_value_str.
  rewrite Hs. unfold ret. eexists. intros st. reflexivity.
Qed.

(** A minification without a command and without errors. *)
Lemma minified_issue_url_generic (fuel : nat) (d : FormatDict.t)
    (body : string) (c : Z) (st : store) :
  FormatDict.errors_string d = ErrStr EmptyString ->
  (forall st, format_issues_template d st = (Return body, st)) ->
  _get_minified_issue_url fuel None d false EmptyString c st
  = (Return (_RAW_CLI_ISSUES_URL +:+ "?body=" +:+ Py.quote_plus body, body),
     st).
Proof.
  intros Hs Hbody. destruct d as [cn es ec cv pi pf sh ag].
  cbn [FormatDict.errors_string] in Hs. subst es.
  unfold _get_minified_issue_url.
  cbn [FormatDict.errors_string FormatDict.command_name
       FormatDict.executed_command FormatDict.cli_version
       FormatDict.python_info FormatDict.platform FormatDict.shell
       FormatDict.auto_gen_comment].
  unfold bind at 1. rewrite Hbody.
  unfold bind at 1, ret at 1. unfold bind at 1. rewrite Hbody.
  reflexivity.
Qed.

(** The loop around a step that always gives the same URL. *)
Lemma retry_while_constant (step : Z -> M (string * string))
    (url body : string) :
  (forall c st, step c st = (Return (url, body), st)) ->
  forall (fuel : nat) (s : retry_state) (st : store),
    (25 - tries s <= Z.of_nat fuel)%Z ->
    formatted_issues_url s = url ->
    exists s',
      retry_while fuel step s st = (Return s', st)
      /\ formatted_issues_url s' = url.
Proof.
  intros Hstep.
  induction fuel as [|fuel IH]; intros s st Hfuel Hurl; cbn [retry_while];
    destruct (_MAX_URL_LENGTH <? Py.len (formatted_issues_url s))%Z;
    destruct (tries s <? 25)%Z eqn:Htries; cbn [andb];
    try (exists s; split; [reflexivity | exact Hurl]).
  - apply Z.ltb_lt in Htries. lia.
  - unfold bind. rewrite Hstep.
    apply IH; [cbn [tries]; lia | reflexivity].
Qed.

(** The generic issue. *)
Theorem generic_issue_returns (fuel : nat) (st : store) :
  (25 <= fuel)%nat ->
  exists body notes,
    format_issues_template generic_format_dict st = (Return body, st)
    /\ _build_issue_info_tup fuel None st
       = (Return (format_issues_template_prefix _CLI_ISSUES_URL,
                  Py.take (Z.to_nat _MAX_URL_LENGTH)
                    (_RAW_CLI_ISSUES_URL +:+ "?body=" +:+ Py.quote_plus body),
                  body, false),
          mkStore (lists st) (minifiers st) (logfiles st) (log st ++ notes)).
Proof.
  intros Hfuel.
  destruct (format_issues_template_str generic_format_dict EmptyString
              eq_refl) as (body & Hbody).
  set (url := _RAW_CLI_ISSUES_URL +:+ "?body=" +:+ Py.quote_plus body).
  pose proof (fun c st0 =>
                minified_issue_url_generic fuel generic_format_dict body c st0
                  eq_refl Hbody) as Hstep.
  fold url in Hstep.
  destruct (retry_while_constant
              (_get_minified_issue_url fuel None generic_format_dict false
                 EmptyString)
              url body Hstep fuel
              (mk_retry url body
                 (_MAX_URL_LENGTH - (Py.len url - _MAX_URL_LENGTH)) 0)
              st ltac:(cbn [tries]; lia) eq_refl)
    as (final & Hloop & Hfinal).
  assert (Hrun :
    _build_issue_info_tup fuel None st
    = (url' <- truncate_and_warn url ;;
       logger DEBUG ("Total minified issue length is "
                     +:+ pretty (Py.len (minified_issue_body final))) ;;;
       logger DEBUG ("Total formatted url length is "
                     +:+ pretty (Py.len url')) ;;;
       ret (format_issues_template_prefix _CLI_ISSUES_URL, url', body, false))
        st).
  { unfold _build_issue_info_tup.
    unfold bind at 1, ret at 1. cbv iota beta.
    change (FormatDict.mk _ _ _ _ _ _ _ _) with generic_format_dict.
    unfold bind at 1, ret at 1. unfold bind at 1. rewrite Hbody.
    unfold bind at 1. rewrite Hstep.
    unfold bind at 1. rewrite Hloop. rewrite Hfinal. reflexivity. }
  exists body. rewrite Hrun. unfold bind at 1, truncate_and_warn.
  destruct (_MAX_URL_LENGTH <? Py.len url)%Z eqn:Hlong.
  - eexists. split; [apply Hbody|].
    unfold bind, logger, ret. cbn [lists minifiers logfiles log].
    rewrite <- !app_assoc. reflexivity.
  - apply Z.ltb_ge in Hlong.
    change (_RAW_CLI_ISSUES_URL +:+ "?body=" +:+ Py.quote_plus body) with url.
    rewrite (take_all (Z.to_nat _MAX_URL_LENGTH) url)
      by (unfold Py.len in Hlong; lia).
    eexists. split; [apply Hbody|].
    unfold bind, logger, ret. cbn [lists minifiers logfiles log].
    rewrite <- !app_assoc. reflexivity.
Qed.

(** The raw URL of an extension is a new-issue page, and a failed
    look-up in the index is not an error. *)
Theorem extension_repo_url_raw (ext_name : string) (st : store) :
  match fst (_get_extension_repo_url ext_name true st) with
  | Return url => Py.endswith url "/issues/new" = true
  | Raise e =>
      e <> CLIError /\ resolve_project_url_from_index ext_name = Raise e
  | OutOfFuel => resolve_project_url_from_index ext_name = OutOfFuel
  end.
Proof.
  unfold _get_extension_repo_url, bind at 1, try_except, bind at 1, lift.
  destruct (resolve_project_url_from_index ext_name) as [project_url|e|].
  - destruct (Py.contains "https://github.com" project_url);
      unfold ret, bind; cbn [fst].
    + apply endswith_append.
    + reflexivity.
  - destruct e; cbn [fst]; try (split; [discriminate | reflexivity]).
    reflexivity.
  - reflexivity.
Qed.

End IssueFacts.

Lemma set_capacity_raises_when_nothing_fits_witness :
  fst (ErrorMinifier.set_capacity 1 0%nat 1 (Scenario.with_minifier ["ab"]))
  = Raise IndexError
  /\ lists (snd (ErrorMinifier.set_capacity 1 0%nat 1
                   (Scenario.with_minifier ["ab"]))) !! 0%nat
     = Some (strategy4 ["ab"]).
Proof.
  apply (set_capacity_raises_when_nothing_fits 0 0%nat
           (Scenario.with_minifier ["ab"])
           (ErrorMinifierObj.mk 0%nat None (Py.join Py.NL ["ab"])) ["ab"] 1);
    first [ discriminate | vm_compute; reflexivity | vm_compute; lia ].
Defined.

Lemma issue_url_starts_with_http_witness :
  exists prefix url body is_ext st',
    @_build_issue_info_tup Scenario.azlogging Scenario.os_long_error
      Scenario.platform_long_version 25 None empty_store
    = (Return (prefix, url, body, is_ext), st')
    /\ Py.startswith url "http" = true.
Proof.
  eexists _, _, _, _, _.
  refine ((fun E =>
             conj E (@issue_url_starts_with_http Scenario.azlogging
                       Scenario.os_long_error Scenario.platform_long_version
                       25 None empty_store _ _ _ _ _ E)) _).
  vm_compute. reflexivity.
Defined.

Lemma generic_issue_returns_witness :
  exists body notes,
    format_issues_template (@generic_format_dict Scenario.platform) empty_store
    = (Return body, empty_store)
    /\ @_build_issue_info_tup Scenario.azlogging Scenario.os_long_error
         Scenario.platform 25 None empty_store
       = (Return (format_issues_template_prefix _CLI_ISSUES_URL,
                  Py.take (Z.to_nat _MAX_URL_LENGTH)
                    (_RAW_CLI_ISSUES_URL +:+ "?body=" +:+ Py.quote_plus body),
                  body, false),
          mkStore (lists empty_store) (minifiers empty_store)
            (logfiles empty_store) (log empty_store ++ notes)).
Proof.
  apply (@generic_issue_returns Scenario.azlogging Scenario.os_long_error
           Scenario.platform 25 empty_store).
  lia.
Defined.

(* ================================================================== *)
(** * An issue whose errors cannot be made to fit *)
(* ================================================================== *)

Section IssueGivesUp.
Context `{Azlogging} `{OS} `{Platform}.
Import CommandLogFileObj.

(** An access that finds the dictionary. *)
Lemma command_data_dict_hit (self : loc) (o : CommandLogFileObj.t)
    (d : CommandData.t) (st : store) :
  logfiles st !! self = Some o ->
  _data o = Some d ->
  CommandData.truthy d = true ->
  CommandLogFile.command_data_dict self st = (Return d, st).
Proof.
  intros Hself Hdata Htruthy.
  unfold CommandLogFile.command_data_dict, bind, read_logfile.
  now rewrite Hself, Hdata, Htruthy.
Qed.

(** The part under [if command_log_file:] for a command without
    extension whose dictionary has errors. *)
Lemma command_information_with_errors (clf : loc) (o : CommandLogFileObj.t)
    (md : LogMetadata.t) (d : CommandData.t) (r : loc) (errors : list string)
    (format_dict : FormatDict.t) (st st1 : store) :
  logfiles st !! clf = Some o ->
  _metadata o = Some md ->
  CommandLogFile.command_data_dict clf st = (Return d, st1) ->
  CommandData.errors d = Some r ->
  default EmptyString (CommandData.extension_name d) = EmptyString ->
  lists st1 !! r = Some errors ->
  command_information clf format_dict st
  = (Return
       (FormatDict.mk (LogMetadata.cmd md)
          (ErrMinifier (fresh (dom (minifiers st1)))) (executed_command_of d)
          (FormatDict.cli_version format_dict)
          (FormatDict.python_info format_dict)
          (FormatDict.platform format_dict) (FormatDict.shell format_dict)
          (FormatDict.auto_gen_comment format_dict),
        false, EmptyString),
     mkStore (lists st1)
       (<[fresh (dom (minifiers st1)) :=
            ErrorMinifierObj.mk r None (Py.join Py.NL errors)]> (minifiers st1))
       (logfiles st1) (log st1)).
Proof.
  intros Hself Hmd Hdict Herr Hext Hlist.
  assert (Htruthy : CommandData.truthy d = true).
  { unfold CommandData.truthy. rewrite Herr.
    replace (bool_decide (is_Some (Some r))) with true
      by (symmetry; apply bool_decide_eq_true; eauto).
    now rewrite orb_true_r. }
  destruct (command_data_dict_stored clf st st1 d Hdict) as (o' & Ho' & Hd').
  pose proof (command_data_dict_hit clf o' d st1 Ho' Hd' Htruthy) as Hhit.
  unfold command_information.
  unfold bind at 1, CommandLogFile.metadata_tup, bind at 1, read_logfile.
  rewrite Hself. unfold ret at 1. rewrite Hmd.
  unfold bind at 1, lift, or_raise. cbv zeta.
  unfold bind at 1. rewrite Hdict. rewrite Htruthy.
  unfold bind at 1. rewrite Hhit. rewrite Herr.
  unfold bind at 1, ret at 1.
  unfold bind at 1. rewrite Hhit.
  unfold bind at 1. rewrite Hhit.
  unfold bind at 1. rewrite Hhit.
  rewrite Hext. cbn [String.eqb negb].
  unfold bind at 1, ErrorMinifier.__init__, bind at 1, read_list.
  rewrite Hlist. unfold new_minifier, ret.
  rewrite append_empty_r. reflexivity.
Qed.

(** A command whose errors cannot be made to fit makes the issue fail. *)
Theorem build_issue_raises_when_errors_do_not_fit (fuel : nat) (clf : loc)
    (o : CommandLogFileObj.t) (md : LogMetadata.t) (d : CommandData.t)
    (r : loc) (errors : list string) (st st1 : store) :
  logfiles st !! clf = Some o ->
  _metadata o = Some md ->
  CommandLogFile.command_data_dict clf st = (Return d, st1) ->
  CommandData.errors d = Some r ->
  default EmptyString (CommandData.extension_name d) = EmptyString ->
  lists st1 !! r = Some errors ->
  errors <> [] ->
  exists body,
    (forall st0,
        format_issues_template
          (issue_format_dict (LogMetadata.cmd md) (ErrStr EmptyString)
             (executed_command_of d)) st0
        = (Return body, st0))
    /\ (let capacity := (_MAX_URL_LENGTH - Py.len body)%Z in
        fits capacity (Py.join Py.NL errors) = false ->
        fits capacity (Py.join Py.NL (strategy2 errors)) = false ->
        fits capacity (Py.join Py.NL (strategy3 errors)) = false ->
        fits capacity (Py.join Py.NL (strategy4 errors)) = false ->
        (length (Py.splitlines
                   (Py.replace (Py.join Py.NL (strategy4 errors))
                      ErrorMinifier._CONTINUATION_STR EmptyString)) < 3)%nat ->
        fst (_build_issue_info_tup (S fuel) (Some clf) st) = Raise IndexError).
Proof.
  intros Hself Hmd Hdict Herr Hext Hlist Hne.
  destruct (format_issues_template_str
              (issue_format_dict (LogMetadata.cmd md) (ErrStr EmptyString)
                 (executed_command_of d)) EmptyString eq_refl)
    as (body & Hbody).
  exists body. split; [exact Hbody|].
  intros capacity Hf1 Hf2 Hf3 Hf4 Hlines.
  unfold _build_issue_info_tup.
  unfold bind at 1.
  rewrite (command_information_with_errors clf o md d r errors _ st st1
             Hself Hmd Hdict Herr Hext Hlist).
  cbv iota beta.
  cbn [FormatDict.command_name FormatDict.errors_string
       FormatDict.executed_command].
  set (m := fresh (dom (minifiers st1))).
  set (st2 := mkStore _ _ _ _).
  assert (Hm : minifiers st2 !! m
               = Some (ErrorMinifierObj.mk r None (Py.join Py.NL errors))).
  { apply lookup_insert_eq. }
  unfold bind at 1, ret at 1.
  unfold bind at 1.
  assert (Horig : exists original,
             format_issues_template
               (issue_format_dict (LogMetadata.cmd md) (ErrMinifier m)
                  (executed_command_of d)) st2
             = (Return original, st2)).
  { unfold format_issues_template, bind at 1, errors_value_str.
    cbn [FormatDict.errors_string issue_format_dict].
    unfold ErrorMinifier.__str__, bind at 1, read_minifier. rewrite Hm.
    destruct (negb _); unfold ret; eauto. }
  destruct Horig as (original & Horig).
  change (FormatDict.mk (LogMetadata.cmd md) (ErrMinifier m)
            (executed_command_of d) _ _ _ _ _)
    with (issue_format_dict (LogMetadata.cmd md) (ErrMinifier m)
            (executed_command_of d)).
  rewrite Horig.
  unfold bind at 1, _get_minified_issue_url.
  cbn [FormatDict.errors_string FormatDict.command_name
       FormatDict.executed_command FormatDict.cli_version
       FormatDict.python_info FormatDict.platform FormatDict.shell
       FormatDict.auto_gen_comment issue_format_dict].
  change (FormatDict.mk (LogMetadata.cmd md) (ErrStr EmptyString)
            (executed_command_of d) _ _ _ _ _)
    with (issue_format_dict (LogMetadata.cmd md) (ErrStr EmptyString)
            (executed_command_of d)).
  unfold bind at 1. rewrite Hbody.
  unfold bind at 1, bind at 1, logger at 1.
  set (st3 := mkStore _ _ _ _).
  assert (Hm3 : minifiers st3 !! m
                = Some (ErrorMinifierObj.mk r None (Py.join Py.NL errors)))
    by exact Hm.
  assert (Hl3 : lists st3
                  !! ErrorMinifierObj._errors_list
                       (ErrorMinifierObj.mk r None (Py.join Py.NL errors))
                = Some errors) by exact Hlist.
  rewrite (set_capacity_by_strategies (S fuel) m st3 _ errors
             (_MAX_URL_LENGTH - Py.len body) Hm3 Hl3).
  unfold minified_by_strategies.
  rewrite bool_decide_eq_false_2 by exact Hne.
  fold capacity. rewrite Hf1, Hf2, Hf3, Hf4. cbn [fst snd].
  cbn [ErrorMinifier.remove_lines_while]. unfold fits in Hf4. rewrite Hf4.
  rewrite (removing_lines_few_lines _ Hlines). reflexivity.
Qed.

End IssueGivesUp.

Lemma build_issue_raises_when_errors_do_not_fit_witness :
  fst (@_build_issue_info_tup Scenario.azlogging Scenario.os_long_error
         Scenario.platform 1 (Some 0%nat)
         (@Scenario.with_logfile Scenario.azlogging Scenario.os_long_error
            Scenario.small_log_path))
  = Raise IndexError.
Proof.
  destruct (@build_issue_raises_when_errors_do_not_fit Scenario.azlogging
              Scenario.os_long_error Scenario.platform 0 0%nat
              (CommandLogFileObj.mk None Scenario.small_log_path
                 Scenario.midnight
                 (Some (LogMetadata.mk "az vm create"
                          (Datetime.total_seconds Scenario.midnight
                             (Datetime.mk 2019 1 1 12 0 0 0))
                          Scenario.small_log_path 12))
                 None)
              (LogMetadata.mk "az vm create"
                 (Datetime.total_seconds Scenario.midnight
                    (Datetime.mk 2019 1 1 12 0 0 0))
                 Scenario.small_log_path 12)
              (CommandData.mk (Some false) (Some 0%nat) None None
                 (Some "vm create"))
              0%nat [Py.mul "x" 2000 +:+ Py.NL]
              (@Scenario.with_logfile Scenario.azlogging
                 Scenario.os_long_error Scenario.small_log_path)
              (snd (@CommandLogFile.command_data_dict Scenario.azlogging
                      Scenario.os_long_error 0%nat
                      (@Scenario.with_logfile Scenario.azlogging
                         Scenario.os_long_error Scenario.small_log_path))))
    as (body & Hbody & Himp).
  1-6: (vm_compute; reflexivity).
  1: discriminate.
  pose proof (Hbody empty_store) as E. vm_compute in E.
  injection E as E. subst body.
  apply Himp.
  1-4: (vm_compute; reflexivity).
  vm_compute. lia.
Defined.

(* ================================================================== *)
(** * The summary of the versions *)
(* ================================================================== *)

Section VersionSummary.
Import AzVersion.

Lemma cons_first_word (c : ascii) (ws : list string) :
  Py.is_space c = false ->
  Forall (fun w => is_word w = true) ws ->
  Forall (fun w => is_word w = true) (Py.cons_first c ws).
Proof.
  intros Hc Hws. destruct ws as [|w ws]; cbn [Py.cons_first].
  - constructor; [|constructor]. unfold is_word. cbn. now rewrite Hc.
  - apply Forall_cons in Hws as (Hw & Hws). constructor; [|exact Hws].
    unfold is_word in *. cbn [String.eqb no_space negb andb].
    apply andb_true_iff in Hw as (_ & Hw). now rewrite Hc, Hw.
Qed.

(** [split()] gives words. *)
Lemma split_ws_words (s : string) :
  Forall (fun w => is_word w = true) (Py.split_ws s).
Proof.
  induction s as [|c s IH]; [constructor|].
  cbn [Py.split_ws].
  destruct (Py.is_space c) eqn:Hc; [exact IH|].
  destruct s as [|c' s'].
  - constructor; [|constructor]. unfold is_word. cbn. now rewrite Hc.
  - destruct (Py.is_space c').
    + constructor; [|exact IH]. unfold is_word. cbn. now rewrite Hc.
    + now apply cons_first_word.
Qed.

Lemma normalized_join_split (line : string) :
  is_normalized (Py.join " " (Py.split_ws line)).
Proof. exists (Py.split_ws line). split; [apply split_ws_words | reflexivity]. Qed.

Lemma normalized_empty : is_normalized EmptyString.
Proof. exists []. split; [constructor | reflexivity]. Qed.

(** The first loop leaves the index of a line in [legal_line], or what
    it held; it only adds normalized lines. *)
Lemma scan_spec :
  forall (lines : list string) (i : Z) (new_lines : list string)
         (ext_line legal_line : Z),
    let '(new_lines', ext_line', legal_line') :=
      scan lines i new_lines ext_line legal_line in
    (legal_line' = legal_line
     \/ (i <= legal_line' < i + Z.of_nat (length lines))%Z)
    /\ (ext_line' = ext_line
        \/ (i <= ext_line' < i + Z.of_nat (length lines))%Z)
    /\ (Forall is_normalized new_lines -> Forall is_normalized new_lines').
Proof.
  induction lines as [|line rest IH]; intros i new_lines ext_line legal_line.
  - cbn [scan]. repeat split; auto.
  - cbn [scan].
    set (p := if Py.startswith line "azure-cli"
              then (Py.join " " (Py.split_ws line),
                    new_lines ++ [Py.join " " (Py.split_ws line)])
              else (line, new_lines)).
    assert (Hp : Forall is_normalized new_lines ->
                 Forall is_normalized (snd p)).
    { intros Hn. unfold p. destruct (Py.startswith line "azure-cli");
        cbn [snd]; [|exact Hn].
      apply Forall_app. split; [exact Hn|].
      constructor; [apply normalized_join_split | constructor]. }
    destruct p as [line' new_lines1]. cbn [snd] in Hp.
    cbn [length]. 
    destruct (Py.startswith (Py.lower line') "extensions:").
    + specialize (IH (i + 1)%Z new_lines1 i legal_line).
      destruct (scan rest (i + 1) new_lines1 i legal_line)
        as [[nl e] l]. destruct IH as (Hl & He & Hn).
      repeat split.
      * destruct Hl as [Hl | Hl]; [now left | right; lia].
      * right. destruct He as [He | He]; lia.
      * intros H0. apply Hn, Hp, H0.
    + destruct (Py.contains "legal" (Py.lower line')
                && Py.contains "docs" (Py.lower line')
                && Py.contains "info" (Py.lower line')).
      * repeat split; [right; lia | now left | exact Hp].
      * specialize (IH (i + 1)%Z new_lines1 ext_line legal_line).
        destruct (scan rest (i + 1) new_lines1 ext_line legal_line)
          as [[nl e] l]. destruct IH as (Hl & He & Hn).
        repeat split.
        -- destruct Hl as [Hl | Hl]; [now left | right; lia].
        -- destruct He as [He | He]; [now left | right; lia].
        -- intros H0. apply Hn, Hp, H0.
Qed.

Lemma getitem_in_range {A} (l : list A) (i : Z) :
  (0 <= i < Z.of_nat (length l))%Z ->
  exists x, getitem l i = Return x.
Proof.
  intros Hi. unfold getitem.
  destruct (i <? 0)%Z eqn:Hneg; [apply Z.ltb_lt in Hneg; lia|].
  rewrite Hneg.
  destruct (lookup_lt_is_Some_2 l (Z.to_nat i) ltac:(lia)) as (x & Hx).
  rewrite Hx. now exists x.
Qed.

(** The second loop on indices of the list. *)
Lemma extension_lines_spec (lines : list string) :
  forall (indices : list Z) (new_lines : list string),
    Forall (fun i => (0 <= i < Z.of_nat (length lines))%Z) indices ->
    exists more,
      extension_lines lines indices new_lines = Return (new_lines ++ more)
      /\ Forall is_normalized more.
Proof.
  induction indices as [|i indices IH]; intros new_lines Hin.
  - exists []. rewrite app_nil_r. split; [reflexivity | constructor].
  - apply Forall_cons in Hin as (Hi & Hin).
    destruct (getitem_in_range lines i Hi) as (x & Hx).
    cbn [extension_lines]. rewrite Hx. cbn [obind].
    destruct (Py.contains "python location" (Py.lower x)
              || Py.contains "extensions directory" (Py.lower x)).
    + exists []. rewrite app_nil_r. split; [reflexivity | constructor].
    + destruct (IH (new_lines ++ [Py.join " " (Py.split_ws x)]) Hin)
        as (more & Hrun & Hmore).
      exists (Py.join " " (Py.split_ws x) :: more).
      rewrite Hrun, <- app_assoc. split; [reflexivity|].
      constructor; [apply normalized_join_split | exact Hmore].
Qed.

(** The summary is always made, and its lines are normalized. *)
Theorem az_version_summary_normalized (az_vers_string : string) :
  exists new_lines,
    _get_az_version_summary az_vers_string = Return (Py.join Py.NL new_lines)
    /\ Forall is_normalized new_lines
    /\ In EmptyString new_lines.
Proof.
  unfold _get_az_version_summary.
  pose proof (scan_spec (Py.splitlines az_vers_string) 0 [] (-1) (-1)) as Hscan.
  destruct (scan (Py.splitlines az_vers_string) 0 [] (-1) (-1))
    as [[new_lines ext_line] legal_line].
  destruct Hscan as (Hlegal & Hext & Hn). specialize (Hn ltac:(constructor)).
  assert (Hn1 : Forall is_normalized (new_lines ++ [EmptyString])).
  { apply Forall_app. split; [exact Hn|].
    constructor; [apply normalized_empty | constructor]. }
  destruct ((0 <? ext_line)%Z && (ext_line <? legal_line)%Z) eqn:Hcond.
  - apply andb_true_iff in Hcond as (H0 & H1).
    apply Z.ltb_lt in H0. apply Z.ltb_lt in H1.
    destruct (extension_lines_spec (Py.splitlines az_vers_string)
                (seqZ ext_line (legal_line - ext_line))
                (new_lines ++ [EmptyString])) as (more & Hrun & Hmore).
    { apply Forall_forall. intros i Hi. apply elem_of_seqZ in Hi. lia. }
    exists ((new_lines ++ [EmptyString]) ++ more). rewrite Hrun. cbn [obind].
    split; [reflexivity|]. split.
    + apply Forall_app. now split.
    + apply in_or_app. left. apply in_or_app. right. now left.
  - exists (new_lines ++ [EmptyString]). cbn [obind].
    split; [reflexivity|]. split; [exact Hn1|].
    apply in_or_app. right. now left.
Qed.

End VersionSummary.

(* ================================================================== *)
(** * The choice of the issue *)
(* ================================================================== *)

Section PromptFacts.
Context `{Azlogging} `{OS} `{Platform}.

(** The first loop stops at the first answer it can use. *)
Lemma prompt_for_command_first (max_idx : Z) (help_string : string)
    (ans : string) (rest : list string) (a : answer) :
  forall (asked : list string) (st : store),
    Forall (fun ans => chosen max_idx ans = None) asked ->
    chosen max_idx ans = Some a ->
    prompt_for_command max_idx help_string (asked ++ ans :: rest) st
    = (Return a, add_log st (warnings_for help_string asked)).
Proof.
  induction asked as [|x asked IH]; intros st Hasked Hans.
  - cbn [app prompt_for_command warnings_for List.filter map].
    rewrite add_log_nil. unfold chosen in Hans.
    destruct (bool_decide (Py.lower ans ∈ ["q"; "quit"])).
    + injection Hans as <-. reflexivity.
    + destruct (Py.int ans) as [n|]; [|discriminate].
      destruct ((0 <=? n)%Z && (n <=? max_idx)%Z) eqn:Hn; [|discriminate].
      injection Hans as <-.
      apply andb_true_iff in Hn as (Hlo & Hhi).
      apply Z.leb_le in Hlo. apply Z.leb_le in Hhi.
      replace ((n <? 0)%Z || (max_idx <? n)%Z) with false; [reflexivity|].
      symmetry. apply orb_false_iff. split; apply Z.ltb_ge; lia.
  - apply Forall_cons in Hasked as (Hx & Hasked).
    cbn [app prompt_for_command]. unfold chosen in Hx.
    unfold warnings_for. cbn [List.filter].
    destruct (bool_decide (Py.lower x ∈ ["q"; "quit"])); [discriminate|].
    cbn [negb andb].
    destruct (Py.int x) as [n|].
    + destruct ((0 <=? n)%Z && (n <=? max_idx)%Z) eqn:Hn; [discriminate|].
      replace ((n <? 0)%Z || (max_idx <? n)%Z) with true.
      2:{ symmetry. apply andb_false_iff in Hn as [Hn | Hn];
            apply Z.leb_gt in Hn; apply orb_true_iff;
            [left | right]; apply Z.ltb_lt; lia. }
      replace (bool_decide (is_Some (Some n))) with true
        by (symmetry; apply bool_decide_eq_true; eauto).
      cbn [negb]. apply IH; assumption.
    + replace (bool_decide (is_Some (@None Z))) with false
        by (symmetry; apply bool_decide_eq_false; intros [? ?]; discriminate).
      cbn [negb map]. unfold bind, logger.
      rewrite (IH _ Hasked Hans). unfold add_log, warnings_for.
      cbn [lists minifiers logfiles log]. now rewrite <- app_assoc.
Qed.

(** With no answer it can use, the first loop waits for ever. *)
Lemma prompt_for_command_waits (max_idx : Z) (help_string : string) :
  forall (asked : list string) (st : store),
    Forall (fun ans => chosen max_idx ans = None) asked ->
    fst (prompt_for_command max_idx help_string asked st) = OutOfFuel.
Proof.
  induction asked as [|x asked IH]; intros st Hasked; [reflexivity|].
  apply Forall_cons in Hasked as (Hx & Hasked).
  cbn [prompt_for_command]. unfold chosen in Hx.
  destruct (bool_decide (Py.lower x ∈ ["q"; "quit"])); [discriminate|].
  destruct (Py.int x) as [n|].
  - destruct ((0 <=? n)%Z && (n <=? max_idx)%Z) eqn:Hn; [discriminate|].
    replace ((n <? 0)%Z || (max_idx <? n)%Z) with true.
    2:{ symmetry. apply andb_false_iff in Hn as [Hn | Hn];
          apply Z.leb_gt in Hn; apply orb_true_iff;
          [left | right]; apply Z.ltb_lt; lia. }
    now apply IH.
  - unfold bind, logger.
    specialize (IH (mkStore (lists st) (minifiers st) (logfiles st)
                      (log st ++ [(WARNING, help_string)])) Hasked).
    destruct (prompt_for_command max_idx help_string asked _) as [[a|e|] st1];
      cbn [fst] in IH; try discriminate. reflexivity.
Qed.

Lemma getitem_lookup {A} (l : list A) (i : Z) (x : A) :
  (0 <= i)%Z -> l !! Z.to_nat i = Some x -> getitem l i = Return x.
Proof.
  intros Hi Hx. unfold getitem.
  destruct (i <? 0)%Z eqn:Hneg; [apply Z.ltb_lt in Hneg; lia|].
  rewrite Hneg, Hx. reflexivity.
Qed.

Lemma chosen_cases (max_idx : Z) (ans : string) (a : answer) :
  chosen max_idx ans = Some a ->
  match a with
  | AnsStr s => s = "q" \/ s = "quit"
  | AnsInt n => (0 <= n <= max_idx)%Z
  end.
Proof.
  unfold chosen.
  destruct (bool_decide (Py.lower ans ∈ ["q"; "quit"])) eqn:Hq.
  - intros Ha. injection Ha as <-. apply bool_decide_eq_true in Hq.
    apply elem_of_cons in Hq as [Hq | Hq]; [now left|].
    apply elem_of_cons in Hq as [Hq | Hq]; [now right|].
    now apply elem_of_nil in Hq.
  - destruct (Py.int ans) as [n|]; [|discriminate].
    destruct ((0 <=? n)%Z && (n <=? max_idx)%Z) eqn:Hn; [|discriminate].
    intros Ha. injection Ha as <-.
    apply andb_true_iff in Hn as (Hlo & Hhi).
    apply Z.leb_le in Hlo. apply Z.leb_le in Hhi. lia.
Qed.

(** With recent commands, the first answer that can be used decides,
    and the index is in range. *)
Theorem prompt_issue_with_commands (fuel : nat)
    (recent_command_list : list (option loc)) (asked : list string)
    (ans : string) (rest : list string) (a : answer) (st : store) :
  let max_idx := (Z.of_nat (length recent_command_list) - 1)%Z in
  let help_string :=
    "Please choose between 0 and " +:+ pretty max_idx
    +:+ ", or enter q to quit: " in
  let st1 := add_log st (warnings_for help_string asked) in
  recent_command_list <> [] ->
  Forall (fun ans => chosen max_idx ans = None) asked ->
  chosen max_idx ans = Some a ->
  match a with
  | AnsStr _ =>
      _prompt_issue fuel recent_command_list (asked ++ ans :: rest) st
      = (Return (false, []), st1)
  | AnsInt n =>
      exists command_log_file,
        recent_command_list !! Z.to_nat n = Some command_log_file
        /\ _prompt_issue fuel recent_command_list (asked ++ ans :: rest) st
           = (issue <- _build_issue_info_tup fuel
                         (if (n =? 0)%Z then None else command_log_file) ;;
              report_issue issue) st1
  end.
Proof.
  intros max_idx help_string st1 Hne Hasked Hans.
  pose proof (prompt_for_command_first max_idx help_string ans rest a asked st
                Hasked Hans) as Hloop.
  pose proof (chosen_cases max_idx ans a Hans) as Hcases.
  assert (Hrun : forall a',
    prompt_for_command max_idx help_string (asked ++ ans :: rest) st
    = (Return a', st1) ->
    _prompt_issue fuel recent_command_list (asked ++ ans :: rest) st
    = (if answer_in a' ["y"; "n"] then
         if answer_in a' ["y"] then
           issue <- _build_issue_info_tup fuel None ;; report_issue issue
         else ret (false, [])
       else if answer_in a' ["q"; "quit"] then ret (false, [])
       else if answer_is_zero a' then
         issue <- _build_issue_info_tup fuel None ;; report_issue issue
       else
         match a' with
         | AnsInt ans =>
             command_log_file <- lift (getitem recent_command_list ans) ;;
             issue <- _build_issue_info_tup fuel command_log_file ;;
             report_issue issue
         | AnsStr _ => raise AttributeError
         end) st1).
  { intros a' Ha'. unfold _prompt_issue.
    rewrite bool_decide_eq_false_2 by exact Hne. cbn [negb]. cbv zeta.
    fold max_idx. fold help_string.
    unfold bind at 1. rewrite Ha'. reflexivity. }
  destruct a as [n | s].
  - destruct (lookup_lt_is_Some_2 recent_command_list (Z.to_nat n))
      as (clf & Hclf).
    { unfold max_idx in Hcases. lia. }
    exists clf. split; [exact Hclf|].
    rewrite (Hrun _ Hloop). cbn [answer_in answer_is_zero].
    destruct (n =? 0)%Z eqn:Hzero; [reflexivity|].
    unfold bind at 1, lift.
    rewrite (getitem_lookup recent_command_list n clf ltac:(lia) Hclf).
    reflexivity.
  - rewrite (Hrun _ Hloop). destruct Hcases as [-> | ->]; reflexivity.
Qed.

Lemma lower_take (n : nat) (s : string) :
  Py.lower (Py.take n s) = Py.take n (Py.lower s).
Proof.
  revert s. induction n as [|n IH]; intros [|c s]; try reflexivity.
  cbn [Py.take Py.lower]. now rewrite IH.
Qed.

(** The second loop stops at the first of its words. *)
Lemma prompt_yes_no_first (ans : string) (rest : list string) :
  forall (asked : list string) (st : store),
    Forall (fun ans => is_yes_no ans = false) asked ->
    is_yes_no ans = true ->
    prompt_yes_no (asked ++ ans :: rest) st
    = (Return (AnsStr (Py.take 1 (Py.lower ans))), st).
Proof.
  induction asked as [|x asked IH]; intros st Hasked Hans.
  - cbn [app prompt_yes_no]. unfold is_yes_no in Hans. rewrite Hans.
    cbn [negb]. rewrite lower_take.
    apply bool_decide_eq_true in Hans.
    assert (Hne : ans <> EmptyString).
    { intros ->. repeat (apply elem_of_cons in Hans as [Hans | Hans];
                         [discriminate|]).
      now apply elem_of_nil in Hans. }
    apply String.eqb_neq in Hne. rewrite Hne. cbn [negb].
    repeat (apply elem_of_cons in Hans as [Hans | Hans];
            [rewrite Hans; reflexivity|]).
    now apply elem_of_nil in Hans.
  - apply Forall_cons in Hasked as (Hx & Hasked).
    cbn [app prompt_yes_no]. unfold is_yes_no in Hx. rewrite Hx. cbn [negb].
    now apply IH.
Qed.

(** Without recent commands, the first of the five words decides. *)
Theorem prompt_issue_without_commands (fuel : nat) (asked : list string)
    (ans : string) (rest : list string) (st : store) :
  Forall (fun ans => is_yes_no ans = false) asked ->
  is_yes_no ans = true ->
  _prompt_issue fuel [] (asked ++ ans :: rest) st
  = if bool_decide (Py.lower ans ∈ ["y"; "yes"])
    then (issue <- _build_issue_info_tup fuel None ;; report_issue issue) st
    else (Return (false, []), st).
Proof.
  intros Hasked Hans.
  unfold _prompt_issue. cbn [negb bool_decide]. 
  rewrite bool_decide_eq_true_2 by reflexivity. cbn [negb].
  unfold bind at 1. rewrite (prompt_yes_no_first ans rest asked st Hasked Hans).
  unfold is_yes_no in Hans. apply bool_decide_eq_true in Hans.
  repeat (apply elem_of_cons in Hans as [Hans | Hans];
          [rewrite Hans; reflexivity|]).
  now apply elem_of_nil in Hans.
Qed.

End PromptFacts.

Lemma prompt_issue_with_commands_witness :
  let recent_command_list := [None; Some 0%nat] in
  let st := @Scenario.with_logfile Scenario.azlogging Scenario.os_small_log
              Scenario.small_log_path in
  let max_idx := (Z.of_nat (length recent_command_list) - 1)%Z in
  let help_string :=
    "Please choose between 0 and " +:+ pretty max_idx
    +:+ ", or enter q to quit: " in
  let st1 := add_log st (warnings_for help_string ["x"; "7"; "-1"]) in
  exists command_log_file,
    recent_command_list !! Z.to_nat 1 = Some command_log_file
    /\ @_prompt_issue Scenario.azlogging Scenario.os_small_log
         Scenario.platform 25 recent_command_list
         (["x"; "7"; "-1"] ++ " 1" :: []) st
       = (issue <- @_build_issue_info_tup Scenario.azlogging
                     Scenario.os_small_log Scenario.platform 25
                     (if (1 =? 0)%Z then None else command_log_file) ;;
          @report_issue issue) st1.
Proof.
  apply (@prompt_issue_with_commands Scenario.azlogging Scenario.os_small_log
           Scenario.platform 25 [None; Some 0%nat] ["x"; "7"; "-1"] " 1" []
           (AnsInt 1)
           (@Scenario.with_logfile Scenario.azlogging Scenario.os_small_log
              Scenario.small_log_path)).
  - discriminate.
  - repeat (constructor; [vm_compute; reflexivity|]). constructor.
  - vm_compute. reflexivity.
Defined.

Lemma prompt_issue_without_commands_witness :
  @_prompt_issue Scenario.azlogging Scenario.os_small_log Scenario.platform
    25 [] (["maybe"; ""] ++ "No" :: []) empty_store
  = if bool_decide (Py.lower "No" ∈ ["y"; "yes"])
    then (issue <- @_build_issue_info_tup Scenario.azlogging
                     Scenario.os_small_log Scenario.platform 25 None ;;
          @report_issue issue) empty_store
    else (Return (false, []), empty_store).
Proof.
  apply (@prompt_issue_without_commands Scenario.azlogging
           Scenario.os_small_log Scenario.platform 25 ["maybe"; ""] "No" []
           empty_store).
  - repeat (constructor; [vm_compute; reflexivity|]). constructor.
  - vm_compute. reflexivity.
Defined.

(* ================================================================== *)
(** * Lines that make the reading of a log fail *)
(* ================================================================== *)

Section BadLines.
Context `{Azlogging}.
Import CommandLogFile.

(** A line raises exactly when its first field is not an integer,
    whatever the process id. *)
Lemma get_info_raises_iff (line : string) (p_id : Z) :
  (bad_pid_field line = true ->
   _get_info_from_log_line line p_id = Raise ValueError)
  /\ (bad_pid_field line = false ->
      exists r, _get_info_from_log_line line p_id = Return r).
Proof.
  unfold bad_pid_field, _get_info_from_log_line.
  destruct (Py.startswith line _CMD_LOG_LINE_PREFIX); cbn [negb andb].
  2:{ split; [discriminate | eauto]. }
  destruct (Py.split_max "|" 4 _) as [|f0 [|f1 [|f2 [|f3 [|f4 [|f5 l]]]]]];
    cbn [length Nat.eqb negb]; try (split; [discriminate | eauto]).
  destruct (Py.int (Py.strip f0)) as [n|].
  - replace (bool_decide (is_Some (Some n))) with true
      by (symmetry; apply bool_decide_eq_true; eauto).
    split; [discriminate|]. intros _.
    destruct (negb (n =? p_id)%Z); eauto.
  - replace (bool_decide (is_Some (@None Z))) with false
      by (symmetry; apply bool_decide_eq_false; intros [? ?]; discriminate).
    split; [reflexivity | discriminate].
Qed.

Lemma log_record_loop_returns (p_id : Z) :
  forall (lines : list string) prev acc,
    Forall (fun line => bad_pid_field line = false) lines ->
    exists final, _get_log_record_list_loop lines p_id prev acc = Return final.
Proof.
  induction lines as [|line lines IH]; intros prev acc Hgood.
  - eexists. reflexivity.
  - apply Forall_cons in Hgood as (Hline & Hgood).
    destruct (get_info_raises_iff line p_id) as (_ & Hret).
    destruct (Hret Hline) as (r & Hr).
    cbn [_get_log_record_list_loop]. rewrite Hr. cbn [obind].
    destruct r as [new_record|]; [now apply IH|].
    destruct prev; now apply IH.
Qed.

Lemma log_record_loop_raises (p_id : Z) :
  forall (lines : list string) prev acc,
    Exists (fun line => bad_pid_field line = true) lines ->
    _get_log_record_list_loop lines p_id prev acc = Raise ValueError.
Proof.
  induction lines as [|line lines IH]; intros prev acc Hbad.
  - inversion Hbad.
  - cbn [_get_log_record_list_loop].
    destruct (get_info_raises_iff line p_id) as (Hraise & Hret).
    destruct (bad_pid_field line) eqn:Hline.
    + rewrite (Hraise eq_refl). reflexivity.
    + apply Exists_cons in Hbad as [Hnow | Hlater]; [congruence|].
      destruct (Hret eq_refl) as (r & Hr). rewrite Hr. cbn [obind].
      destruct r as [new_record|]; [now apply IH|].
      destruct prev; now apply IH.
Qed.

(** The two outcomes of [_get_log_record_list]. *)
Lemma log_record_list_outcome (lines : list string) (p_id : Z) :
  (Exists (fun line => bad_pid_field line = true) lines ->
   _get_log_record_list lines p_id = Raise ValueError)
  /\ (~ Exists (fun line => bad_pid_field line = true) lines ->
      exists rs, _get_log_record_list lines p_id = Return rs).
Proof.
  split.
  - intros Hsome. unfold _get_log_record_list.
    now rewrite (log_record_loop_raises p_id lines None [] Hsome).
  - intros Hnone.
    destruct (log_record_loop_returns p_id lines None []) as ([prev acc] & Hrun).
    { apply Forall_forall. intros line Hin.
      destruct (bad_pid_field line) eqn:Hline; [|reflexivity].
      exfalso. apply Hnone. apply Exists_exists. eauto. }
    unfold _get_log_record_list. rewrite Hrun. cbn [obind].
    destruct prev; eauto.
Qed.

(** Which log files make [_get_log_record_list] raise. *)
Theorem log_record_list_raises_iff (lines : list string) (p_id : Z) :
  (_get_log_record_list lines p_id = Raise ValueError
   <-> Exists (fun line => bad_pid_field line = true) lines)
  /\ (~ Exists (fun line => bad_pid_field line = true) lines ->
      exists rs, _get_log_record_list lines p_id = Return rs).
Proof.
  assert (Hret :
    ~ Exists (fun line => bad_pid_field line = true) lines ->
    exists rs, _get_log_record_list lines p_id = Return rs).
  { intros Hnone.
    destruct (log_record_loop_returns p_id lines None []) as ([prev acc] & Hrun).
    { apply Forall_forall. intros line Hin.
      destruct (bad_pid_field line) eqn:Hline; [|reflexivity].
      exfalso. apply Hnone. apply Exists_exists. eauto. }
    unfold _get_log_record_list. rewrite Hrun. cbn [obind].
    destruct prev; eauto. }
  split; [|exact Hret]. split.
  - intros Hraise.
    destruct (decide (Exists (fun line => bad_pid_field line = true) lines))
      as [Hsome | Hnone]; [exact Hsome|].
    destruct (Hret Hnone) as (rs & Hrs). congruence.
  - intros Hsome. unfold _get_log_record_list.
    now rewrite (log_record_loop_raises p_id lines None [] Hsome).
Qed.

End BadLines.

Section BadLogFiles.
Context `{Azlogging} `{OS}.
Import CommandLogFile CommandLogFileObj.

(** Which log files make [command_data_dict] raise. *)
Theorem command_data_dict_raises_iff (self : loc) (o : CommandLogFileObj.t)
    (md : LogMetadata.t) (st : store) :
  logfiles st !! self = Some o ->
  _metadata o = Some md ->
  _data o = None ->
  let bad :=
    exists log_fp,
      open_lines (LogMetadata.file_path md) = Some log_fp
      /\ Exists (fun line => bad_pid_field line = true) log_fp in
  (fst (command_data_dict self st) = Raise ValueError <-> bad)
  /\ (~ bad -> exists d, fst (command_data_dict self st) = Return d).
Proof.
  intros Hself Hmd Hdata bad.
  assert (Hdict :
    command_data_dict self st
    = (d <- _get_command_data_from_metadata self ;;
       write_logfile self
         (mk (_command_name o) (_log_file_path o) (_time_now o) (_metadata o)
            (Some d)) ;;;
       ret d) st).
  { unfold command_data_dict, bind at 1, read_logfile.
    now rewrite Hself, Hdata. }
  assert (Hget :
    _get_command_data_from_metadata self st
    = match open_lines (LogMetadata.file_path md) with
      | None =>
          (logger DEBUG ("Failed to open command log file "
                         +:+ LogMetadata.file_path md) ;;;
           ret CommandData.empty) st
      | Some log_fp =>
          (log_record_list <-
             lift (_get_log_record_list log_fp (LogMetadata.p_id md)) ;;
           match log_record_list with
           | [] =>
               logger DEBUG
                 ("No command log messages found in file "
                  +:+ LogMetadata.file_path md) ;;;
               ret CommandData.empty
           | _ =>
               log_data <- data_exit_code (LogMetadata.file_path md)
                             log_record_list CommandData.empty ;;
               log_data <- data_records log_record_list log_data ;;
               data_command_args (LogMetadata.file_path md) log_record_list
                 log_data
           end) st
      end).
  { unfold _get_command_data_from_metadata, metadata_tup, bind at 1,
      bind at 1, read_logfile.
    rewrite Hself. unfold ret at 1. rewrite Hmd. cbv zeta.
    now destruct (open_lines (LogMetadata.file_path md)). }
  assert (Hraise : bad -> fst (command_data_dict self st) = Raise ValueError).
  { intros (log_fp & Hopen & Hbad).
    rewrite Hdict. unfold bind at 1. rewrite Hget, Hopen.
    unfold bind at 1, lift.
    destruct (log_record_list_outcome log_fp (LogMetadata.p_id md))
      as (Hr & _).
    rewrite (Hr Hbad). reflexivity. }
  assert (Hret : ~ bad -> exists d, fst (command_data_dict self st) = Return d).
  { intros Hgood. rewrite Hdict. unfold bind at 1. rewrite Hget.
    destruct (open_lines (LogMetadata.file_path md)) as [log_fp|] eqn:Hopen.
    - destruct (log_record_list_outcome log_fp (LogMetadata.p_id md))
        as (_ & Hr).
      destruct Hr as (rs & Hrs).
      { intros Hbad. apply Hgood. exists log_fp. now split. }
      destruct rs as [|record rest] eqn:Ers.
      + unfold bind at 1, lift. rewrite Hrs.
        unfold bind, logger, write_logfile, ret. eauto.
      + destruct (command_data_from_records self o md log_fp rs st
                    Hself Hmd Hopen) as (notes & Hrun & _).
        { now rewrite Ers. }
        { rewrite Ers. discriminate. }
        rewrite <- Hget, Hrun. unfold bind, write_logfile, ret. eauto.
    - unfold bind, logger, write_logfile, ret. eauto. }
  split; [|exact Hret]. split; [|exact Hraise].
  intros Hr.
  destruct (open_lines (LogMetadata.file_path md)) as [log_fp|] eqn:Hopen.
  - destruct (decide (Exists (fun line => bad_pid_field line = true) log_fp))
      as [Hbad | Hgood].
    + exists log_fp. now split.
    + destruct Hret as (d & Hd); [|congruence].
      intros (log_fp' & Hopen' & Hbad'). congruence.
  - destruct Hret as (d & Hd); [|congruence].
    intros (log_fp' & Hopen' & _). congruence.
Qed.

End BadLogFiles.

Lemma command_data_dict_raises_iff_witness :
  let bad :=
    exists log_fp,
      @open_lines Scenario.os_small_log Scenario.small_log_path = Some log_fp
      /\ Exists (fun line => @bad_pid_field Scenario.azlogging line = true)
           log_fp in
  (fst (@CommandLogFile.command_data_dict Scenario.azlogging
          Scenario.os_small_log 0%nat
          (@Scenario.with_logfile Scenario.azlogging Scenario.os_small_log
             Scenario.small_log_path))
   = Raise ValueError <-> bad)
  /\ (~ bad ->
      exists d,
        fst (@CommandLogFile.command_data_dict Scenario.azlogging
               Scenario.os_small_log 0%nat
               (@Scenario.with_logfile Scenario.azlogging
                  Scenario.os_small_log Scenario.small_log_path))
        = Return d).
Proof.
  apply (@command_data_dict_raises_iff Scenario.azlogging
           Scenario.os_small_log 0%nat
           (CommandLogFileObj.mk None Scenario.small_log_path
              Scenario.midnight
              (Some (LogMetadata.mk "az vm create"
                       (Datetime.total_seconds Scenario.midnight
                          (Datetime.mk 2019 1 1 12 0 0 0))
                       Scenario.small_log_path 12))
              None)
           (LogMetadata.mk "az vm create"
              (Datetime.total_seconds Scenario.midnight
                 (Datetime.mk 2019 1 1 12 0 0 0))
              Scenario.small_log_path 12)).
  - vm_compute. reflexivity.
  - reflexivity.
  - reflexivity.
Defined.

(* ================================================================== *)
(** * Padding the columns of the recent commands *)
(* ================================================================== *)

Section PadString.

Lemma mul_space_succ (n : nat) :
  " " +:+ Py.mul " " n = Py.mul " " (S n).
Proof. reflexivity. Qed.

(** [_pad_string] ends and pads on the right. *)
Theorem pad_string_pads (fuel : nat) (my_str : string) (pad_len : Z) :
  (pad_len - Py.len my_str <= Z.of_nat fuel)%Z ->
  _pad_string fuel my_str pad_len
  = Return (my_str +:+ Py.mul " " (Z.to_nat (pad_len - Py.len my_str)))
  /\ Py.len (my_str +:+ Py.mul " " (Z.to_nat (pad_len - Py.len my_str)))
     = Z.max (Py.len my_str) pad_len.
Proof.
  intros Hfuel. split.
  - revert my_str Hfuel.
    induction fuel as [|fuel IH]; intros my_str Hfuel; cbn [_pad_string];
      destruct (Py.len my_str <? pad_len)%Z eqn:Hlt.
    + apply Z.ltb_lt in Hlt. lia.
    + apply Z.ltb_ge in Hlt.
      replace (Z.to_nat (pad_len - Py.len my_str)) with 0%nat by lia.
      cbn [Py.mul]. now rewrite append_empty_r.
    + apply Z.ltb_lt in Hlt.
      assert (Hlen : Py.len (my_str +:+ " ") = (Py.len my_str + 1)%Z).
      { unfold Py.len. rewrite length_append. cbn [String.length]. lia. }
      rewrite IH by (rewrite Hlen; lia).
      rewrite Hlen, append_assoc.
      replace (Z.to_nat (pad_len - Py.len my_str))
        with (S (Z.to_nat (pad_len - (Py.len my_str + 1)))) by lia.
      reflexivity.
    + apply Z.ltb_ge in Hlt.
      replace (Z.to_nat (pad_len - Py.len my_str)) with 0%nat by lia.
      cbn [Py.mul]. now rewrite append_empty_r.
  - unfold Py.len. rewrite length_append.
    assert (Hmul : forall n, String.length (Py.mul " " n) = n).
    { induction n as [|n IHn]; [reflexivity|].
      cbn [Py.mul]. rewrite length_append, IHn. reflexivity. }
    rewrite Hmul. unfold Py.len. lia.
Qed.

End PadString.

Lemma pad_string_pads_witness :
  _pad_string 4 "az vm" 8
  = Return ("az vm" +:+ Py.mul " " (Z.to_nat (8 - Py.len "az vm")))
  /\ Py.len ("az vm" +:+ Py.mul " " (Z.to_nat (8 - Py.len "az vm")))
     = Z.max (Py.len "az vm") 8.
Proof.
  apply (pad_string_pads 4 "az vm" 8). vm_compute. discriminate.
Defined.

(* ================================================================== *)
(** * The last resort always ends *)
(* ================================================================== *)

Section LastResortEnds.
Import ErrorMinifier ErrorMinifierObj.

Lemma line_breaks_append (a b : string) :
  line_breaks (a +:+ b) = (line_breaks a + line_breaks b)%nat.
Proof.
  induction a as [|c a IH]; [reflexivity|].
  rewrite append_cons. cbn [line_breaks]. rewrite IH. lia.
Qed.

Lemma line_breaks_le_length (s : string) :
  (line_breaks s <= String.length s)%nat.
Proof.
  induction s as [|c s IH]; [reflexivity|]. cbn [line_breaks String.length].
  destruct (Py.is_linebreak c); lia.
Qed.

Lemma cons_first_no_breaks (c : ascii) (lines : list string) :
  Py.is_linebreak c = false ->
  Forall (fun l => line_breaks l = O) lines ->
  Forall (fun l => line_breaks l = O) (Py.cons_first c lines).
Proof.
  intros Hc Hl. destruct lines as [|x xs]; cbn [Py.cons_first].
  - constructor; [|constructor]. cbn [line_breaks]. now rewrite Hc.
  - apply Forall_cons in Hl as (Hx & Hxs). constructor; [|exact Hxs].
    cbn [line_breaks]. now rewrite Hc, Hx.
Qed.

(** The lines of [splitlines] have no boundary, and there is at most one
    more line than boundaries. *)
Lemma splitlines_lines :
  forall (n : nat) (s : string),
    (String.length s <= n)%nat ->
    Forall (fun l => line_breaks l = O) (Py.splitlines s)
    /\ (length (Py.splitlines s) <= line_breaks s + 1)%nat.
Proof.
  induction n as [|n IH]; intros [|c s] Hn; cbn [String.length] in Hn;
    try lia; try (split; [constructor | cbn; lia]).
  cbn [Py.splitlines line_breaks].
  destruct (Py.is_linebreak c) eqn:Hc.
  - destruct s as [|c2 s2].
    + split; [repeat constructor | cbn; lia].
    + destruct (Ascii.eqb c Py.CR && Ascii.eqb c2 Py.LF).
      * destruct (IH s2 ltac:(cbn [String.length] in Hn; lia)) as (Hf & Hl).
        split; [constructor; [reflexivity | exact Hf]|].
        cbn [length line_breaks]. destruct (Py.is_linebreak c2); lia.
      * destruct (IH (String c2 s2) ltac:(lia)) as (Hf & Hl).
        split; [constructor; [reflexivity | exact Hf]|].
        cbn [length]. lia.
  - destruct (IH s ltac:(lia)) as (Hf & Hl).
    split; [now apply cons_first_no_breaks|].
    destruct (Py.splitlines s) as [|x xs]; cbn [Py.cons_first length] in *; lia.
Qed.

Lemma splitlines_no_breaks (s : string) :
  Forall (fun l => line_breaks l = O) (Py.splitlines s).
Proof. exact (proj1 (splitlines_lines (String.length s) s (le_n _))). Qed.

Lemma length_splitlines (s : string) :
  (length (Py.splitlines s) <= line_breaks s + 1)%nat.
Proof. exact (proj2 (splitlines_lines (String.length s) s (le_n _))). Qed.

Lemma line_breaks_join (lines : list string) :
  Forall (fun l => line_breaks l = O) lines ->
  line_breaks (Py.join Py.NL lines) = (length lines - 1)%nat.
Proof.
  induction lines as [|x [|y rest] IH]; intros Hl.
  - reflexivity.
  - apply Forall_cons in Hl as (Hx & _). cbn [Py.join length]. lia.
  - apply Forall_cons in Hl as (Hx & Hl).
    change (Py.join Py.NL (x :: y :: rest))
      with (x +:+ Py.NL +:+ Py.join Py.NL (y :: rest)).
    rewrite !line_breaks_append, (IH Hl), Hx. cbn [length].
    change (line_breaks Py.NL) with 1%nat. lia.
Qed.

Lemma replace_from_skip (old new : string) :
  forall (s : string) (k : nat),
    Py.replace_from old new k s = Py.replace_from old new O (Py.drop k s).
Proof.
  induction s as [|c s IH]; intros [|k]; try reflexivity.
  cbn [Py.replace_from Py.drop]. apply IH.
Qed.

Lemma startswith_split (s p : string) :
  Py.startswith s p = true -> s = p +:+ Py.drop (String.length p) s.
Proof.
  revert s. induction p as [|a p IH]; intros s Hs.
  - now destruct s.
  - destruct s as [|b s]; [discriminate|]. cbn [Py.startswith] in Hs.
    apply andb_true_iff in Hs as (Hab & Hs). apply Ascii.eqb_eq in Hab.
    subst b. rewrite append_cons. cbn [String.length Py.drop].
    f_equal. now apply IH.
Qed.

(** Taking out the occurrences of a text takes out their boundaries. *)
Lemma line_breaks_replace (old : string) :
  old <> EmptyString ->
  forall (n : nat) (s : string),
    (String.length s <= n)%nat ->
    (line_breaks (Py.replace s old EmptyString)
     + (if Py.contains old s then line_breaks old else 0)
     <= line_breaks s)%nat.
Proof.
  intros Hold. unfold Py.replace.
  induction n as [|n IH]; intros [|c s] Hn; cbn [String.length] in Hn;
    try lia.
  - cbn. destruct old; [congruence | cbn; lia].
  - cbn. destruct old; [congruence | cbn; lia].
  - cbn [Py.replace_from Py.contains].
    destruct (Py.startswith (String c s) old) eqn:Hst.
    + cbn [orb]. rewrite append_empty_l, replace_from_skip.
      pose proof (startswith_split _ _ Hst) as Hsplit.
      pose proof (startswith_length _ _ Hst) as Hlen.
      assert (Hdrop : Py.drop (String.length old - 1) s
                      = Py.drop (String.length old) (String c s)).
      { destruct old as [|a old]; [congruence|].
        cbn [String.length Py.drop].
        replace (S (String.length old) - 1)%nat with (String.length old)
          by lia.
        reflexivity. }
      rewrite Hdrop.
      set (rest := Py.drop (String.length old) (String c s)) in *.
      assert (Hrest : (String.length rest <= n)%nat).
      { pose proof (f_equal String.length Hsplit) as Hl.
        rewrite length_append in Hl. cbn [String.length] in Hl.
        destruct old; [congruence | cbn [String.length] in Hl; lia]. }
      specialize (IH rest Hrest).
      clearbody rest. rewrite Hsplit, line_breaks_append. lia.
    + cbn [orb line_breaks]. specialize (IH s ltac:(lia)).
      destruct (Py.is_linebreak c); lia.
Qed.

Lemma replace_without (old new : string) (s : string) :
  Py.contains old s = false -> Py.replace s old new = s.
Proof.
  unfold Py.replace. induction s as [|c s IH]; intros Hc; [reflexivity|].
  cbn [Py.contains] in Hc. apply orb_false_iff in Hc as (Hst & Hc).
  cbn [Py.replace_from]. rewrite Hst. f_equal. now apply IH.
Qed.

(** The loop over the lines once it is past [mid]. *)
Lemma remove_lines_loop_after (mid : nat) :
  forall (lines : list string) (i : nat) (new_lines : list string),
    (mid < i)%nat ->
    remove_lines_loop mid i lines new_lines
    = new_lines ++ drop (mid + 4 - i) lines.
Proof.
  induction lines as [|line rest IH]; intros i new_lines Hi.
  - cbn [remove_lines_loop]. now rewrite drop_nil, app_nil_r.
  - cbn [remove_lines_loop].
    replace (i =? mid)%nat with false by (symmetry; apply Nat.eqb_neq; lia).
    replace (mid <=? i)%nat with true by (symmetry; apply Nat.leb_le; lia).
    cbn [andb].
    destruct (i <? mid + 4)%nat eqn:Hlt.
    + apply Nat.ltb_lt in Hlt. rewrite IH by lia.
      replace (mid + 4 - i)%nat with (S (mid + 4 - S i)) by lia.
      reflexivity.
    + apply Nat.ltb_ge in Hlt. rewrite IH by lia.
      replace (mid + 4 - S i)%nat with 0%nat by lia.
      replace (mid + 4 - i)%nat with 0%nat by lia.
      cbn [drop]. now rewrite <- app_assoc.
Qed.

(** The loop over the lines: those before [mid], the mark, and those
    from [mid + 4] on. *)
Lemma remove_lines_loop_before (mid : nat) :
  forall (lines : list string) (i : nat) (new_lines : list string),
    (i <= mid)%nat ->
    (mid < i + length lines)%nat ->
    remove_lines_loop mid i lines new_lines
    = new_lines ++ take (mid - i) lines ++ ["..."]
      ++ drop (mid + 4 - i) lines.
Proof.
  induction lines as [|line rest IH]; intros i new_lines Hi Hlen.
  - cbn [length] in Hlen. lia.
  - cbn [remove_lines_loop length] in *.
    destruct (i =? mid)%nat eqn:Heq.
    + apply Nat.eqb_eq in Heq. subst i.
      replace (mid <=? mid)%nat with true by (symmetry; apply Nat.leb_le; lia).
      replace (mid <? mid + 4)%nat with true
        by (symmetry; apply Nat.ltb_lt; lia).
      cbn [andb]. rewrite remove_lines_loop_after by lia.
      replace (mid - mid)%nat with 0%nat by lia.
      replace (mid + 4 - mid)%nat with (S (mid + 4 - S mid)) by lia.
      cbn [take drop app]. now rewrite <- app_assoc.
    + apply Nat.eqb_neq in Heq.
      replace (mid <=? i)%nat with false by (symmetry; apply Nat.leb_gt; lia).
      cbn [andb]. rewrite IH by lia.
      replace (mid - i)%nat with (S (mid - S i)) by lia.
      replace (mid + 4 - i)%nat with (S (mid + 4 - S i)) by lia.
      cbn [take drop]. now rewrite <- app_assoc.
Qed.

Lemma splitlines_one (x : string) :
  line_breaks x = O -> x <> EmptyString -> Py.splitlines x = [x].
Proof.
  induction x as [|c x IH]; intros Hb Hne; [congruence|].
  cbn [line_breaks] in Hb. cbn [Py.splitlines].
  destruct (Py.is_linebreak c); [lia|].
  destruct x as [|c2 x2]; [reflexivity|].
  rewrite IH by (lia || discriminate). reflexivity.
Qed.

Lemma splitlines_line (x t : string) :
  line_breaks x = O ->
  Py.splitlines (x +:+ Py.NL +:+ t) = x :: Py.splitlines t.
Proof.
  induction x as [|c x IH]; intros Hb.
  - rewrite append_empty_l. change (Py.NL +:+ t) with (String Py.LF t).
    cbn [Py.splitlines]. change (Py.is_linebreak Py.LF) with true. cbv iota.
    destruct t as [|c2 t2]; [reflexivity|].
    change (Ascii.eqb Py.LF Py.CR) with false. reflexivity.
  - cbn [line_breaks] in Hb. rewrite append_cons. cbn [Py.splitlines].
    destruct (Py.is_linebreak c); [lia|].
    rewrite IH by lia. reflexivity.
Qed.

(** [splitlines] undoes the join of lines without boundary, unless the
    last one is empty. *)
Lemma splitlines_join (lines : list string) :
  Forall (fun l => line_breaks l = O) lines ->
  last lines <> Some EmptyString ->
  Py.splitlines (Py.join Py.NL lines) = lines.
Proof.
  induction lines as [|x [|y rest] IH]; intros Hl Hlast.
  - reflexivity.
  - apply Forall_cons in Hl as (Hx & _). cbn [Py.join].
    apply splitlines_one; [exact Hx|]. intros ->. now apply Hlast.
  - apply Forall_cons in Hl as (Hx & Hl).
    change (Py.join Py.NL (x :: y :: rest))
      with (x +:+ Py.NL +:+ Py.join Py.NL (y :: rest)).
    rewrite splitlines_line by exact Hx. f_equal. apply IH; [exact Hl|].
    exact Hlast.
Qed.

Lemma contains_append_r (sub p t : string) :
  Py.contains sub t = true -> Py.contains sub (p +:+ t) = true.
Proof.
  intros Ht. induction p as [|c p IH]; [exact Ht|].
  rewrite append_cons. cbn [Py.contains]. rewrite IH. apply orb_true_r.
Qed.

Lemma contains_startswith (sub t : string) :
  Py.startswith t sub = true -> Py.contains sub t = true.
Proof. intros Hs. destruct t; cbn [Py.contains]; now rewrite Hs. Qed.

(** The mark before another line is followed by a newline. *)
Lemma join_with_mark (before after : list string) (b : string) :
  Py.contains _CONTINUATION_STR
    (Py.join Py.NL (before ++ "..." :: b :: after)) = true.
Proof.
  induction before as [|x before IH].
  - cbn [app].
    change (Py.join Py.NL ("..." :: b :: after))
      with ("..." +:+ Py.NL +:+ Py.join Py.NL (b :: after)).
    apply contains_startswith. rewrite <- append_assoc.
    apply startswith_append.
  - cbn [app].
    destruct (before ++ "..." :: b :: after) as [|y rest] eqn:Hrest.
    { destruct before; discriminate. }
    change (Py.join Py.NL (x :: y :: rest))
      with (x +:+ Py.NL +:+ Py.join Py.NL (y :: rest)).
    rewrite <- append_assoc. now apply contains_append_r.
Qed.

Lemma length_lines_of_step (lines : list string) :
  Forall (fun l => line_breaks l = O) lines ->
  (length (lines_of (Py.join Py.NL lines))
   + (if Py.contains _CONTINUATION_STR (Py.join Py.NL lines) then 1 else 0)
   <= length lines)%nat.
Proof.
  intros Hl. unfold lines_of.
  pose proof (length_splitlines
                (Py.replace (Py.join Py.NL lines) _CONTINUATION_STR EmptyString))
    as Hlen.
  pose proof (line_breaks_replace _CONTINUATION_STR ltac:(discriminate)
                _ (Py.join Py.NL lines) (le_n _)) as Hrep.
  rewrite (line_breaks_join lines Hl) in Hrep.
  change (line_breaks _CONTINUATION_STR) with 1%nat in Hrep.
  destruct lines as [|x rest].
  - reflexivity.
  - cbn [length] in *.
    destruct (Py.contains _CONTINUATION_STR (Py.join Py.NL (x :: rest))); lia.
Qed.

(** One turn of the last resort makes the measure smaller. *)
Lemma removing_lines_decreases (error_string s' : string) :
  _minify_by_removing_lines error_string = Return s' ->
  (removal_measure s' < removal_measure error_string)%nat.
Proof.
  unfold _minify_by_removing_lines. fold (lines_of error_string).
  set (lines := lines_of error_string).
  set (n := length lines).
  destruct (lines !! (n / 2 + 1)%nat) as [lines_mid|] eqn:Hmid;
    [|discriminate].
  cbn [or_raise obind]. fold (is_file_line lines_mid).
  intros Hs'. injection Hs' as Hs'.
  pose proof (lookup_lt_Some _ _ _ Hmid) as Hlt. fold n in Hlt.
  assert (Hn : (3 <= n)%nat).
  { destruct n as [|[|[|n']]]; cbn in Hlt; lia. }
  assert (Hdiv : (1 <= n / 2)%nat) by (apply Nat.div_le_lower_bound; lia).
  pose (mid := if negb (is_file_line lines_mid)
               then (n / 2 + 1 - 1)%nat else (n / 2 + 1)%nat).
  change (Py.join Py.NL (remove_lines_loop mid 0 lines []) = s') in Hs'.
  assert (Hmid_bounds : (1 <= mid < n)%nat).
  { unfold mid. destruct (negb (is_file_line lines_mid)); lia. }
  pose proof Hmid_bounds as Hmb. unfold n in Hmb.
  rewrite remove_lines_loop_before in Hs' by lia.
  rewrite Nat.sub_0_r in Hs'. cbn [app] in Hs'.
  replace (mid + 4 - 0)%nat with (mid + 4)%nat in Hs' by lia.
  set (new_lines := take mid lines ++ "..." :: drop (mid + 4) lines) in Hs'.
  assert (Hlines : Forall (fun l => line_breaks l = O) lines)
    by apply splitlines_no_breaks.
  assert (Hnew : Forall (fun l => line_breaks l = O) new_lines).
  { unfold new_lines. apply Forall_app. split.
    - now apply Forall_take.
    - constructor; [reflexivity | now apply Forall_drop]. }
  assert (Hcount : length new_lines = (mid + 1 + (n - (mid + 4)))%nat).
  { unfold new_lines. rewrite length_app. cbn [length].
    rewrite List.length_firstn, List.length_skipn. fold n. lia. }
  pose proof (length_lines_of_step new_lines Hnew) as Hstep.
  rewrite Hs', Hcount in Hstep.
  unfold removal_measure. fold lines. fold n.
  set (flag' := if default false (is_file_line <$> last (lines_of s'))
                then 1%nat else 0%nat).
  set (flag := if default false (is_file_line <$> last lines)
               then 1%nat else 0%nat).
  assert (Hflag' : (flag' <= 1)%nat) by (unfold flag'; destruct (default _ _); lia).
  destruct (drop (mid + 4) lines) as [|b after] eqn:Hdrop.
  - (* the mark is the last line *)
    assert (Hmid4 : (n <= mid + 4)%nat).
    { pose proof (f_equal length Hdrop) as Hl. rewrite List.length_skipn in Hl.
      cbn [length] in Hl. fold n in Hl. lia. }
    destruct (decide (mid + 1 < n)%nat) as [Hsmall | Hlast].
    + destruct (Py.contains _CONTINUATION_STR s'); lia.
    + assert (Hmid_eq : mid = (n - 1)%nat) by lia.
      assert (Hprobe : is_file_line lines_mid = true
                       /\ (n / 2 + 1 = n - 1)%nat).
      { unfold mid in Hmid_eq.
        destruct (is_file_line lines_mid); cbn [negb] in Hmid_eq.
        - split; [reflexivity | lia].
        - exfalso. pose proof (Nat.Div0.mul_div_le n 2). lia. }
      destruct Hprobe as (Hprobe & Hidx).
      assert (Hflag : flag = 1%nat).
      { unfold flag. rewrite last_lookup. fold n.
        replace (pred n) with (n / 2 + 1)%nat by lia.
        rewrite Hmid. cbn. now rewrite Hprobe. }
      destruct (Py.contains _CONTINUATION_STR s') eqn:Hmark; [lia|].
      assert (Hsame : lines_of s' = new_lines).
      { unfold lines_of. rewrite (replace_without _ _ _ Hmark), <- Hs'.
        apply splitlines_join; [exact Hnew|].
        unfold new_lines. rewrite last_snoc. discriminate. }
      assert (Hflag0 : flag' = 0%nat).
      { unfold flag'. rewrite Hsame. unfold new_lines. rewrite last_snoc.
        reflexivity. }
      rewrite Hsame, Hcount. lia.
  - (* a line follows the mark *)
    assert (Hmark : Py.contains _CONTINUATION_STR s' = true).
    { rewrite <- Hs'. unfold new_lines. apply join_with_mark. }
    rewrite Hmark in Hstep. lia.
Qed.

(** With fuel above the measure, the loop ends: the text fits, or
    [IndexError]. *)
Lemma remove_lines_while_ends (capacity : Z) :
  forall (fuel : nat) (error_string : string),
    (removal_measure error_string < fuel)%nat ->
    (exists s', remove_lines_while fuel capacity error_string = Return s'
                /\ fits capacity s' = true)
    \/ remove_lines_while fuel capacity error_string = Raise IndexError.
Proof.
  induction fuel as [|fuel IH]; intros error_string Hfuel; [lia|].
  cbn [remove_lines_while].
  destruct (Py.len error_string <=? capacity)%Z eqn:Hfits.
  - left. exists error_string. now split.
  - destruct (_minify_by_removing_lines error_string) as [s'|e|] eqn:Hstep.
    + cbn [obind]. apply IH.
      pose proof (removing_lines_decreases _ _ Hstep). lia.
    + right. cbn [obind]. unfold _minify_by_removing_lines in Hstep.
      destruct (_ !! _); cbn [or_raise obind] in Hstep; [discriminate|].
      now injection Hstep as <-.
    + unfold _minify_by_removing_lines in Hstep.
      destruct (_ !! _); discriminate.
Qed.

Lemma removal_measure_bound (error_string : string) :
  (removal_measure error_string <= 2 * String.length error_string + 3)%nat.
Proof.
  unfold removal_measure, lines_of.
  pose proof (length_splitlines
                (Py.replace error_string _CONTINUATION_STR EmptyString)) as Hl.
  pose proof (line_breaks_replace _CONTINUATION_STR ltac:(discriminate)
                _ error_string (le_n _)) as Hr.
  pose proof (line_breaks_le_length error_string) as Hb.
  destruct (default false _); lia.
Qed.

(** The last resort always ends. *)
Theorem last_resort_ends (fuel : nat) (capacity : Z) (error_string : string) :
  (2 * String.length error_string + 4 <= fuel)%nat ->
  (exists s', remove_lines_while fuel capacity error_string = Return s'
              /\ fits capacity s' = true)
  \/ remove_lines_while fuel capacity error_string = Raise IndexError.
Proof.
  intros Hfuel. apply remove_lines_while_ends.
  pose proof (removal_measure_bound error_string). lia.
Qed.

(** [set_capacity] always ends. *)
Theorem set_capacity_ends (fuel : nat) (self : loc) (st : store) (o : t)
    (errors : list string) (capacity : Z) :
  minifiers st !! self = Some o ->
  lists st !! _errors_list o = Some errors ->
  (2 * String.length (Py.join Py.NL (strategy4 errors)) + 4 <= fuel)%nat ->
  fst (set_capacity fuel self capacity st) = Return tt
  \/ fst (set_capacity fuel self capacity st) = Raise IndexError.
Proof.
  intros Hself Hlist Hfuel.
  rewrite (set_capacity_by_strategies fuel self st o errors capacity
             Hself Hlist).
  cbn [fst]. unfold minified_by_strategies.
  destruct (bool_decide (errors = [])); [now left|].
  destruct (fits capacity (Py.join Py.NL errors)); [now left|].
  destruct (fits capacity (Py.join Py.NL (strategy2 errors))); [now left|].
  destruct (fits capacity (Py.join Py.NL (strategy3 errors))); [now left|].
  destruct (fits capacity (Py.join Py.NL (strategy4 errors))); [now left|].
  cbn [fst].
  destruct (remove_lines_while_ends capacity fuel
              (Py.join Py.NL (strategy4 errors))) as [(s' & Hs' & _) | Hraise].
  { pose proof (removal_measure_bound (Py.join Py.NL (strategy4 errors))). lia. }
  - left. now rewrite Hs'.
  - right. now rewrite Hraise.
Qed.

End LastResortEnds.

Lemma last_resort_ends_witness :
  (exists s',
      ErrorMinifier.remove_lines_while 400 10 Scenario.traceback_error
      = Return s'
      /\ fits 10 s' = true)
  \/ ErrorMinifier.remove_lines_while 400 10 Scenario.traceback_error
     = Raise IndexError.
Proof.
  apply (last_resort_ends 400 10 Scenario.traceback_error).
  vm_compute. lia.
Defined.

Lemma set_capacity_ends_witness :
  fst (ErrorMinifier.set_capacity 8 0%nat 1 (Scenario.with_minifier ["ab"]))
  = Return tt
  \/ fst (ErrorMinifier.set_capacity 8 0%nat 1 (Scenario.with_minifier ["ab"]))
     = Raise IndexError.
Proof.
  apply (set_capacity_ends 8 0%nat (Scenario.with_minifier ["ab"])
           (ErrorMinifierObj.mk 0%nat None (Py.join Py.NL ["ab"])) ["ab"] 1).
  - vm_compute. reflexivity.
  - vm_compute. reflexivity.
  - vm_compute. lia.
Defined.

(* ================================================================== *)
(** * When removing nested exceptions helps *)
(* ================================================================== *)

Section NestedExceptions.
Import ErrorMinifier.

Lemma weight_app (a b : list string) :
  weight (a ++ b) = (weight a + weight b)%nat.
Proof. induction a as [|x a IH]; [reflexivity|]. cbn [app weight]. lia. Qed.

Lemma weight_drop_le (lines : list string) :
  forall (i j : nat),
    (i <= j)%nat -> (weight (drop j lines) <= weight (drop i lines))%nat.
Proof.
  induction lines as [|x lines IH]; intros i j Hij.
  - now rewrite !drop_nil.
  - destruct j as [|j].
    + replace i with 0%nat by lia. reflexivity.
    + destruct i as [|i].
      * cbn [drop weight]. specialize (IH 0%nat j ltac:(lia)).
        rewrite drop_0 in IH. lia.
      * cbn [drop]. apply IH. lia.
Qed.

Lemma first_line_with_lookup (marker : string) :
  forall (lines : list string) (idx : nat),
    first_line_with marker lines = Some idx ->
    exists line, lines !! idx = Some line /\ Py.contains marker line = true.
Proof.
  induction lines as [|x lines IH]; intros idx Hidx; [discriminate|].
  cbn [first_line_with] in Hidx.
  destruct (Py.contains marker x) eqn:Hx.
  - injection Hidx as <-. now exists x.
  - destruct (first_line_with marker lines) as [i|]; [|discriminate].
    injection Hidx as <-. exact (IH i eq_refl).
Qed.

Lemma contains_length (sub s : string) :
  Py.contains sub s = true -> (String.length sub <= String.length s)%nat.
Proof.
  induction s as [|c s IH]; cbn [Py.contains]; intros Hc.
  - rewrite orb_false_r in Hc. now apply startswith_length in Hc.
  - apply orb_true_iff in Hc as [Hc | Hc].
    + now apply startswith_length in Hc.
    + specialize (IH Hc). cbn [String.length]. lia.
Qed.

(** The strategy shortens the text when the mark is at least four
    lines from the end, and lengthens the joined lines when it is on one
    of the two lines before the last. *)
Theorem nested_exceptions_shrink_or_grow (error_string : string) (idx : nat) :
  let lines := Py.splitlines error_string in
  first_line_with "During handling of the above exception" lines = Some idx ->
  ((idx + 3 < length lines)%nat ->
   (Py.len (_minify_by_removing_nested_exceptions error_string) + 34
    <= Py.len error_string)%Z)
  /\ ((length lines <= idx + 3)%nat -> (idx + 1 < length lines)%nat ->
      (Py.len (Py.join Py.NL lines) + 5
       <= Py.len (_minify_by_removing_nested_exceptions error_string))%Z).
Proof.
  intros lines Hidx.
  destruct (first_line_with_lookup _ lines idx Hidx) as (line & Hline & Hmark).
  apply contains_length in Hmark.
  change (String.length "During handling of the above exception")
    with 38%nat in Hmark.
  pose proof (lookup_lt_Some _ _ _ Hline) as Hlt.
  assert (Hresult :
    (idx + 1 < length lines)%nat ->
    _minify_by_removing_nested_exceptions error_string
    = Py.join Py.NL
        (take idx lines ++ [_CONTINUATION_STR]
         ++ drop (length lines - 3) lines)).
  { intros Hnot_last. unfold _minify_by_removing_nested_exceptions.
    fold lines. rewrite Hidx. cbv zeta.
    replace (Z.of_nat idx =? Z.of_nat (length lines) - 1)%Z with false
      by (symmetry; apply Z.eqb_neq; lia).
    now rewrite Nat2Z.id. }
  assert (Hlen : forall l : list string,
             l <> [] ->
             Py.len (Py.join Py.NL l) = (Z.of_nat (weight l) - 1)%Z).
  { intros l Hl. unfold Py.len.
    change Py.NL with (String Py.LF EmptyString).
    rewrite length_join_weight. destruct l; [congruence|].
    cbn [weight]. lia. }
  assert (Hsplit : weight lines
                   = (weight (take idx lines) + (String.length line + 1)
                      + weight (drop (S idx) lines))%nat).
  { rewrite <- (List.firstn_skipn idx lines) at 1. rewrite weight_app.
    rewrite (drop_S _ _ _ Hline). cbn [weight]. lia. }
  pose proof (weight_splitlines_bound _ error_string (le_n _)) as Hbound.
  fold lines in Hbound.
  assert (Hmark_weight : weight [_CONTINUATION_STR] = 5%nat) by reflexivity.
  assert (Hnew : Py.len (Py.join Py.NL
                           (take idx lines ++ [_CONTINUATION_STR]
                            ++ drop (length lines - 3) lines))
                 = (Z.of_nat (weight (take idx lines) + 5
                              + weight (drop (length lines - 3) lines)) - 1)%Z).
  { rewrite Hlen.
    - rewrite !weight_app, Hmark_weight. f_equal. lia.
    - intros Heq. apply app_eq_nil in Heq as (_ & Heq). discriminate. }
  assert (Hold : Py.len (Py.join Py.NL lines)
                 = (Z.of_nat (weight lines) - 1)%Z).
  { apply Hlen. intros Heq. rewrite Heq in Hlt. cbn in Hlt. lia. }
  split.
  - intros Hfar. rewrite Hresult, Hnew by lia.
    pose proof (weight_drop_le lines (S idx) (length lines - 3) ltac:(lia)).
    unfold Py.len. lia.
  - intros Hnear Hnot_last. rewrite Hresult, Hnew, Hold by lia.
    pose proof (weight_drop_le lines (length lines - 3) idx ltac:(lia)).
    assert (Hdrop : weight (drop idx lines)
                    = (String.length line + 1 + weight (drop (S idx) lines))%nat).
    { rewrite (drop_S _ _ _ Hline). cbn [weight]. lia. }
    lia.
Qed.

End NestedExceptions.

Lemma nested_exceptions_shrink_or_grow_witness :
  let lines := Py.splitlines Scenario.nested_error in
  ((1 + 3 < length lines)%nat ->
   (Py.len (ErrorMinifier._minify_by_removing_nested_exceptions
              Scenario.nested_error) + 34
    <= Py.len Scenario.nested_error)%Z)
  /\ ((length lines <= 1 + 3)%nat -> (1 + 1 < length lines)%nat ->
      (Py.len (Py.join Py.NL lines) + 5
       <= Py.len (ErrorMinifier._minify_by_removing_nested_exceptions
                    Scenario.nested_error))%Z).
Proof.
  apply (nested_exceptions_shrink_or_grow Scenario.nested_error 1).
  vm_compute. reflexivity.
Defined.

(* ================================================================== *)
(** * The names of a path *)
(* ================================================================== *)

Section PathNames.
Import ErrorMinifier.
































End PathNames.

(* ================================================================== *)
(** * The strategies do what their description says *)
(* ================================================================== *)

Section DescribedStrategies.
Import ErrorMinifier ErrorMinifierObj.



















End DescribedStrategies.

(* ================================================================== *)
(** * [set_capacity] and the described strategies *)
(* ================================================================== *)

Section DescribedMinifier.
Import ErrorMinifier ErrorMinifierObj.


End DescribedMinifier.


(** In that run the frame of the traceback has lost the first four
    directories of its path. *)
Lemma traceback_path_shortened :
  Described.minified 10 120 [Scenario.traceback_error]
  = Return ("Traceback (most recent call last):" +:+ Py.NL
            +:+ "azure/cli/core/commands/__init__.py, ln 206, in execute"
            +:+ Py.NL +:+ "    raise CLIError(ex)").
Proof. vm_compute. reflexivity. Qed.
